(** * SmartNotesX backend: resource lifecycle and authorization

    A shallow embedding of the Express/Mongoose route handlers of the
    SmartNotesX backend (note, job, bookmark and admin controllers together
    with the Mongoose schemas they rely on), and the properties of the
    note/job resource lifecycle proved about them.

    Conventions of the embedding.
    - A collection is the list of its documents in natural (insertion) order.
    - An [async] handler is a computation in the monad [IO]: it threads the
      persistent world (database collections and media store) and either
      resolves with a value or rejects with an exception.  Writes performed
      before a rejection stay in the world: nothing is rolled back, as no
      handler opens a transaction.
    - The JavaScript regular-expression engine, the cast of a query value
      to a number and the sort performed by the database are parameters of
      the listing handlers.
    - Identifiers are well-formed ObjectIds, and the request fields have
      the types the handlers expect of them.
    - Strings are byte strings; JavaScript string operations are modelled on
      their ASCII behaviour.
    - Only the [createdAt] timestamp is part of a document; the [updatedAt]
      bookkeeping of the timestamps plugin is left out. *)

From Stdlib Require Import ZArith String Ascii List Lia Bool Permutation.
From stdpp Require Import base option list strings gmap.
Import ListNotations.

(** ** JavaScript preliminaries *)

(** Truthiness of the values a request field can carry. *)
Class Truthy (A : Type) := truthy : A -> bool.

#[global] Instance truthy_string : Truthy string :=
  fun s => match s with EmptyString => false | String _ _ => true end.

#[global] Instance truthy_Z : Truthy Z :=
  fun z => negb (Z.eqb z 0).

#[global] Instance truthy_option {A} `{Truthy A} : Truthy (option A) :=
  fun o => match o with Some a => truthy a | None => false end.

(** [a || b] where [a] may be [undefined] (absent from the request). *)
Definition js_or {A} `{Truthy A} (a : option A) (b : A) : A :=
  match a with
  | Some x => if truthy x then x else b
  | None => b
  end.

(** [a || b] where both sides may be [undefined]. *)
Definition js_or_undef {A} `{Truthy A} (a b : option A) : option A :=
  if truthy a then a else b.

(** [String.prototype.trim]. *)
Fixpoint trimStart (s : string) : string :=
  match s with
  | EmptyString => EmptyString
  | String c s' => if Ascii.is_space c then trimStart s' else s
  end.

Definition trim (s : string) : string :=
  String.rev (trimStart (String.rev (trimStart s))).

(** [s.split(',')]: the pieces between commas; never empty. *)
Fixpoint split_go (cur : string) (s : string) : list string :=
  match s with
  | EmptyString => [String.rev cur]
  | String c s' =>
      if Ascii.eqb c ","%char then String.rev cur :: split_go EmptyString s'
      else split_go (String c cur) s'
  end.

Definition split_comma (s : string) : list string := split_go EmptyString s.

(** [s.startsWith(p)]. *)
Definition startsWith (s p : string) : bool := String.prefix p s.

(** ASCII upper-casing, the canonicalisation used by case-insensitive
    matching. *)
Definition upper_ascii (c : ascii) : ascii :=
  let n := nat_of_ascii c in
  if andb (Nat.leb 97 n) (Nat.leb n 122) then ascii_of_nat (n - 32) else c.

Definition ci_eqb (a b : ascii) : bool :=
  Ascii.eqb (upper_ascii a) (upper_ascii b).

Fixpoint ci_prefix (p s : list ascii) : bool :=
  match p, s with
  | [], _ => true
  | _ :: _, [] => false
  | a :: p', b :: s' => ci_eqb a b && ci_prefix p' s'
  end.

(** [p] occurs in [s] as a contiguous substring, ignoring ASCII case. *)
Fixpoint ci_infix (p s : list ascii) : bool :=
  ci_prefix p s ||
  match s with
  | [] => false
  | _ :: s' => ci_infix p s'
  end.

Definition ci_substring (p s : string) : bool :=
  ci_infix (list_ascii_of_string p) (list_ascii_of_string s).

(** ** Data model *)

Definition ObjectId := nat.
(** Instants, in milliseconds since the epoch. *)
Definition Date := Z.

(** [USER_ROLES] of [utils/constants.js]. *)
Inductive Role := student | admin.

Definition Role_str (r : Role) : string :=
  match r with student => "student" | admin => "admin" end.

(** [NOTE_STATUS] of [utils/constants.js]. *)
Inductive NoteStatus := pending | approved | rejected.

Definition NoteStatus_str (s : NoteStatus) : string :=
  match s with
  | pending => "pending" | approved => "approved" | rejected => "rejected"
  end.

Inductive JobStatus := active | closed | draft.

Definition JobStatus_str (s : JobStatus) : string :=
  match s with active => "active" | closed => "closed" | draft => "draft" end.

Inductive JobType := Job_ | Internship.

Definition JobType_str (t : JobType) : string :=
  match t with Job_ => "Job" | Internship => "Internship" end.

Inductive LocationType := Remote | OnSite | Hybrid.

Definition LocationType_str (t : LocationType) : string :=
  match t with Remote => "Remote" | OnSite => "On-site" | Hybrid => "Hybrid" end.

Inductive ApplicationStatus := applied | shortlisted | app_rejected | accepted.

#[global] Instance Role_eq_dec : EqDecision Role.
Proof. solve_decision. Defined.
#[global] Instance NoteStatus_eq_dec : EqDecision NoteStatus.
Proof. solve_decision. Defined.
#[global] Instance JobStatus_eq_dec : EqDecision JobStatus.
Proof. solve_decision. Defined.

(** [models/User.js] *)
Module User.
Record t := mk {
  _id : ObjectId;
  name : string;
  email : string;
  password : string;          (* the bcrypt hash *)
  role : Role;
  branch : option string;
  semester : option Z;
  avatar : string;
  isActive : bool;
  uploadedNotes : list ObjectId;
  bookmarks : list ObjectId;
  createdAt : Date
}.

Definition set_uploadedNotes (l : list ObjectId) (u : t) : t :=
  mk (_id u) (name u) (email u) (password u) (role u) (branch u)
     (semester u) (avatar u) (isActive u) l (bookmarks u) (createdAt u).

Definition set_bookmarks (l : list ObjectId) (u : t) : t :=
  mk (_id u) (name u) (email u) (password u) (role u) (branch u)
     (semester u) (avatar u) (isActive u) (uploadedNotes u) l (createdAt u).

Definition set_isActive (b : bool) (u : t) : t :=
  mk (_id u) (name u) (email u) (password u) (role u) (branch u)
     (semester u) (avatar u) b (uploadedNotes u) (bookmarks u) (createdAt u).
End User.

(** [models/Note.js] *)
Module Note.
Record t := mk {
  _id : ObjectId;
  title : string;
  description : option string;
  subject : string;
  semester : Z;
  branch : string;
  fileUrl : string;
  fileType : string;
  fileSize : option Z;
  cloudinaryPublicId : string;
  uploadedBy : ObjectId;
  status : NoteStatus;
  views : Z;
  downloads : Z;
  bookmarkedBy : list ObjectId;
  tags : list string;
  rating : Z;
  ratingCount : Z;
  createdAt : Date
}.

Definition set_bookmarkedBy (l : list ObjectId) (n : t) : t :=
  mk (_id n) (title n) (description n) (subject n) (semester n) (branch n)
     (fileUrl n) (fileType n) (fileSize n) (cloudinaryPublicId n)
     (uploadedBy n) (status n) (views n) (downloads n) l (tags n)
     (rating n) (ratingCount n) (createdAt n).

Definition set_views (v : Z) (n : t) : t :=
  mk (_id n) (title n) (description n) (subject n) (semester n) (branch n)
     (fileUrl n) (fileType n) (fileSize n) (cloudinaryPublicId n)
     (uploadedBy n) (status n) v (downloads n) (bookmarkedBy n) (tags n)
     (rating n) (ratingCount n) (createdAt n).

Definition set_downloads (v : Z) (n : t) : t :=
  mk (_id n) (title n) (description n) (subject n) (semester n) (branch n)
     (fileUrl n) (fileType n) (fileSize n) (cloudinaryPublicId n)
     (uploadedBy n) (status n) (views n) v (bookmarkedBy n) (tags n)
     (rating n) (ratingCount n) (createdAt n).

(** Schema validators run by [save]: [required], [minlength],
    [maxlength], [min], [max].  The result lists the failing paths. *)
Definition required (s : string) : bool := truthy s.

Definition invalid_paths (n : t) : list string :=
  (if required (title n) && Nat.leb 3 (String.length (title n))
      && Nat.leb (String.length (title n)) 100 then [] else ["title"]) ++
  (match description n with
   | Some d => if Nat.leb (String.length d) 500 then [] else ["description"]
   | None => []
   end) ++
  (if required (subject n) then [] else ["subject"]) ++
  (if Z.leb 1 (semester n) && Z.leb (semester n) 8 then [] else ["semester"]) ++
  (if required (branch n) then [] else ["branch"]) ++
  (if required (fileUrl n) then [] else ["fileUrl"]) ++
  (if required (fileType n) then [] else ["fileType"]) ++
  (if required (cloudinaryPublicId n) then [] else ["cloudinaryPublicId"]) ++
  (if Z.leb 0 (rating n) && Z.leb (rating n) 5 then [] else ["rating"]).

(** The text paths hold trimmed strings, as they do after any write
    through the schema's [trim] setters. *)
Definition trimmed (n : t) : bool :=
  String.eqb (trim (title n)) (title n) &&
  match description n with
  | Some d => String.eqb (trim d) d
  | None => true
  end &&
  String.eqb (trim (subject n)) (subject n) &&
  String.eqb (trim (branch n)) (branch n).
End Note.

(** [models/Job.js] *)
Module Job.
Record Salary := { sal_min : option Z; sal_max : option Z; sal_currency : string }.
Record Stipend := { st_amount : option Z; st_currency : string; st_duration : option string }.
Record Eligibility := { branches : list string; minCGPA : option Z; graduationYear : list Z }.

Record t := mk {
  _id : ObjectId;
  title : string;
  company : string;
  companyLogo : string;
  description : string;
  type : JobType;
  location : string;
  locationType : LocationType;
  salary : Salary;
  stipend : Stipend;
  duration : option string;
  skills : list string;
  eligibility : Eligibility;
  applicationDeadline : Date;
  applyLink : string;
  postedBy : ObjectId;
  status : JobStatus;
  applicants : list ObjectId;
  views : Z;
  isVerified : bool;
  createdAt : Date
}.

Definition set_applicants_views (l : list ObjectId) (v : Z) (j : t) : t :=
  mk (_id j) (title j) (company j) (companyLogo j) (description j) (type j)
     (location j) (locationType j) (salary j) (stipend j) (duration j)
     (skills j) (eligibility j) (applicationDeadline j) (applyLink j)
     (postedBy j) (status j) l v (isVerified j) (createdAt j).
End Job.

(** [models/Application.js] *)
Module Application.
Record Resume := { url : option string; cloudinaryPublicId : option string }.

Record t := mk {
  _id : ObjectId;
  job : ObjectId;
  applicant : ObjectId;
  status : ApplicationStatus;
  resume : Resume;
  coverLetter : option string;
  appliedAt : Date;
  createdAt : Date
}.

(** [coverLetter: maxlength 1000]; [job] and [applicant] are always
    supplied by the handler. *)
Definition invalid_paths (a : t) : list string :=
  match coverLetter a with
  | Some c => if Nat.leb (String.length c) 1000 then [] else ["coverLetter"]
  | None => []
  end.
End Application.

(** [models/Bookmark.js] *)
Module Bookmark.
Record t := mk {
  _id : ObjectId;
  user : ObjectId;
  note : ObjectId;
  createdAt : Date
}.
End Bookmark.

(** ** The persistent world and the handler monad *)

(** Cloudinary's [resource_type]. *)
Inductive ResourceType := image | raw.

Record World := mkWorld {
  users : list User.t;
  notes : list Note.t;
  jobs : list Job.t;
  applications : list Application.t;
  bookmarks : list Bookmark.t;
  (** files held by the media store, as (public id, resource type) *)
  media : list (string * ResourceType)
}.

Definition set_users (l : list User.t) (w : World) : World :=
  mkWorld l (notes w) (jobs w) (applications w) (bookmarks w) (media w).
Definition set_notes (l : list Note.t) (w : World) : World :=
  mkWorld (users w) l (jobs w) (applications w) (bookmarks w) (media w).
Definition set_jobs (l : list Job.t) (w : World) : World :=
  mkWorld (users w) (notes w) l (applications w) (bookmarks w) (media w).
Definition set_applications (l : list Application.t) (w : World) : World :=
  mkWorld (users w) (notes w) (jobs w) l (bookmarks w) (media w).
Definition set_bookmarks (l : list Bookmark.t) (w : World) : World :=
  mkWorld (users w) (notes w) (jobs w) (applications w) l (media w).
Definition set_media (l : list (string * ResourceType)) (w : World) : World :=
  mkWorld (users w) (notes w) (jobs w) (applications w) (bookmarks w) l.

(** What is thrown inside a handler; the handlers only read
    [error.message]. *)
Inductive Exn :=
| ValidationError (model : string) (paths : list string)
| MediaStoreError (message : string)
| SyntaxError (pattern : string)
| CastError (value : string)
| DuplicateKeyError (collection : string).

(** A settled promise. *)
Inductive Settled (A : Type) :=
| Resolved (a : A)
| Rejected (e : Exn).
Arguments Resolved {A} a.
Arguments Rejected {A} e.

Definition IO (A : Type) : Type := World -> Settled A * World.

Definition ret {A} (a : A) : IO A := fun w => (Resolved a, w).

Definition throw {A} (e : Exn) : IO A := fun w => (Rejected e, w).

Definition bind {A B} (m : IO A) (k : A -> IO B) : IO B :=
  fun w =>
    match m w with
    | (Resolved a, w') => k a w'
    | (Rejected e, w') => (Rejected e, w')
    end.

(** [try { body } catch (error) { handler }] *)
Definition try_catch {A} (body : IO A) (handler : Exn -> IO A) : IO A :=
  fun w =>
    match body w with
    | (Resolved a, w') => (Resolved a, w')
    | (Rejected e, w') => handler e w'
    end.

Definition gets {A} (f : World -> A) : IO A := fun w => (Resolved (f w), w).

Definition modify (f : World -> World) : IO unit := fun w => (Resolved tt, f w).

Notation "'let*' x ':=' c1 'in' c2" := (bind c1 (fun x => c2))
  (at level 10, x name, c1 at level 100, c2 at level 200).
Notation "c1 ;; c2" := (bind c1 (fun _ => c2))
  (at level 100, c2 at level 200, right associativity).

(** [for (const x of l) { body x }] *)
Fixpoint for_of {A} (l : list A) (body : A -> IO unit) : IO unit :=
  match l with
  | [] => ret tt
  | x :: l' => body x ;; for_of l' body
  end.

(** What a request sees of its surroundings: the clock, the identifier
    the driver generates for a created document, and the media store's
    verdict on a deletion ([Some msg]: the call rejects with that
    message). *)
Record Env := mkEnv {
  now : Date;
  newId : ObjectId;
  destroy_error : string -> option string
}.

(** The authenticated caller, [req.user], attached by the [protect]
    middleware. *)
Record Caller := mkCaller {
  caller_id : ObjectId;
  caller_role : Role
}.

(** The response envelope. [message] is either a literal of the handler or
    [error.message] of a caught exception. *)
Inductive Message :=
| Literal (s : string)
| ErrorMessage (e : Exn).

Record Response (D : Type) := mkResponse {
  statusCode : nat;
  success : bool;
  message : option Message;
  data : option D
}.
Arguments mkResponse {D} _ _ _ _.
Arguments statusCode {D} _.
Arguments success {D} _.
Arguments message {D} _.
Arguments data {D} _.

(** [res.status(c).json({ success: false, message })] *)
Definition failure {D} (c : nat) (m : string) : Response D :=
  mkResponse c false (Some (Literal m)) None.

(** The [catch] branch shared by all handlers. *)
Definition internal_error {D} (e : Exn) : IO (Response D) :=
  ret (mkResponse 500 false (Some (ErrorMessage e)) None).

(** ** Collection primitives *)

Section Collection.
Context {A : Type} (key : A -> ObjectId).

(** [findById]: the first document carrying the identifier. *)
Definition findById (i : ObjectId) (l : list A) : option A :=
  List.find (fun d => Nat.eqb (key d) i) l.

(** [findByIdAndUpdate]: the update applied to that document. *)
Fixpoint updateById (i : ObjectId) (f : A -> A) (l : list A) : list A :=
  match l with
  | [] => []
  | d :: l' => if Nat.eqb (key d) i then f d :: l' else d :: updateById i f l'
  end.

(** [findByIdAndDelete]: that document removed. *)
Fixpoint deleteById (i : ObjectId) (l : list A) : list A :=
  match l with
  | [] => []
  | d :: l' => if Nat.eqb (key d) i then l' else d :: deleteById i l'
  end.
End Collection.

(** [$push]: append to the array field. *)
Definition push (x : ObjectId) (l : list ObjectId) : list ObjectId := l ++ [x].

(** [$pull]: remove every occurrence from the array field. *)
Definition pull (x : ObjectId) (l : list ObjectId) : list ObjectId :=
  List.filter (fun y => negb (Nat.eqb y x)) l.

(** [findOne({ a: x, b: y })] and [findOneAndDelete] on a pair of
    reference fields. *)
Section Pairs.
Context {A : Type} (fst_ref snd_ref : A -> ObjectId).

Definition refs_match (x y : ObjectId) (d : A) : bool :=
  Nat.eqb (fst_ref d) x && Nat.eqb (snd_ref d) y.

Definition findOne (x y : ObjectId) (l : list A) : option A :=
  List.find (refs_match x y) l.

Fixpoint deleteOne (x y : ObjectId) (l : list A) : list A :=
  match l with
  | [] => []
  | d :: l' => if refs_match x y d then l' else d :: deleteOne x y l'
  end.
End Pairs.

(** [cloudinary.uploader.destroy(publicId, { resource_type })]: rejects
    when the media store reports a failure, and otherwise removes the
    file. *)
Definition resource_type_of (fileType : string) : ResourceType :=
  if startsWith fileType "image/" then image else raw.

Definition same_file (p : string) (r : ResourceType) (f : string * ResourceType) : bool :=
  String.eqb (fst f) p &&
  match snd f, r with image, image | raw, raw => true | _, _ => false end.

Definition cloudinary_destroy (env : Env) (publicId : string) (r : ResourceType)
  : IO unit :=
  match destroy_error env publicId with
  | Some msg => throw (MediaStoreError msg)
  | None =>
      modify (fun w => set_media (List.filter (fun f => negb (same_file publicId r f)) (media w)) w)
  end.

(** [doc.save()] on a loaded note: the validators run, then the stored
    document is replaced. *)
Definition Note_save (n : Note.t) : IO Note.t :=
  match Note.invalid_paths n with
  | [] =>
      modify (fun w => set_notes (updateById Note._id (Note._id n) (fun _ => n) (notes w)) w) ;;
      ret n
  | p :: ps => throw (ValidationError "Note" (p :: ps))
  end.

(** ** Model statics used by the controllers *)

Definition Note_findById (i : ObjectId) : IO (option Note.t) :=
  gets (fun w => findById Note._id i (notes w)).

Definition Note_findByIdAndUpdate (i : ObjectId) (f : Note.t -> Note.t) : IO unit :=
  modify (fun w => set_notes (updateById Note._id i f (notes w)) w).

Definition Note_findByIdAndDelete (i : ObjectId) : IO unit :=
  modify (fun w => set_notes (deleteById Note._id i (notes w)) w).

(** [Note.find({ uploadedBy })] *)
Definition Note_find_uploadedBy (u : ObjectId) : IO (list Note.t) :=
  gets (fun w => List.filter (fun n => Nat.eqb (Note.uploadedBy n) u) (notes w)).

Definition User_findById (i : ObjectId) : IO (option User.t) :=
  gets (fun w => findById User._id i (users w)).

Definition User_findByIdAndUpdate (i : ObjectId) (f : User.t -> User.t) : IO unit :=
  modify (fun w => set_users (updateById User._id i f (users w)) w).

Definition User_findByIdAndDelete (i : ObjectId) : IO unit :=
  modify (fun w => set_users (deleteById User._id i (users w)) w).

Definition is_admin (c : Caller) : bool :=
  match caller_role c with admin => true | student => false end.

(** [note.uploadedBy.toString() !== req.user._id.toString() &&
     req.user.role !== 'admin'] *)
Definition not_owner_nor_admin (note : Note.t) (c : Caller) : bool :=
  negb (Nat.eqb (Note.uploadedBy note) (caller_id c)) && negb (is_admin c).

(** ** Note controller *)

(** The fields [updateNote] reads from [req.body].  [None] is a field that
    is absent from the body; text fields carry strings and [semester] a
    number. *)
Record NotePatch := mkNotePatch {
  p_title : option string;
  p_description : option string;
  p_subject : option string;
  p_semester : option Z;
  p_branch : option string;
  p_tags : option string
}.

(** The assignments of [updateNote] to the loaded document.  String paths
    of the schema carry [trim: true], so every assigned string goes
    through [trim]. *)
Definition apply_patch (body : NotePatch) (note : Note.t) : Note.t :=
  Note.mk
    (Note._id note)
    (trim (js_or (p_title body) (Note.title note)))
    (trim <$> js_or_undef (p_description body) (Note.description note))
    (trim (js_or (p_subject body) (Note.subject note)))
    (js_or (p_semester body) (Note.semester note))
    (trim (js_or (p_branch body) (Note.branch note)))
    (Note.fileUrl note) (Note.fileType note) (Note.fileSize note)
    (Note.cloudinaryPublicId note) (Note.uploadedBy note) (Note.status note)
    (Note.views note) (Note.downloads note) (Note.bookmarkedBy note)
    (if truthy (p_tags body)
     then trim <$> split_comma (default EmptyString (p_tags body))
     else Note.tags note)
    (Note.rating note) (Note.ratingCount note) (Note.createdAt note).

(** [PUT /api/notes/:id] *)
Definition updateNote (caller : Caller) (id : ObjectId) (body : NotePatch)
  : IO (Response Note.t) :=
  try_catch
    (let* found := Note_findById id in
     match found with
     | None => ret (failure 404 "Note not found")
     | Some note =>
         if not_owner_nor_admin note caller
         then ret (failure 403 "Not authorized to update this note")
         else
           let* updatedNote := Note_save (apply_patch body note) in
           ret (mkResponse 200 true (Some (Literal "Note updated successfully"))
                  (Some updatedNote))
     end)
    internal_error.

(** [DELETE /api/notes/:id] *)
Definition deleteNote (env : Env) (caller : Caller) (id : ObjectId)
  : IO (Response unit) :=
  try_catch
    (let* found := Note_findById id in
     match found with
     | None => ret (failure 404 "Note not found")
     | Some note =>
         if not_owner_nor_admin note caller
         then ret (failure 403 "Not authorized to delete this note")
         else
           cloudinary_destroy env (Note.cloudinaryPublicId note)
             (resource_type_of (Note.fileType note)) ;;
           User_findByIdAndUpdate (Note.uploadedBy note)
             (fun u => User.set_uploadedNotes
                         (pull (Note._id note) (User.uploadedNotes u)) u) ;;
           Note_findByIdAndDelete id ;;
           ret (mkResponse 200 true (Some (Literal "Note deleted successfully")) None)
     end)
    internal_error.

(** ** Admin controller: deletions *)

(** The body of the loop of [deleteUser]: the file, then the row. *)
Definition delete_note_and_file (env : Env) (note : Note.t) : IO unit :=
  cloudinary_destroy env (Note.cloudinaryPublicId note)
    (resource_type_of (Note.fileType note)) ;;
  Note_findByIdAndDelete (Note._id note).

(** [DELETE /api/admin/users/:id] *)
Definition deleteUser (env : Env) (id : ObjectId) : IO (Response unit) :=
  try_catch
    (let* found := User_findById id in
     match found with
     | None => ret (failure 404 "User not found")
     | Some user =>
         match User.role user with
         | admin => ret (failure 400 "Cannot delete admin users")
         | student =>
             let* userNotes := Note_find_uploadedBy (User._id user) in
             for_of userNotes (delete_note_and_file env) ;;
             User_findByIdAndDelete id ;;
             ret (mkResponse 200 true
                    (Some (Literal "User and associated notes deleted successfully"))
                    None)
         end
     end)
    internal_error.

(** [DELETE /api/admin/notes/:id] *)
Definition deleteNoteAdmin (env : Env) (id : ObjectId) : IO (Response unit) :=
  try_catch
    (let* found := Note_findById id in
     match found with
     | None => ret (failure 404 "Note not found")
     | Some note =>
         cloudinary_destroy env (Note.cloudinaryPublicId note)
           (resource_type_of (Note.fileType note)) ;;
         User_findByIdAndUpdate (Note.uploadedBy note)
           (fun u => User.set_uploadedNotes
                       (pull (Note._id note) (User.uploadedNotes u)) u) ;;
         Note_findByIdAndDelete id ;;
         ret (mkResponse 200 true (Some (Literal "Note deleted successfully")) None)
     end)
    internal_error.

(** ** Documents as JSON objects *)

#[local] Set Warnings "-register-all".
Inductive json :=
| JNull
| JBool (b : bool)
| JNum (z : Z)
| JStr (s : string)
| JId (i : ObjectId)
| JArr (l : list json)
| JObj (fields : list (string * json)).

Definition opt_field {A} (k : string) (f : A -> json) (o : option A)
  : list (string * json) :=
  match o with Some a => [(k, f a)] | None => [] end.

(** The stored fields of a note, by schema path. *)
Definition Note_toObject (n : Note.t) : list (string * json) :=
  [("_id", JId (Note._id n)); ("title", JStr (Note.title n))] ++
  opt_field "description" JStr (Note.description n) ++
  [("subject", JStr (Note.subject n)); ("semester", JNum (Note.semester n));
   ("branch", JStr (Note.branch n)); ("fileUrl", JStr (Note.fileUrl n));
   ("fileType", JStr (Note.fileType n))] ++
  opt_field "fileSize" JNum (Note.fileSize n) ++
  [("cloudinaryPublicId", JStr (Note.cloudinaryPublicId n));
   ("uploadedBy", JId (Note.uploadedBy n));
   ("status", JStr (NoteStatus_str (Note.status n)));
   ("views", JNum (Note.views n)); ("downloads", JNum (Note.downloads n));
   ("bookmarkedBy", JArr (JId <$> Note.bookmarkedBy n));
   ("tags", JArr (JStr <$> Note.tags n));
   ("rating", JNum (Note.rating n)); ("ratingCount", JNum (Note.ratingCount n));
   ("createdAt", JNum (Note.createdAt n))].

(** The stored fields of a job, by schema path. *)
Definition Job_toObject (j : Job.t) : list (string * json) :=
  [("_id", JId (Job._id j)); ("title", JStr (Job.title j));
   ("company", JStr (Job.company j)); ("companyLogo", JStr (Job.companyLogo j));
   ("description", JStr (Job.description j));
   ("type", JStr (JobType_str (Job.type j)));
   ("location", JStr (Job.location j));
   ("locationType", JStr (LocationType_str (Job.locationType j)));
   ("salary", JObj (opt_field "min" JNum (Job.sal_min (Job.salary j)) ++
                    opt_field "max" JNum (Job.sal_max (Job.salary j)) ++
                    [("currency", JStr (Job.sal_currency (Job.salary j)))]));
   ("stipend", JObj (opt_field "amount" JNum (Job.st_amount (Job.stipend j)) ++
                     [("currency", JStr (Job.st_currency (Job.stipend j)))] ++
                     opt_field "duration" JStr (Job.st_duration (Job.stipend j))))] ++
  opt_field "duration" JStr (Job.duration j) ++
  [("skills", JArr (JStr <$> Job.skills j));
   ("eligibility",
     JObj ([("branches", JArr (JStr <$> Job.branches (Job.eligibility j)))] ++
           opt_field "minCGPA" JNum (Job.minCGPA (Job.eligibility j)) ++
           [("graduationYear", JArr (JNum <$> Job.graduationYear (Job.eligibility j)))]));
   ("applicationDeadline", JNum (Job.applicationDeadline j));
   ("applyLink", JStr (Job.applyLink j)); ("postedBy", JId (Job.postedBy j));
   ("status", JStr (JobStatus_str (Job.status j)));
   ("applicants", JArr (JId <$> Job.applicants j));
   ("views", JNum (Job.views j)); ("isVerified", JBool (Job.isVerified j));
   ("createdAt", JNum (Job.createdAt j))].

(** The value a document has at a top-level path; [null] when it has
    none. *)
Fixpoint assoc (k : string) (l : list (string * json)) : json :=
  match l with
  | [] => JNull
  | (k', v) :: l' => if String.eqb k' k then v else assoc k l'
  end.

(** A field selection of a query. *)
Inductive Projection :=
| SchemaDefault
| Inclusive (paths : list string)
| Exclusive (paths : list string).

(** User documents as they are loaded and serialised. *)
Module UserDoc.
(** The stored document. *)
Definition stored (u : User.t) : gmap string json :=
  list_to_map
    ([("_id", JId (User._id u)); ("name", JStr (User.name u));
      ("email", JStr (User.email u)); ("password", JStr (User.password u));
      ("role", JStr (Role_str (User.role u)))] ++
     opt_field "branch" JStr (User.branch u) ++
     opt_field "semester" JNum (User.semester u) ++
     [("avatar", JStr (User.avatar u)); ("isActive", JBool (User.isActive u));
      ("uploadedNotes", JArr (JId <$> User.uploadedNotes u));
      ("bookmarks", JArr (JId <$> User.bookmarks u));
      ("createdAt", JNum (User.createdAt u))]).

(** The paths declared with [select: false]. *)
Definition select_false : list string := ["password"].

Definition project (p : Projection) (o : gmap string json) : gmap string json :=
  match p with
  | SchemaDefault => foldr delete o select_false
  | Inclusive paths => filter (fun kv => bool_decide (fst kv ∈ "_id" :: paths)) o
  | Exclusive paths => foldr delete (foldr delete o select_false) paths
  end.

(** The document a query with selection [p] hands to the handler. *)
Definition load (p : Projection) (u : User.t) : gmap string json :=
  project p (stored u).

(** [userSchema.methods.toJSON]: [toObject] copies the loaded paths,
    then [delete user.password]. *)
Definition toObject (doc : gmap string json) : gmap string json := doc.

Definition toJSON (doc : gmap string json) : gmap string json :=
  delete "password" (toObject doc).
End UserDoc.

(** A document together with the serialised user its reference path was
    populated with ([None]: the referenced user does not exist, the path
    is [null]). *)
Record Populated (D : Type) := mkPopulated {
  doc : D;
  populated : option (gmap string json)
}.
Arguments mkPopulated {D} _ _.
Arguments doc {D} _.
Arguments populated {D} _.

(** [.populate(path, select)] for a path that references a user. *)
Definition populate_user {D} (ref : D -> ObjectId) (select : list string)
    (us : list User.t) (d : D) : Populated D :=
  mkPopulated d
    (UserDoc.toJSON <$> (UserDoc.load (Inclusive select) <$> findById User._id (ref d) us)).

(** ** Job controller: applications *)

Definition Job_findById (i : ObjectId) : IO (option Job.t) :=
  gets (fun w => findById Job._id i (jobs w)).

Definition Job_findByIdAndUpdate (i : ObjectId) (f : Job.t -> Job.t) : IO unit :=
  modify (fun w => set_jobs (updateById Job._id i f (jobs w)) w).

Definition Application_findOne (job applicant : ObjectId) : IO (option Application.t) :=
  gets (fun w => findOne Application.job Application.applicant job applicant (applications w)).

(** [Application.create]: schema defaults, validation, then the insert,
    which the unique index on (job, applicant) can refuse. *)
Definition Application_create (env : Env) (job applicant : ObjectId)
    (coverLetter : option string) : IO Application.t :=
  let a := Application.mk (newId env) job applicant applied
             (Application.Build_Resume None None) coverLetter (now env) (now env) in
  match Application.invalid_paths a with
  | p :: ps => throw (ValidationError "Application" (p :: ps))
  | [] =>
      let* clash := Application_findOne job applicant in
      match clash with
      | Some _ => throw (DuplicateKeyError "applications")
      | None =>
          modify (fun w => set_applications (applications w ++ [a]) w) ;;
          ret a
      end
  end.

(** [POST /api/jobs/:id/apply] *)
Definition applyForJob (env : Env) (caller : Caller) (id : ObjectId)
    (coverLetter : option string) : IO (Response Application.t) :=
  try_catch
    (let* found := Job_findById id in
     match found with
     | None => ret (failure 404 "Job not found")
     | Some job =>
         if Z.ltb (Job.applicationDeadline job) (now env)
         then ret (failure 400 "Application deadline has passed")
         else
           let* existingApplication := Application_findOne id (caller_id caller) in
           match existingApplication with
           | Some _ => ret (failure 400 "You have already applied for this job")
           | None =>
               let* application :=
                 Application_create env id (caller_id caller) coverLetter in
               Job_findByIdAndUpdate id
                 (fun j => Job.set_applicants_views
                             (push (caller_id caller) (Job.applicants j))
                             (Job.views j + 1)%Z j) ;;
               ret (mkResponse 201 true
                      (Some (Literal "Application submitted successfully"))
                      (Some application))
           end
     end)
    internal_error.

(** ** Bookmark controller *)

Definition Bookmark_findOne (user note : ObjectId) : IO (option Bookmark.t) :=
  gets (fun w => findOne Bookmark.user Bookmark.note user note (bookmarks w)).

(** [Bookmark.create]: the insert, which the unique index on (user, note)
    can refuse. *)
Definition Bookmark_create (env : Env) (user note : ObjectId) : IO Bookmark.t :=
  let b := Bookmark.mk (newId env) user note (now env) in
  let* clash := Bookmark_findOne user note in
  match clash with
  | Some _ => throw (DuplicateKeyError "bookmarks")
  | None =>
      modify (fun w => set_bookmarks (bookmarks w ++ [b]) w) ;;
      ret b
  end.

(** [Bookmark.findOneAndDelete({ user, note })] *)
Definition Bookmark_findOneAndDelete (user note : ObjectId) : IO (option Bookmark.t) :=
  let* found := Bookmark_findOne user note in
  modify (fun w => set_bookmarks
                     (deleteOne Bookmark.user Bookmark.note user note (bookmarks w)) w) ;;
  ret found.

(** [POST /api/bookmarks/:noteId] *)
Definition addBookmark (env : Env) (caller : Caller) (noteId : ObjectId)
  : IO (Response Bookmark.t) :=
  try_catch
    (let* note := Note_findById noteId in
     match note with
     | None => ret (failure 404 "Note not found")
     | Some _ =>
         let* existingBookmark := Bookmark_findOne (caller_id caller) noteId in
         match existingBookmark with
         | Some _ => ret (failure 400 "Note already bookmarked")
         | None =>
             let* bookmark := Bookmark_create env (caller_id caller) noteId in
             User_findByIdAndUpdate (caller_id caller)
               (fun u => User.set_bookmarks (push noteId (User.bookmarks u)) u) ;;
             Note_findByIdAndUpdate noteId
               (fun n => Note.set_bookmarkedBy
                           (push (caller_id caller) (Note.bookmarkedBy n)) n) ;;
             ret (mkResponse 201 true (Some (Literal "Bookmark added successfully"))
                    (Some bookmark))
         end
     end)
    internal_error.

(** [DELETE /api/bookmarks/:noteId] *)
Definition removeBookmark (caller : Caller) (noteId : ObjectId)
  : IO (Response unit) :=
  try_catch
    (let* bookmark := Bookmark_findOneAndDelete (caller_id caller) noteId in
     match bookmark with
     | None => ret (failure 404 "Bookmark not found")
     | Some _ =>
         User_findByIdAndUpdate (caller_id caller)
           (fun u => User.set_bookmarks (pull noteId (User.bookmarks u)) u) ;;
         Note_findByIdAndUpdate noteId
           (fun n => Note.set_bookmarkedBy
                       (pull (caller_id caller) (Note.bookmarkedBy n)) n) ;;
         ret (mkResponse 200 true (Some (Literal "Bookmark removed successfully")) None)
     end)
    internal_error.

(** [GET /api/bookmarks/check/:noteId]; the data is [isBookmarked]. *)
Definition checkBookmark (caller : Caller) (noteId : ObjectId)
  : IO (Response bool) :=
  try_catch
    (let* bookmark := Bookmark_findOne (caller_id caller) noteId in
     ret (mkResponse 200 true None
            (Some (match bookmark with Some _ => true | None => false end))))
    internal_error.

(** ** Listings *)

(** [Math.ceil(total / limit)] for a positive [limit]. *)
Definition ceil_div (total limit : nat) : nat := (total + (limit - 1)) / limit.

(** [if (x) query.field = x]: the condition is part of the query when the
    parameter is a non-empty string. *)
Definition when_truthy (o : option string) : option string :=
  match o with
  | Some s => if truthy s then Some s else None
  | None => None
  end.

(** A condition that holds when it is not part of the query. *)
Definition holds {A} (c : option A) (p : A -> bool) : bool :=
  match c with Some a => p a | None => true end.

(** Query parameters of [GET /api/notes].  Text parameters are strings
    when present; [page] and [limit], when present, are positive decimal
    numerals, given by their value. *)
Record NotesQuery := mkNotesQuery {
  nq_semester : option string;
  nq_branch : option string;
  nq_subject : option string;
  nq_search : option string;
  nq_page : option positive;
  nq_limit : option positive;
  nq_sortBy : option string;
  nq_order : option string
}.

(** The query object [getNotes] builds. *)
Record NoteFilter := mkNoteFilter {
  nf_status : string;
  nf_semester : option string;
  nf_branch : option string;
  nf_subject : option (string -> bool);
  nf_or : option (string -> bool)
}.

Record Pagination := mkPagination {
  total : nat;
  page : nat;
  pages : nat;
  limit : nat
}.

Record Page (D : Type) := mkPage {
  items : list D;
  pagination : Pagination
}.
Arguments mkPage {D} _ _.
Arguments items {D} _.
Arguments pagination {D} _.

(** The pagination of the admin listings, which carries no [limit]. *)
Record AdminPagination := mkAdminPagination {
  a_total : nat;
  a_page : nat;
  a_pages : nat
}.

Record AdminPage (D : Type) := mkAdminPage {
  a_items : list D;
  a_pagination : AdminPagination
}.
Arguments mkAdminPage {D} _ _.
Arguments a_items {D} _.
Arguments a_pagination {D} _.

(** Query parameters of [GET /api/jobs]. *)
Record JobsQuery := mkJobsQuery {
  jq_type : option string;
  jq_location : option string;
  jq_locationType : option string;
  jq_search : option string;
  jq_status : option string;
  jq_page : option positive;
  jq_limit : option positive;
  jq_sortBy : option string;
  jq_order : option string
}.

(** The query object [getJobs] builds. *)
Record JobFilter := mkJobFilter {
  jf_status : string;
  jf_type : option string;
  jf_location : option (string -> bool);
  jf_locationType : option string;
  jf_or : option (string -> bool);
  jf_deadline_gte : Date
}.

Definition Job_matches (q : JobFilter) (j : Job.t) : bool :=
  String.eqb (JobStatus_str (Job.status j)) (jf_status q) &&
  holds (jf_type q) (String.eqb (JobType_str (Job.type j))) &&
  holds (jf_location q) (fun re => re (Job.location j)) &&
  holds (jf_locationType q) (String.eqb (LocationType_str (Job.locationType j))) &&
  holds (jf_or q) (fun re => re (Job.title j) || re (Job.company j)
                              || re (Job.description j)) &&
  Z.leb (jf_deadline_gte q) (Job.applicationDeadline j).

Definition Note_matches (q : NoteFilter) (semester : option Z) (n : Note.t) : bool :=
  String.eqb (NoteStatus_str (Note.status n)) (nf_status q) &&
  holds semester (Z.eqb (Note.semester n)) &&
  holds (nf_branch q) (String.eqb (Note.branch n)) &&
  holds (nf_subject q) (fun re => re (Note.subject n)) &&
  holds (nf_or q) (fun re => re (Note.title n)
                              || match Note.description n with
                                 | Some d => re d
                                 | None => false
                                 end
                              || re (Note.subject n)).

(** Query parameters of [GET /api/admin/users]. *)
Record UsersQuery := mkUsersQuery {
  uq_page : option positive;
  uq_limit : option positive;
  uq_search : option string;
  uq_role : option string
}.

Record UserFilter := mkUserFilter {
  uf_or : option (string -> bool);
  uf_role : option string
}.

Definition User_matches (q : UserFilter) (u : User.t) : bool :=
  holds (uf_or q) (fun re => re (User.name u) || re (User.email u)) &&
  holds (uf_role q) (String.eqb (Role_str (User.role u))).

(** [$group] with a count: one entry per distinct key, in order of first
    occurrence. *)
Definition group_count {D K} `{EqDecision K} (key : D -> K) (l : list D)
  : list (K * nat) :=
  (fun k => (k, length (List.filter (fun d => bool_decide (key d = k)) l)))
    <$> remove_dups (key <$> l).

(** [$group] with [_id: null] and a [$sum]: no group for an empty
    collection. *)
Definition group_sum {D} (f : D -> Z) (l : list D) : list Z :=
  match l with
  | [] => []
  | _ :: _ => [foldr (fun d acc => (f d + acc)%Z) 0%Z l]
  end.

Record Overview := mkOverview {
  totalUsers : nat;
  totalNotes : nat;
  totalDownloads : Z;
  totalViews : Z
}.

Record Contributor := mkContributor {
  c_id : ObjectId;
  c_name : string;
  c_email : string;
  c_branch : option string;
  notesCount : nat
}.

Record DashboardStats := mkDashboardStats {
  overview : Overview;
  notesByBranch : list (string * nat);
  notesBySemester : list (Z * nat);
  topContributors : list Contributor;
  recentNotes : list (Populated Note.t)
}.

Section Listing.
(** [new RegExp(pattern, 'i')]: [None] when the constructor throws, and
    otherwise the test the pattern stands for on a string field. *)
Variable RegExp_i : string -> option (string -> bool).
(** The cast of a query value to a [Number] path: [None] when it
    fails. *)
Variable castNumber : string -> option Z.
(** The order in which the database returns documents for
    [.sort({ field: -1 })] ([true]) and [.sort({ field: 1 })]
    ([false]), given the value each document has at the field. *)
Variable dbsort : forall D : Type, (D -> json) -> bool -> list D -> list D.

Definition new_RegExp (p : string) : IO (string -> bool) :=
  match RegExp_i p with
  | Some re => ret re
  | None => throw (SyntaxError p)
  end.

(** [if (x) query.field = new RegExp(x, 'i')] *)
Definition regexp_when_truthy (o : option string) : IO (option (string -> bool)) :=
  match when_truthy o with
  | Some s => let* re := new_RegExp s in ret (Some re)
  | None => ret None
  end.

Definition cast_condition (o : option string) : IO (option Z) :=
  match o with
  | Some s =>
      match castNumber s with
      | Some z => ret (Some z)
      | None => throw (CastError s)
      end
  | None => ret None
  end.

(** [order === 'desc' ? -1 : 1] *)
Definition descending (order : string) : bool := String.eqb order "desc".

(** [.sort(..).limit(l).skip(s)] on the matching documents. *)
Definition window {D} (path : D -> json) (desc : bool) (l s : nat)
    (matching : list D) : list D :=
  take l (drop s (dbsort D path desc matching)).

Definition Note_find (q : NoteFilter) (sortBy : string) (desc : bool)
    (l s : nat) : IO (list (Populated Note.t)) :=
  let* semester := cast_condition (nf_semester q) in
  gets (fun w =>
    populate_user Note.uploadedBy ["name"; "email"; "branch"] (users w) <$>
      window (fun n => assoc sortBy (Note_toObject n)) desc l s
        (List.filter (Note_matches q semester) (notes w))).

Definition Note_countDocuments (q : NoteFilter) : IO nat :=
  let* semester := cast_condition (nf_semester q) in
  gets (fun w => length (List.filter (Note_matches q semester) (notes w))).

(** [GET /api/notes] *)
Definition getNotes (q : NotesQuery) : IO (Response (Page (Populated Note.t))) :=
  try_catch
    (let page := Pos.to_nat (default 1%positive (nq_page q)) in
     let limit := Pos.to_nat (default 12%positive (nq_limit q)) in
     let sortBy := default "createdAt" (nq_sortBy q) in
     let order := default "desc" (nq_order q) in
     let* subject := regexp_when_truthy (nq_subject q) in
     let* search := regexp_when_truthy (nq_search q) in
     let query := mkNoteFilter "approved" (when_truthy (nq_semester q))
                    (when_truthy (nq_branch q)) subject search in
     let skip := (page - 1) * limit in
     let* notes := Note_find query sortBy (descending order) limit skip in
     let* total := Note_countDocuments query in
     ret (mkResponse 200 true None
            (Some (mkPage notes
                     (mkPagination total page (ceil_div total limit) limit)))))
    internal_error.

Definition Job_find (q : JobFilter) (sortBy : string) (desc : bool)
    (l s : nat) : IO (list (Populated Job.t)) :=
  gets (fun w =>
    populate_user Job.postedBy ["name"; "email"] (users w) <$>
      window (fun j => assoc sortBy (Job_toObject j)) desc l s
        (List.filter (Job_matches q) (jobs w))).

Definition Job_countDocuments (q : JobFilter) : IO nat :=
  gets (fun w => length (List.filter (Job_matches q) (jobs w))).

(** [GET /api/jobs] *)
Definition getJobs (env : Env) (q : JobsQuery)
  : IO (Response (Page (Populated Job.t))) :=
  try_catch
    (let status := default "active" (jq_status q) in
     let page := Pos.to_nat (default 1%positive (jq_page q)) in
     let limit := Pos.to_nat (default 12%positive (jq_limit q)) in
     let sortBy := default "createdAt" (jq_sortBy q) in
     let order := default "desc" (jq_order q) in
     let* location := regexp_when_truthy (jq_location q) in
     let* search := regexp_when_truthy (jq_search q) in
     let query := mkJobFilter status (when_truthy (jq_type q)) location
                    (when_truthy (jq_locationType q)) search (now env) in
     let skip := (page - 1) * limit in
     let* jobs := Job_find query sortBy (descending order) limit skip in
     let* total := Job_countDocuments query in
     ret (mkResponse 200 true None
            (Some (mkPage jobs
                     (mkPagination total page (ceil_div total limit) limit)))))
    internal_error.

(** [GET /api/admin/users] *)
Definition getAllUsers (q : UsersQuery)
  : IO (Response (AdminPage (gmap string json))) :=
  try_catch
    (let page := Pos.to_nat (default 1%positive (uq_page q)) in
     let limit := Pos.to_nat (default 20%positive (uq_limit q)) in
     let* search := regexp_when_truthy (uq_search q) in
     let query := mkUserFilter search (when_truthy (uq_role q)) in
     let skip := (page - 1) * limit in
     let* listed :=
       gets (fun w =>
         (fun u => UserDoc.toJSON (UserDoc.load (Exclusive ["password"]) u)) <$>
           window (fun u => JNum (User.createdAt u)) true limit skip
             (List.filter (User_matches query) (users w))) in
     let* total := gets (fun w => length (List.filter (User_matches query) (users w))) in
     ret (mkResponse 200 true None
            (Some (mkAdminPage listed
                     (mkAdminPagination total page (ceil_div total limit))))))
    internal_error.

(** [GET /api/bookmarks]: the populated notes of the caller's
    bookmarks, those whose note no longer exists dropped. *)
Definition getMyBookmarks (caller : Caller)
  : IO (Response (list (Populated Note.t))) :=
  try_catch
    (let* bookmarks :=
       gets (fun w =>
         (fun b => populate_user Note.uploadedBy ["name"; "email"; "branch"] (users w)
                     <$> findById Note._id (Bookmark.note b) (notes w)) <$>
           dbsort _ (fun b => JNum (Bookmark.createdAt b)) true
             (List.filter (fun b => Nat.eqb (Bookmark.user b) (caller_id caller))
                (bookmarks w))) in
     let notes := omap id bookmarks in
     ret (mkResponse 200 true None (Some notes)))
    internal_error.

(** [GET /api/admin/stats] *)
Definition getDashboardStats : IO (Response DashboardStats) :=
  try_catch
    (let* totalUsers :=
       gets (fun w => length (List.filter
                                (fun u => String.eqb (Role_str (User.role u)) "student")
                                (users w))) in
     let* totalNotes := gets (fun w => length (notes w)) in
     let* totalDownloads := gets (fun w => group_sum Note.downloads (notes w)) in
     let* totalViews := gets (fun w => group_sum Note.views (notes w)) in
     let* notesByBranch :=
       gets (fun w => dbsort _ (fun g => JNum (Z.of_nat (snd g))) true
                        (group_count Note.branch (notes w))) in
     let* notesBySemester :=
       gets (fun w => dbsort _ (fun g => JNum (fst g)) false
                        (group_count Note.semester (notes w))) in
     let* topContributors :=
       gets (fun w =>
         take 5 (dbsort _ (fun c => JNum (Z.of_nat (notesCount c))) true
           ((fun u => mkContributor (User._id u) (User.name u) (User.email u)
                        (User.branch u)
                        (length (List.filter
                                   (fun n => Nat.eqb (Note.uploadedBy n) (User._id u))
                                   (notes w))))
              <$> users w))) in
     let* recentNotes :=
       gets (fun w =>
         populate_user Note.uploadedBy ["name"; "email"] (users w) <$>
           take 5 (dbsort _ (fun n => JNum (Note.createdAt n)) true (notes w))) in
     ret (mkResponse 200 true None
            (Some (mkDashboardStats
                     (mkOverview totalUsers totalNotes
                        (js_or (head totalDownloads) 0%Z)
                        (js_or (head totalViews) 0%Z))
                     notesByBranch notesBySemester topContributors recentNotes))))
    internal_error.
End Listing.

(** SyntaxCharacter of the ECMAScript pattern grammar: the characters
    that do not stand for themselves in a pattern. *)
Definition is_syntax_char (c : ascii) : bool :=
  bool_decide (c ∈ list_ascii_of_string "^$\.*+?()[]{}|").

(** A pattern that is plain text. *)
Definition no_syntax_char (p : string) : bool :=
  forallb (fun c => negb (is_syntax_char c)) (list_ascii_of_string p).

(** ** A reference engine

    An instance of the listing parameters, used to run the listings on
    concrete data.  Its regular expressions cover the patterns made of
    ordinary characters and [.]: an ordinary character stands for itself
    up to ASCII case, and [.] for any character but a line terminator, as
    in ECMAScript.  A pattern with any other syntax character is outside
    what the instance implements and is reported as refused. *)
Module Engine.
Inductive atom := AnyChar | Lit (c : ascii).

Definition is_line_terminator (c : ascii) : bool :=
  match c with "010"%char | "013"%char => true | _ => false end.

Fixpoint parse (p : list ascii) : option (list atom) :=
  match p with
  | [] => Some []
  | c :: p' =>
      if Ascii.eqb c "."%char then cons AnyChar <$> parse p'
      else if is_syntax_char c then None
      else cons (Lit c) <$> parse p'
  end.

Definition atom_match (a : atom) (c : ascii) : bool :=
  match a with
  | AnyChar => negb (is_line_terminator c)
  | Lit l => ci_eqb l c
  end.

Fixpoint match_here (p : list atom) (s : list ascii) : bool :=
  match p, s with
  | [], _ => true
  | _ :: _, [] => false
  | a :: p', c :: s' => atom_match a c && match_here p' s'
  end.

Fixpoint search (p : list atom) (s : list ascii) : bool :=
  match_here p s ||
  match s with
  | [] => false
  | _ :: s' => search p s'
  end.

Definition RegExp_i (pattern : string) : option (string -> bool) :=
  (fun atoms s => search atoms (list_ascii_of_string s))
    <$> parse (list_ascii_of_string pattern).

(** Unsigned decimal numerals. *)
Fixpoint digits (acc : Z) (s : list ascii) : option Z :=
  match s with
  | [] => Some acc
  | c :: s' =>
      match Ascii.is_nat c with
      | Some d => digits (10 * acc + Z.of_nat d)%Z s'
      | None => None
      end
  end.

Definition castNumber (s : string) : option Z :=
  match list_ascii_of_string s with
  | [] => None
  | l => digits 0%Z l
  end.

(** The comparison order of values of different types, then within
    numbers, strings and identifiers. *)
Definition rank (v : json) : nat :=
  match v with
  | JNull => 0 | JNum _ => 1 | JStr _ => 2 | JObj _ => 3
  | JArr _ => 4 | JId _ => 5 | JBool _ => 6
  end.

Definition leb (a b : json) : bool :=
  match a, b with
  | JNum x, JNum y => Z.leb x y
  | JStr x, JStr y => String.leb x y
  | JId x, JId y => Nat.leb x y
  | _, _ => Nat.leb (rank a) (rank b)
  end.

Section Sort.
Context {D : Type} (path : D -> json) (desc : bool).

Definition before (a b : D) : bool :=
  if desc then leb (path b) (path a) else leb (path a) (path b).

Fixpoint insert (d : D) (l : list D) : list D :=
  match l with
  | [] => [d]
  | e :: l' => if before d e then d :: l else e :: insert d l'
  end.

Definition sort (l : list D) : list D := foldr insert [] l.
End Sort.

Definition dbsort (D : Type) (path : D -> json) (desc : bool) (l : list D)
  : list D := sort path desc l.
End Engine.

(** ** Example data *)
Module Fixture.
Definition alice : User.t :=
  User.mk 1 "Alice" "alice@example.org" "$2a$10$hashA" student (Some "CSE")
    (Some 3%Z) "avatar.png" true [10; 11] [] 1%Z.
Definition bob : User.t :=
  User.mk 2 "Bob" "bob@example.org" "$2a$10$hashB" student (Some "ECE")
    (Some 5%Z) "avatar.png" true [] [] 2%Z.
Definition carol : User.t :=
  User.mk 3 "Carol" "carol@example.org" "$2a$10$hashC" admin None
    None "avatar.png" true [] [] 3%Z.

Definition dbms : Note.t :=
  Note.mk 10 "DBMS unit 1" (Some "old") "DBMS" 3%Z "CSE"
    "https://media.example/dbms.pdf" "application/pdf" (Some 2048%Z)
    "study-hub-notes/dbms" 1 approved 0%Z 0%Z [] ["sql"] 0%Z 0%Z 10%Z.
Definition os : Note.t :=
  Note.mk 11 "OS diagrams" None "Operating Systems" 4%Z "CSE"
    "https://media.example/os.png" "image/png" (Some 4096%Z)
    "study-hub-notes/os" 1 pending 0%Z 0%Z [] [] 0%Z 0%Z 11%Z.

Definition job (i : ObjectId) (deadline : Date) (s : JobStatus) : Job.t :=
  Job.mk i "Backend developer" "Acme" "https://via.placeholder.com/100"
    "Build and run the services of the platform." Job_ "Pune" OnSite
    (Job.Build_Salary None None "INR") (Job.Build_Stipend None "INR" None)
    None ["node"] (Job.Build_Eligibility ["CSE"] None [])
    deadline "https://acme.example/apply" 3 s [] 0%Z false 20%Z.
Definition open_job : Job.t := job 20 1000%Z active.
Definition expired_job : Job.t := job 21 100%Z active.

Definition world : World :=
  mkWorld [alice; bob; carol] [dbms; os] [open_job; expired_job] [] []
    [("study-hub-notes/dbms", raw); ("study-hub-notes/os", image)].

(** A request at time 500, with the media store answering. *)
Definition env : Env := mkEnv 500%Z 100 (fun _ => None).

(** The same request with the media store failing on one file. *)
Definition env_failing (publicId : string) : Env :=
  mkEnv 500%Z 100
    (fun p => if String.eqb p publicId then Some "service unavailable" else None).

Definition as_alice : Caller := mkCaller 1 student.
Definition as_bob : Caller := mkCaller 2 student.
Definition as_carol : Caller := mkCaller 3 admin.

Definition no_patch : NotePatch := mkNotePatch None None None None None None.

(** The world after Bob has bookmarked the DBMS note. *)
Definition bookmarked : World := snd (addBookmark env as_bob 10 world).

(** [GET /api/jobs] and [GET /api/notes] without parameters, and
    [GET /api/notes?subject=...]. *)
Definition all_jobs : JobsQuery :=
  mkJobsQuery None None None None None None None None None.
Definition all_notes : NotesQuery :=
  mkNotesQuery None None None None None None None None.
Definition notes_on (subject : string) : NotesQuery :=
  mkNotesQuery None None (Some subject) None None None None None.
Definition all_users : UsersQuery := mkUsersQuery None None None None.

(** A cover letter of [n] characters. *)
Fixpoint letter (n : nat) : string :=
  match n with
  | O => EmptyString
  | S n' => String "a"%char (letter n')
  end.
End Fixture.


(** ** Note controller: upload, view, download, own notes *)

(** [this.views += 1; await this.save()] *)
Definition Note_incrementViews (n : Note.t) : IO Note.t :=
  Note_save (Note.set_views (Note.views n + 1)%Z n).

(** [this.downloads += 1; await this.save()] *)
Definition Note_incrementDownloads (n : Note.t) : IO Note.t :=
  Note_save (Note.set_downloads (Note.downloads n + 1)%Z n).

(** [GET /api/notes/:id]; the response carries the loaded document, with
    its uploader populated and its counter already incremented. *)
Definition getNoteById (id : ObjectId) : IO (Response (Populated Note.t)) :=
  try_catch
    (let* found :=
       gets (fun w => populate_user Note.uploadedBy ["name"; "email"; "branch"] (users w)
                        <$> findById Note._id id (notes w)) in
     match found with
     | None => ret (failure 404 "Note not found")
     | Some note =>
         let* saved := Note_incrementViews (doc note) in
         ret (mkResponse 200 true None (Some (mkPopulated saved (populated note))))
     end)
    internal_error.

(** [POST /api/notes/:id/download]; the data is [fileUrl]. *)
Definition downloadNote (id : ObjectId) : IO (Response string) :=
  try_catch
    (let* found := Note_findById id in
     match found with
     | None => ret (failure 404 "Note not found")
     | Some note =>
         let* saved := Note_incrementDownloads note in
         ret (mkResponse 200 true (Some (Literal "Download count incremented"))
                (Some (Note.fileUrl saved)))
     end)
    internal_error.

(** [req.file], as the upload middleware leaves it: the MIME type and the
    size of the payload. *)
Record File := mkFile {
  mimetype : string;
  size : Z
}.

(** The answer of the media store to an upload: the URL and the public
    identifier it chose, or the error it reports. *)
Inductive UploadResult :=
| Uploaded (secure_url public_id : string)
| UploadRefused (message : string).

(** [s.includes(sub)] *)
Fixpoint includes (s sub : string) : bool :=
  String.prefix sub s ||
  match s with
  | EmptyString => false
  | String _ s' => includes s' sub
  end.

(** [uploadToCloudinary(buffer, { folder, resource_type, format })]:
    resolves with the store's answer, the file then being held under the
    returned identifier, or rejects with the store's error. *)
Definition uploadToCloudinary (cloud : UploadResult) (r : ResourceType)
    (format : option string) : IO (string * string) :=
  match cloud with
  | Uploaded url publicId =>
      modify (fun w => set_media (media w ++ [(publicId, r)]) w) ;;
      ret (url, publicId)
  | UploadRefused msg => throw (MediaStoreError msg)
  end.

(** The document [Note.create] builds in [uploadNote]: the schema's
    setters and defaults applied.  A required path that is absent from the
    body is held as the empty string (as zero for [semester]), which fails
    the validators of that path as the absent value does. *)
Definition new_note (env : Env) (caller : Caller) (body : NotePatch)
    (file : File) (url publicId : string) : Note.t :=
  Note.mk (newId env)
    (trim (default EmptyString (p_title body)))
    (trim <$> p_description body)
    (trim (default EmptyString (p_subject body)))
    (default 0%Z (p_semester body))
    (trim (default EmptyString (p_branch body)))
    url (mimetype file) (Some (size file)) publicId (caller_id caller)
    approved 0%Z 0%Z []
    (if truthy (p_tags body)
     then trim <$> split_comma (default EmptyString (p_tags body))
     else [])
    0%Z 0%Z (now env).

(** [Note.create]: validation, then the insert. *)
Definition Note_create (n : Note.t) : IO Note.t :=
  match Note.invalid_paths n with
  | [] => modify (fun w => set_notes (notes w ++ [n]) w) ;; ret n
  | p :: ps => throw (ValidationError "Note" (p :: ps))
  end.

(** [POST /api/notes]; the data is the created note looked up again, with
    its uploader populated. *)
Definition uploadNote (env : Env) (cloud : UploadResult) (caller : Caller)
    (file : option File) (body : NotePatch)
  : IO (Response (option (Populated Note.t))) :=
  try_catch
    (match file with
     | None => ret (failure 400 "Please upload a file")
     | Some f =>
         let resourceType :=
           if startsWith (mimetype f) "image/" then image else raw in
         let* result :=
           uploadToCloudinary cloud resourceType
             (if includes (mimetype f) "pdf" then Some "pdf" else None) in
         let* note := Note_create (new_note env caller body f (fst result) (snd result)) in
         User_findByIdAndUpdate (caller_id caller)
           (fun u => User.set_uploadedNotes (push (Note._id note) (User.uploadedNotes u)) u) ;;
         let* populatedNote :=
           gets (fun w => populate_user Note.uploadedBy ["name"; "email"; "branch"] (users w)
                            <$> findById Note._id (Note._id note) (notes w)) in
         ret (mkResponse 201 true (Some (Literal "Note uploaded successfully"))
                (Some populatedNote))
     end)
    internal_error.

(** ** Job controller: lookup and deletion *)

Definition Job_findByIdAndDelete (i : ObjectId) : IO unit :=
  modify (fun w => set_jobs (deleteById Job._id i (jobs w)) w).

(** [Application.deleteMany({ job })] *)
Definition Application_deleteMany (job : ObjectId) : IO unit :=
  modify (fun w => set_applications
                     (List.filter (fun a => negb (Nat.eqb (Application.job a) job))
                        (applications w)) w).

(** [job.postedBy.toString() !== req.user._id.toString() &&
     req.user.role !== 'admin'] *)
Definition not_poster_nor_admin (job : Job.t) (c : Caller) : bool :=
  negb (Nat.eqb (Job.postedBy job) (caller_id c)) && negb (is_admin c).

(** [GET /api/jobs/:id] *)
Definition getJobById (id : ObjectId) : IO (Response (Populated Job.t)) :=
  try_catch
    (let* found :=
       gets (fun w => populate_user Job.postedBy ["name"; "email"] (users w)
                        <$> findById Job._id id (jobs w)) in
     match found with
     | None => ret (failure 404 "Job not found")
     | Some job => ret (mkResponse 200 true None (Some job))
     end)
    internal_error.

(** The handler of [DELETE /api/jobs/:id]. *)
Definition deleteJob (caller : Caller) (id : ObjectId) : IO (Response unit) :=
  try_catch
    (let* found := Job_findById id in
     match found with
     | None => ret (failure 404 "Job not found")
     | Some job =>
         if not_poster_nor_admin job caller
         then ret (failure 403 "Not authorized to delete this job")
         else
           Application_deleteMany id ;;
           Job_findByIdAndDelete id ;;
           ret (mkResponse 200 true (Some (Literal "Job deleted successfully")) None)
     end)
    internal_error.

(** ** Admin middleware and the routes behind it *)

(** [isAdmin]: [next()] for an admin, 403 otherwise; [None] is a request
    without [req.user]. *)
Definition isAdmin {D} (user : option Caller) (next : IO (Response D))
  : IO (Response D) :=
  match user with
  | Some c =>
      if is_admin c then next
      else ret (failure 403 "Access denied. Admin privileges required.")
  | None => ret (failure 403 "Access denied. Admin privileges required.")
  end.

(** [router.delete('/:id', protect, isAdmin, deleteJob)], for a request
    that [protect] has let through with [req.user] attached. *)
Definition route_deleteJob (caller : Caller) (id : ObjectId) : IO (Response unit) :=
  isAdmin (Some caller) (deleteJob caller id).

(** [router.use(protect, isAdmin)] before
    [router.delete('/users/:id', deleteUser)]. *)
Definition route_deleteUser (env : Env) (caller : Caller) (id : ObjectId)
  : IO (Response unit) :=
  isAdmin (Some caller) (deleteUser env id).

(** ** Admin controller: user status *)

(** The [match] validator of [email], [/^\S+@\S+\.\S+$/]: no white space
    anywhere, an [@] after at least one character, and after it a [.]
    with at least one character on each side. *)
Fixpoint dot_then_more (t : list ascii) : bool :=
  match t with
  | c :: ((_ :: _) as t') => Ascii.eqb c "."%char || dot_then_more t'
  | _ => false
  end.

Definition dot_inside (t : list ascii) : bool :=
  match t with
  | _ :: t' => dot_then_more t'
  | [] => false
  end.

Fixpoint at_then_domain (s : list ascii) : bool :=
  match s with
  | c :: s' => (Ascii.eqb c "@"%char && dot_inside s') || at_then_domain s'
  | [] => false
  end.

Definition email_match (e : string) : bool :=
  let s := list_ascii_of_string e in
  forallb (fun c => negb (Ascii.is_space c)) s &&
  match s with
  | _ :: s' => at_then_domain s'
  | [] => false
  end.

(** The validators [save] runs on a user loaded with the default
    selection: [password], not being selected, is not validated. *)
Definition User_invalid_paths (u : User.t) : list string :=
  (if truthy (User.name u) && Nat.leb 2 (String.length (User.name u))
   then [] else ["name"]) ++
  (if truthy (User.email u) && email_match (User.email u) then [] else ["email"]) ++
  (match User.role u with
   | student => if truthy (User.branch u) then [] else ["branch"]
   | admin => []
   end) ++
  (match User.semester u with
   | Some s => if Z.leb 1 s && Z.leb s 8 then [] else ["semester"]
   | None => []
   end).

(** [user.save()] on a user loaded with the default selection.  The
    pre-save hook returns at once, the password not being modified, and
    the stored document is replaced. *)
Definition User_save (u : User.t) : IO User.t :=
  match User_invalid_paths u with
  | [] =>
      modify (fun w => set_users (updateById User._id (User._id u) (fun _ => u) (users w)) w) ;;
      ret u
  | p :: ps => throw (ValidationError "User" (p :: ps))
  end.

(** [PATCH /api/admin/users/:id/toggle-status] *)
Definition toggleUserStatus (id : ObjectId) : IO (Response (gmap string json)) :=
  try_catch
    (let* found := User_findById id in
     match found with
     | None => ret (failure 404 "User not found")
     | Some user =>
         match User.role user with
         | admin => ret (failure 400 "Cannot deactivate admin users")
         | student =>
             let* saved := User_save (User.set_isActive (negb (User.isActive user)) user) in
             ret (mkResponse 200 true
                    (Some (Literal (if User.isActive saved
                                    then "User activated successfully"
                                    else "User deactivated successfully")))
                    (Some (UserDoc.toJSON (UserDoc.load SchemaDefault saved))))
         end
     end)
    internal_error.

(** ** Further listings *)

(** Query parameters of [GET /api/admin/notes]. *)
Record AdminNotesQuery := mkAdminNotesQuery {
  an_page : option positive;
  an_limit : option positive;
  an_status : option string;
  an_branch : option string;
  an_semester : option string
}.

(** The query object [getAllNotes] builds. *)
Record AdminNoteFilter := mkAdminNoteFilter {
  af_status : option string;
  af_branch : option string;
  af_semester : option string
}.

Definition AdminNote_matches (q : AdminNoteFilter) (semester : option Z)
    (n : Note.t) : bool :=
  holds (af_status q) (String.eqb (NoteStatus_str (Note.status n))) &&
  holds (af_branch q) (String.eqb (Note.branch n)) &&
  holds semester (Z.eqb (Note.semester n)).

(** An application with its [job] path populated, the job's poster being
    populated in turn; [None] is a job that no longer exists. *)
Record ApplicationWithJob := mkApplicationWithJob {
  application : Application.t;
  applied_job : option (Populated Job.t)
}.

Section MoreListings.
Variable castNumber : string -> option Z.
Variable dbsort : forall D : Type, (D -> json) -> bool -> list D -> list D.

(** [GET /api/notes/user/my-notes] *)
Definition getMyNotes (caller : Caller) : IO (Response (list (Populated Note.t))) :=
  try_catch
    (let* found :=
       gets (fun w =>
         populate_user Note.uploadedBy ["name"; "email"] (users w) <$>
           dbsort _ (fun n => JNum (Note.createdAt n)) true
             (List.filter (fun n => Nat.eqb (Note.uploadedBy n) (caller_id caller))
                (notes w))) in
     ret (mkResponse 200 true None (Some found)))
    internal_error.

(** [GET /api/admin/notes] *)
Definition getAllNotes (q : AdminNotesQuery)
  : IO (Response (AdminPage (Populated Note.t))) :=
  try_catch
    (let page := Pos.to_nat (default 1%positive (an_page q)) in
     let limit := Pos.to_nat (default 20%positive (an_limit q)) in
     let query := mkAdminNoteFilter (when_truthy (an_status q))
                    (when_truthy (an_branch q)) (when_truthy (an_semester q)) in
     let skip := (page - 1) * limit in
     let* found :=
       (let* semester := cast_condition castNumber (af_semester query) in
        gets (fun w =>
          populate_user Note.uploadedBy ["name"; "email"; "branch"] (users w) <$>
            window dbsort (fun n => JNum (Note.createdAt n)) true limit skip
              (List.filter (AdminNote_matches query semester) (notes w)))) in
     let* total :=
       (let* semester := cast_condition castNumber (af_semester query) in
        gets (fun w => length (List.filter (AdminNote_matches query semester) (notes w)))) in
     ret (mkResponse 200 true None
            (Some (mkAdminPage found
                     (mkAdminPagination total page (ceil_div total limit))))))
    internal_error.

(** [GET /api/jobs/user/my-applications] *)
Definition getMyApplications (caller : Caller)
  : IO (Response (list ApplicationWithJob)) :=
  try_catch
    (let* found :=
       gets (fun w =>
         (fun a => mkApplicationWithJob a
                     (populate_user Job.postedBy ["name"; "email"] (users w)
                        <$> findById Job._id (Application.job a) (jobs w))) <$>
           dbsort _ (fun a => JNum (Application.createdAt a)) true
             (List.filter (fun a => Nat.eqb (Application.applicant a) (caller_id caller))
                (applications w))) in
     ret (mkResponse 200 true None (Some found)))
    internal_error.

(** The handler of [GET /api/jobs/:id/applications]. *)
Definition getJobApplications (id : ObjectId)
  : IO (Response (list (Populated Application.t))) :=
  try_catch
    (let* found :=
       gets (fun w =>
         populate_user Application.applicant ["name"; "email"; "branch"; "semester"]
           (users w) <$>
           dbsort _ (fun a => JNum (Application.createdAt a)) true
             (List.filter (fun a => Nat.eqb (Application.job a) id) (applications w))) in
     ret (mkResponse 200 true None (Some found)))
    internal_error.
End MoreListings.


(** ** More example data *)
Module Fixture2.
(** The fields and the file of an upload. *)
Definition graph_notes : NotePatch :=
  mkNotePatch (Some "Graph theory") (Some " Trees and paths ") (Some "Maths")
    (Some 2%Z) (Some "CSE") (Some "graphs, trees").
Definition pdf : File := mkFile "application/pdf" 2048%Z.
Definition stored_pdf : UploadResult :=
  Uploaded "https://media.example/graphs.pdf" "study-hub-notes/graphs".

(** The world after Bob has applied for the open job. *)
Definition applied_world : World :=
  snd (applyForJob Fixture.env Fixture.as_bob 20 (Some "Dear Acme") Fixture.world).
End Fixture2.

(** * Properties *)

(** ** Running handlers *)

Ltac run_io :=
  cbv beta iota zeta delta
    [try_catch bind gets modify ret throw internal_error
     Note_findById Note_findByIdAndUpdate Note_findByIdAndDelete
     Note_find_uploadedBy User_findById User_findByIdAndUpdate
     User_findByIdAndDelete Job_findById Job_findByIdAndUpdate
     Application_findOne Bookmark_findOne] in *.

Lemma not_owner_nor_admin_true (note : Note.t) (c : Caller) :
  not_owner_nor_admin note c = true <->
  Note.uploadedBy note <> caller_id c /\ caller_role c <> admin.
Proof.
  unfold not_owner_nor_admin, is_admin.
  rewrite andb_true_iff, !negb_true_iff, Nat.eqb_neq.
  destruct (caller_role c); split; intros [? ?]; split; auto; congruence.
Qed.

Lemma not_owner_nor_admin_false (note : Note.t) (c : Caller) :
  not_owner_nor_admin note c = false <->
  Note.uploadedBy note = caller_id c \/ caller_role c = admin.
Proof.
  unfold not_owner_nor_admin, is_admin.
  rewrite andb_false_iff, !negb_false_iff, Nat.eqb_eq.
  destruct (caller_role c); split; intros [? | ?]; auto; congruence.
Qed.

(** [updateNote] always answers: it resolves with a response. *)
Lemma updateNote_resolves (caller : Caller) (id : ObjectId) (body : NotePatch)
    (w : World) :
  exists r w', updateNote caller id body w = (Resolved r, w').
Proof.
  unfold updateNote, Note_save. run_io.
  destruct (findById Note._id id (notes w)) as [note |]; [| eauto].
  destruct (not_owner_nor_admin note caller); [eauto |].
  destruct (Note.invalid_paths (apply_patch body note)); eauto.
Qed.

(** [deleteNote] always answers. *)
Lemma deleteNote_resolves (env : Env) (caller : Caller) (id : ObjectId)
    (w : World) :
  exists r w', deleteNote env caller id w = (Resolved r, w').
Proof.
  unfold deleteNote, cloudinary_destroy. run_io.
  destruct (findById Note._id id (notes w)) as [note |]; [| eauto].
  destruct (not_owner_nor_admin note caller); [eauto |].
  destruct (destroy_error env (Note.cloudinaryPublicId note)); run_io; eauto.
Qed.

(** C8: on an existing note, a caller who is neither the owner nor an admin
    gets 403 from update and from delete and the world is unchanged; for
    the owner or an admin both handlers answer and the answer is not the
    403 of the authorization check. *)
Theorem note_update_delete_authorization
    (env : Env) (caller : Caller) (id : ObjectId) (body : NotePatch)
    (w : World) (note : Note.t) :
  findById Note._id id (notes w) = Some note ->
  (Note.uploadedBy note <> caller_id caller /\ caller_role caller <> admin ->
     updateNote caller id body w
       = (Resolved (failure 403 "Not authorized to update this note"), w) /\
     deleteNote env caller id w
       = (Resolved (failure 403 "Not authorized to delete this note"), w))
  /\
  (Note.uploadedBy note = caller_id caller \/ caller_role caller = admin ->
     (exists r w', updateNote caller id body w = (Resolved r, w')
                   /\ statusCode r <> 403) /\
     (exists r w', deleteNote env caller id w = (Resolved r, w')
                   /\ statusCode r <> 403)).
Proof.
  intros Hfind. split.
  - intros Hno. apply not_owner_nor_admin_true in Hno.
    unfold updateNote, deleteNote. run_io. rewrite Hfind, Hno. auto.
  - intros Hyes. apply not_owner_nor_admin_false in Hyes. split.
    + unfold updateNote, Note_save. run_io. rewrite Hfind, Hyes.
      destruct (Note.invalid_paths (apply_patch body note));
        do 2 eexists; (split; [reflexivity | simpl; lia]).
    + unfold deleteNote, cloudinary_destroy. run_io. rewrite Hfind, Hyes.
      destruct (destroy_error env (Note.cloudinaryPublicId note)); run_io;
        do 2 eexists; (split; [reflexivity | simpl; lia]).
Qed.

Lemma note_update_delete_authorization_witness :
  findById Note._id 10 (notes Fixture.world) = Some Fixture.dbms /\
  ((Note.uploadedBy Fixture.dbms <> caller_id Fixture.as_bob
    /\ caller_role Fixture.as_bob <> admin ->
    updateNote Fixture.as_bob 10 Fixture.no_patch Fixture.world
      = (Resolved (failure 403 "Not authorized to update this note"), Fixture.world) /\
    deleteNote Fixture.env Fixture.as_bob 10 Fixture.world
      = (Resolved (failure 403 "Not authorized to delete this note"), Fixture.world))
   /\
   (Note.uploadedBy Fixture.dbms = caller_id Fixture.as_bob
    \/ caller_role Fixture.as_bob = admin ->
    (exists r w', updateNote Fixture.as_bob 10 Fixture.no_patch Fixture.world
                    = (Resolved r, w') /\ statusCode r <> 403) /\
    (exists r w', deleteNote Fixture.env Fixture.as_bob 10 Fixture.world
                    = (Resolved r, w') /\ statusCode r <> 403))).
Proof.
  split; [reflexivity |].
  apply (note_update_delete_authorization Fixture.env Fixture.as_bob 10
           Fixture.no_patch Fixture.world Fixture.dbms).
  reflexivity.
Defined.

(** ** Collections *)

Section CollectionFacts.
Context {A : Type} (key : A -> ObjectId).

Lemma findById_In (i : ObjectId) (l : list A) (d : A) :
  findById key i l = Some d -> In d l /\ key d = i.
Proof.
  unfold findById. intros H. apply List.find_some in H as [Hin Heq].
  apply Nat.eqb_eq in Heq. auto.
Qed.

Lemma In_deleteById (i : ObjectId) (l : list A) (d : A) :
  In d (deleteById key i l) -> In d l.
Proof.
  induction l as [| e l IH]; simpl; [tauto |].
  destruct (Nat.eqb (key e) i); simpl; tauto.
Qed.

Lemma In_deleteById_other (i : ObjectId) (l : list A) (d : A) :
  In d l -> key d <> i -> In d (deleteById key i l).
Proof.
  intros Hin Hne. induction l as [| e l IH]; simpl in *; [tauto |].
  destruct (Nat.eqb (key e) i) eqn:E.
  - destruct Hin as [-> | Hin]; [| exact Hin].
    apply Nat.eqb_eq in E. contradiction.
  - destruct Hin as [-> | Hin]; [left; reflexivity | right; auto].
Qed.

(** With identifiers unique, the deleted document can no longer be
    found. *)
Lemma findById_deleteById (i : ObjectId) (l : list A) :
  NoDup (key <$> l) -> findById key i (deleteById key i l) = None.
Proof.
  unfold findById. induction l as [| e l IH]; simpl; [reflexivity |].
  intros Hnd. apply NoDup_cons in Hnd as [Hnotin Hnd].
  destruct (Nat.eqb (key e) i) eqn:E.
  - apply Nat.eqb_eq in E. subst i.
    destruct (List.find (fun d => Nat.eqb (key d) (key e)) l) as [d |] eqn:F;
      [| reflexivity].
    apply List.find_some in F as [Hin Heq]. apply Nat.eqb_eq in Heq.
    exfalso. apply Hnotin. rewrite <- Heq.
    apply list_elem_of_In, in_map, Hin.
  - simpl. rewrite E. auto.
Qed.

Lemma findById_deleteById_other (i j : ObjectId) (l : list A) :
  i <> j -> findById key i (deleteById key j l) = findById key i l.
Proof.
  intros Hne. unfold findById. induction l as [| e l IH]; simpl; [reflexivity |].
  destruct (Nat.eqb (key e) j) eqn:E; simpl.
  - apply Nat.eqb_eq in E.
    destruct (Nat.eqb (key e) i) eqn:E'; [| reflexivity].
    apply Nat.eqb_eq in E'. congruence.
  - destruct (Nat.eqb (key e) i); [reflexivity | exact IH].
Qed.
End CollectionFacts.

(** ** Deletion and the media store *)

(** The loop of [deleteUser] stops at the first file the media store
    refuses to delete; the notes before it are gone, everything else is as
    it was. *)
Lemma deleteUser_loop_rejects (env : Env) (msg : string)
    (done : list Note.t) (failing : Note.t) (rest : list Note.t) :
  Forall (fun n => destroy_error env (Note.cloudinaryPublicId n) = None) done ->
  destroy_error env (Note.cloudinaryPublicId failing) = Some msg ->
  forall w, exists w',
    for_of (done ++ failing :: rest) (delete_note_and_file env) w
      = (Rejected (MediaStoreError msg), w') /\
    users w' = users w /\ jobs w' = jobs w /\
    applications w' = applications w /\ bookmarks w' = bookmarks w /\
    (forall n, In n (notes w') -> In n (notes w)) /\
    (forall n, In n (notes w) -> ~ In (Note._id n) (Note._id <$> done) ->
               In n (notes w')) /\
    (done = [] -> w' = w).
Proof.
  intros Hdone Hfail. induction Hdone as [| d done Hd Hdone IH]; intros w.
  - exists w. simpl. unfold delete_note_and_file at 1, cloudinary_destroy.
    rewrite Hfail. run_io. repeat split; auto.
  - simpl. unfold delete_note_and_file at 1, cloudinary_destroy.
    rewrite Hd. run_io.
    match goal with |- context [for_of _ _ ?w1] => destruct (IH w1) as (w' & Hrun & Hu & Hj & Ha & Hb & Hsub & Hkeep & _) end.
    exists w'. rewrite Hrun. simpl in *.
    repeat split; auto.
    + intros n Hn. apply Hsub in Hn. eapply In_deleteById, Hn.
    + intros n Hn Hnot. apply Hkeep.
      * apply In_deleteById_other; auto.
      * auto.
    + discriminate.
Qed.

(** C5 (as amended): when the media store refuses a deletion, the delete
    aborts with a 500.  For [deleteNote] and [deleteNoteAdmin] the world
    is then exactly as before.  For [deleteUser] every user document, the
    [User] row included, is as before and no note other than those whose
    files were already deleted by the same request is missing; if the
    refused file is the first one, the world is exactly as before. *)
Theorem media_failure_aborts_delete (env : Env) (w : World) (msg : string) :
  (forall (caller : Caller) (id : ObjectId) (note : Note.t),
     findById Note._id id (notes w) = Some note ->
     Note.uploadedBy note = caller_id caller \/ caller_role caller = admin ->
     destroy_error env (Note.cloudinaryPublicId note) = Some msg ->
     deleteNote env caller id w
       = (Resolved (mkResponse 500 false
                      (Some (ErrorMessage (MediaStoreError msg))) None), w))
  /\
  (forall (id : ObjectId) (note : Note.t),
     findById Note._id id (notes w) = Some note ->
     destroy_error env (Note.cloudinaryPublicId note) = Some msg ->
     deleteNoteAdmin env id w
       = (Resolved (mkResponse 500 false
                      (Some (ErrorMessage (MediaStoreError msg))) None), w))
  /\
  (forall (id : ObjectId) (user : User.t) (done : list Note.t)
          (failing : Note.t) (rest : list Note.t),
     findById User._id id (users w) = Some user ->
     User.role user = student ->
     List.filter (fun n => Nat.eqb (Note.uploadedBy n) (User._id user)) (notes w)
       = done ++ failing :: rest ->
     Forall (fun n => destroy_error env (Note.cloudinaryPublicId n) = None) done ->
     destroy_error env (Note.cloudinaryPublicId failing) = Some msg ->
     exists w',
       deleteUser env id w
         = (Resolved (mkResponse 500 false
                        (Some (ErrorMessage (MediaStoreError msg))) None), w') /\
       users w' = users w /\
       (forall n, In n (notes w') -> In n (notes w)) /\
       (forall n, In n (notes w) -> ~ In (Note._id n) (Note._id <$> done) ->
                  In n (notes w')) /\
       (done = [] -> w' = w)).
Proof.
  split; [| split].
  - intros caller id note Hfind Hauth Hfail.
    apply not_owner_nor_admin_false in Hauth.
    unfold deleteNote, cloudinary_destroy. run_io.
    rewrite Hfind, Hauth, Hfail. reflexivity.
  - intros id note Hfind Hfail.
    unfold deleteNoteAdmin, cloudinary_destroy. run_io.
    rewrite Hfind, Hfail. reflexivity.
  - intros id user done failing rest Hfind Hrole Hnotes Hdone Hfail.
    destruct (deleteUser_loop_rejects env msg done failing rest Hdone Hfail w)
      as (w' & Hrun & Hu & _ & _ & _ & Hsub & Hkeep & Hfirst).
    exists w'. unfold deleteUser. run_io.
    rewrite Hfind, Hrole, Hnotes, Hrun. auto.
Qed.

Lemma media_failure_aborts_delete_witness :
  (findById Note._id 11 (notes Fixture.world) = Some Fixture.os /\
   (Note.uploadedBy Fixture.os = caller_id Fixture.as_alice
    \/ caller_role Fixture.as_alice = admin) /\
   destroy_error (Fixture.env_failing "study-hub-notes/os")
     (Note.cloudinaryPublicId Fixture.os) = Some "service unavailable" /\
   deleteNote (Fixture.env_failing "study-hub-notes/os") Fixture.as_alice 11
     Fixture.world
     = (Resolved (mkResponse 500 false
                    (Some (ErrorMessage (MediaStoreError "service unavailable")))
                    None), Fixture.world))
  /\
  (findById User._id 1 (users Fixture.world) = Some Fixture.alice /\
   User.role Fixture.alice = student /\
   List.filter (fun n => Nat.eqb (Note.uploadedBy n) (User._id Fixture.alice))
     (notes Fixture.world) = [Fixture.dbms] ++ Fixture.os :: [] /\
   Forall (fun n => destroy_error (Fixture.env_failing "study-hub-notes/os")
                      (Note.cloudinaryPublicId n) = None) [Fixture.dbms] /\
   exists w',
     deleteUser (Fixture.env_failing "study-hub-notes/os") 1 Fixture.world
       = (Resolved (mkResponse 500 false
                      (Some (ErrorMessage (MediaStoreError "service unavailable")))
                      None), w') /\
     users w' = users Fixture.world /\
     (forall n, In n (notes w') -> In n (notes Fixture.world)) /\
     (forall n, In n (notes Fixture.world) ->
                ~ In (Note._id n) (Note._id <$> [Fixture.dbms]) ->
                In n (notes w')) /\
     ([Fixture.dbms] = [] -> w' = Fixture.world)).
Proof.
  pose proof (media_failure_aborts_delete
                (Fixture.env_failing "study-hub-notes/os") Fixture.world
                "service unavailable") as (HA & _ & HB).
  split.
  - assert (H1 : findById Note._id 11 (notes Fixture.world) = Some Fixture.os)
      by reflexivity.
    assert (H2 : Note.uploadedBy Fixture.os = caller_id Fixture.as_alice
                 \/ caller_role Fixture.as_alice = admin) by (left; reflexivity).
    assert (H3 : destroy_error (Fixture.env_failing "study-hub-notes/os")
                   (Note.cloudinaryPublicId Fixture.os) = Some "service unavailable")
      by reflexivity.
    exact (conj H1 (conj H2 (conj H3 (HA Fixture.as_alice 11 Fixture.os H1 H2 H3)))).
  - assert (H1 : findById User._id 1 (users Fixture.world) = Some Fixture.alice)
      by reflexivity.
    assert (H2 : User.role Fixture.alice = student) by reflexivity.
    assert (H3 : List.filter
                   (fun n => Nat.eqb (Note.uploadedBy n) (User._id Fixture.alice))
                   (notes Fixture.world) = [Fixture.dbms] ++ Fixture.os :: [])
      by reflexivity.
    assert (H4 : Forall (fun n => destroy_error
                                    (Fixture.env_failing "study-hub-notes/os")
                                    (Note.cloudinaryPublicId n) = None)
                   [Fixture.dbms])
      by (repeat constructor).
    exact (conj H1 (conj H2 (conj H3 (conj H4
             (HB 1 Fixture.alice [Fixture.dbms] Fixture.os [] H1 H2 H3 H4 eq_refl))))).
Defined.

(** C5 as stated fails for [deleteUser]: with two notes and the media
    store failing on the second file, the request ends in a 500 while the
    first note's row is gone. *)
Lemma deleteUser_partial_delete_counterexample :
  ~ (forall (env : Env) (id : ObjectId) (w w' : World) (r : Response unit),
       deleteUser env id w = (Resolved r, w') ->
       statusCode r = 500 ->
       notes w' = notes w /\ users w' = users w).
Proof.
  intros Hclaim.
  destruct (Hclaim (Fixture.env_failing "study-hub-notes/os") 1 Fixture.world
              (snd (deleteUser (Fixture.env_failing "study-hub-notes/os") 1
                      Fixture.world))
              (mkResponse 500 false
                 (Some (ErrorMessage (MediaStoreError "service unavailable"))) None)
              eq_refl eq_refl) as [Hnotes _].
  vm_compute in Hnotes. discriminate Hnotes.
Qed.

(** ** Partial update of a note *)

Section UpdateFacts.
Context {A : Type} (key : A -> ObjectId).

Lemma findById_updateById (i : ObjectId) (f : A -> A) (l : list A) (d : A) :
  findById key i l = Some d -> key (f d) = i ->
  findById key i (updateById key i f l) = Some (f d).
Proof.
  unfold findById. intros Hfind Hkey.
  induction l as [| e l IH]; simpl in *; [discriminate |].
  destruct (Nat.eqb (key e) i) eqn:E; simpl.
  - injection Hfind as ->. rewrite Hkey, Nat.eqb_refl. reflexivity.
  - rewrite E. auto.
Qed.

Lemma findById_updateById_other (i j : ObjectId) (f : A -> A) (l : list A) :
  i <> j -> (forall d, key d = i -> key (f d) = i) ->
  findById key j (updateById key i f l) = findById key j l.
Proof.
  intros Hne Hkey. unfold findById.
  induction l as [| e l IH]; simpl; [reflexivity |].
  destruct (Nat.eqb (key e) i) eqn:E; simpl.
  - apply Nat.eqb_eq in E. rewrite (Hkey e E).
    destruct (Nat.eqb_spec i j) as [-> | _]; [contradiction |].
    destruct (Nat.eqb_spec (key e) j) as [E' | _]; [congruence | reflexivity].
  - destruct (Nat.eqb (key e) j); [reflexivity | exact IH].
Qed.

Lemma updateById_absent (i : ObjectId) (f : A -> A) (l : list A) :
  findById key i l = None -> updateById key i f l = l.
Proof.
  unfold findById. induction l as [| e l IH]; simpl; [reflexivity |].
  destruct (Nat.eqb (key e) i); [discriminate |].
  intros H. rewrite IH; auto.
Qed.
End UpdateFacts.

(** The value a text path holds after [updateNote]: the provided string,
    trimmed, when it is non-empty, and the previous value otherwise. *)
Lemma text_path_after_patch (provided : option string) (old : string) :
  trim old = old ->
  trim (js_or provided old)
  = match provided with
    | Some (String c s) => trim (String c s)
    | Some EmptyString | None => old
    end.
Proof.
  intros Hold. destruct provided as [[| c s] |]; simpl; auto.
Qed.




(** ** Applying for a job *)

Section PairFacts.
Context {A : Type} (fst_ref snd_ref : A -> ObjectId).

Lemma findOne_app_new (x y : ObjectId) (l : list A) (d : A) :
  fst_ref d = x -> snd_ref d = y ->
  findOne fst_ref snd_ref x y l = None ->
  findOne fst_ref snd_ref x y (l ++ [d]) = Some d.
Proof.
  unfold findOne. intros Hx Hy.
  induction l as [| e l IH]; simpl.
  - intros _. unfold refs_match. rewrite Hx, Hy, !Nat.eqb_refl. reflexivity.
  - destruct (refs_match fst_ref snd_ref x y e); [discriminate | exact IH].
Qed.

Lemma deleteOne_app_new (x y : ObjectId) (l : list A) (d : A) :
  fst_ref d = x -> snd_ref d = y ->
  findOne fst_ref snd_ref x y l = None ->
  deleteOne fst_ref snd_ref x y (l ++ [d]) = l.
Proof.
  unfold findOne. intros Hx Hy.
  induction l as [| e l IH]; simpl.
  - intros _. unfold refs_match. rewrite Hx, Hy, !Nat.eqb_refl. reflexivity.
  - destruct (refs_match fst_ref snd_ref x y e); [discriminate |].
    intros H. rewrite IH; auto.
Qed.

Lemma findOne_deleteOne (x y : ObjectId) (l : list A) :
  findOne fst_ref snd_ref x y l = None ->
  deleteOne fst_ref snd_ref x y l = l.
Proof.
  unfold findOne. induction l as [| e l IH]; simpl; [reflexivity |].
  destruct (refs_match fst_ref snd_ref x y e); [discriminate |].
  intros H. rewrite IH; auto.
Qed.
End PairFacts.

(** C3 (as amended): [applyForJob] answers 404 when the job is absent; 400
    "deadline has passed" when the deadline is before now, whatever
    applications exist; 400 "already applied" when the deadline has not
    passed and an application of the caller for the job exists; and
    otherwise, for a cover letter that is absent or at most 1000
    characters long, 201 with exactly one application added, the caller
    appended to the job's applicants and the job's views increased by
    one.  The three failures leave the world unchanged. *)
Theorem applyForJob_outcomes
    (env : Env) (caller : Caller) (id : ObjectId) (coverLetter : option string)
    (w : World) :
  (findById Job._id id (jobs w) = None ->
   applyForJob env caller id coverLetter w
     = (Resolved (failure 404 "Job not found"), w))
  /\
  (forall job,
     findById Job._id id (jobs w) = Some job ->
     (Job.applicationDeadline job < now env)%Z ->
     applyForJob env caller id coverLetter w
       = (Resolved (failure 400 "Application deadline has passed"), w))
  /\
  (forall job existing,
     findById Job._id id (jobs w) = Some job ->
     (now env <= Job.applicationDeadline job)%Z ->
     findOne Application.job Application.applicant id (caller_id caller)
       (applications w) = Some existing ->
     applyForJob env caller id coverLetter w
       = (Resolved (failure 400 "You have already applied for this job"), w))
  /\
  (forall job,
     findById Job._id id (jobs w) = Some job ->
     (now env <= Job.applicationDeadline job)%Z ->
     findOne Application.job Application.applicant id (caller_id caller)
       (applications w) = None ->
     (forall c, coverLetter = Some c -> String.length c <= 1000) ->
     exists application w',
       applyForJob env caller id coverLetter w
         = (Resolved (mkResponse 201 true
                        (Some (Literal "Application submitted successfully"))
                        (Some application)), w') /\
       applications w' = applications w ++ [application] /\
       Application.job application = id /\
       Application.applicant application = caller_id caller /\
       Application.coverLetter application = coverLetter /\
       Application.status application = applied /\
       findById Job._id id (jobs w')
         = Some (Job.set_applicants_views
                   (Job.applicants job ++ [caller_id caller])
                   (Job.views job + 1)%Z job) /\
       (forall j, j <> id -> findById Job._id j (jobs w') = findById Job._id j (jobs w)) /\
       (users w', notes w', bookmarks w', media w')
       = (users w, notes w, bookmarks w, media w)).
Proof.
  repeat split.
  - intros Hfind. unfold applyForJob. run_io. rewrite Hfind. reflexivity.
  - intros job Hfind Hlate. unfold applyForJob. run_io. rewrite Hfind.
    apply Z.ltb_lt in Hlate. rewrite Hlate. reflexivity.
  - intros job existing Hfind Htime Hdup. unfold applyForJob. run_io.
    rewrite Hfind. apply Z.ltb_ge in Htime. rewrite Htime, Hdup. reflexivity.
  - intros job Hfind Htime Hnew Hletter.
    destruct (findById_In _ _ _ _ Hfind) as [_ Hid]. subst id.
    apply Z.ltb_ge in Htime.
    assert (Hvalid : Application.invalid_paths
                       (Application.mk (newId env) (Job._id job) (caller_id caller)
                          applied (Application.Build_Resume None None) coverLetter
                          (now env) (now env)) = []).
    { unfold Application.invalid_paths. simpl.
      destruct coverLetter as [c |]; [| reflexivity].
      specialize (Hletter c eq_refl). apply Nat.leb_le in Hletter.
      rewrite Hletter. reflexivity. }
    do 2 eexists. unfold applyForJob, Application_create. run_io.
    rewrite Hfind, Htime, Hnew, Hvalid. run_io. rewrite Hnew.
    split; [reflexivity |]. simpl.
    repeat split.
    + exact (findById_updateById Job._id (Job._id job)
               (fun j => Job.set_applicants_views
                           (push (caller_id caller) (Job.applicants j))
                           (Job.views j + 1)%Z j)
               (jobs w) job Hfind eq_refl).
    + intros j Hj. apply findById_updateById_other; auto.
Qed.

Lemma applyForJob_outcomes_witness :
  findById Job._id 20 (jobs Fixture.world) = Some Fixture.open_job /\
  (now Fixture.env <= Job.applicationDeadline Fixture.open_job)%Z /\
  findOne Application.job Application.applicant 20 (caller_id Fixture.as_bob)
    (applications Fixture.world) = None /\
  exists application w',
    applyForJob Fixture.env Fixture.as_bob 20 (Some "Dear Acme") Fixture.world
      = (Resolved (mkResponse 201 true
                     (Some (Literal "Application submitted successfully"))
                     (Some application)), w') /\
    applications w' = applications Fixture.world ++ [application] /\
    findById Job._id 20 (jobs w')
      = Some (Job.set_applicants_views [2] 1%Z Fixture.open_job).
Proof.
  assert (H1 : findById Job._id 20 (jobs Fixture.world) = Some Fixture.open_job)
    by reflexivity.
  assert (H2 : (now Fixture.env <= Job.applicationDeadline Fixture.open_job)%Z)
    by (simpl; lia).
  assert (H3 : findOne Application.job Application.applicant 20
                 (caller_id Fixture.as_bob) (applications Fixture.world) = None)
    by reflexivity.
  assert (H4 : forall c, Some "Dear Acme" = Some c -> String.length c <= 1000)
    by (intros c [= <-]; simpl; lia).
  repeat (split; [assumption |]).
  destruct (proj2 (proj2 (proj2
              (applyForJob_outcomes Fixture.env Fixture.as_bob 20
                 (Some "Dear Acme") Fixture.world)))
              Fixture.open_job H1 H2 H3 H4)
    as (a & w' & Hrun & Happs & _ & _ & _ & _ & Hjob & _).
  exists a, w'. repeat split; assumption.
Defined.

(** C3 as stated fails in its last case: with the job open and no earlier
    application, a cover letter of 1001 characters is refused by the
    schema and no application is created. *)
Lemma applyForJob_long_cover_letter_counterexample :
  ~ (forall (env : Env) (caller : Caller) (id : ObjectId)
            (coverLetter : option string) (w : World) (job : Job.t),
       findById Job._id id (jobs w) = Some job ->
       (now env <= Job.applicationDeadline job)%Z ->
       findOne Application.job Application.applicant id (caller_id caller)
         (applications w) = None ->
       exists r application w',
         applyForJob env caller id coverLetter w = (Resolved r, w') /\
         applications w' = applications w ++ [application]).
Proof.
  intros Hclaim.
  destruct (Hclaim Fixture.env Fixture.as_bob 20 (Some (Fixture.letter 1001))
              Fixture.world Fixture.open_job eq_refl)
    as (r & a & w' & Hrun & Happs).
  - simpl. lia.
  - reflexivity.
  - vm_compute in Hrun. injection Hrun as _ <-. discriminate Happs.
Qed.

(** ** Bookmarks *)

Lemma pull_not_In (x : ObjectId) (l : list ObjectId) : ~ In x (pull x l).
Proof.
  unfold pull. intros H. apply List.filter_In in H as [_ H].
  rewrite Nat.eqb_refl in H. discriminate.
Qed.

Lemma pull_absent (x : ObjectId) (l : list ObjectId) : ~ In x l -> pull x l = l.
Proof.
  unfold pull. induction l as [| y l IH]; simpl; [reflexivity |].
  intros H. destruct (Nat.eqb_spec y x) as [-> | _]; simpl.
  - exfalso. apply H. left. reflexivity.
  - rewrite IH; [reflexivity | tauto].
Qed.

Lemma pull_push (x : ObjectId) (l : list ObjectId) :
  ~ In x l -> pull x (push x l) = l.
Proof.
  intros H. unfold pull, push. rewrite List.filter_app. simpl.
  rewrite Nat.eqb_refl. simpl. rewrite app_nil_r. apply (pull_absent x l H).
Qed.

Section UpdateTwice.
Context {A : Type} (key : A -> ObjectId).

Lemma updateById_compose (i : ObjectId) (f g : A -> A) (l : list A) :
  (forall d, key (f d) = key d) ->
  updateById key i g (updateById key i f l)
  = updateById key i (fun d => g (f d)) l.
Proof.
  intros Hkey. induction l as [| e l IH]; simpl; [reflexivity |].
  destruct (Nat.eqb (key e) i) eqn:E; simpl.
  - rewrite Hkey, E. reflexivity.
  - rewrite E, IH. reflexivity.
Qed.

Lemma updateById_fixed (i : ObjectId) (f : A -> A) (l : list A) :
  (forall d, findById key i l = Some d -> f d = d) ->
  updateById key i f l = l.
Proof.
  unfold findById. induction l as [| e l IH]; simpl; [reflexivity |].
  destruct (Nat.eqb (key e) i) eqn:E; intros H.
  - rewrite (H e eq_refl). reflexivity.
  - rewrite IH; auto.
Qed.

Lemma findById_updateById_inv (i : ObjectId) (f : A -> A) (l : list A) (d' : A) :
  (forall d, key (f d) = key d) ->
  findById key i (updateById key i f l) = Some d' ->
  exists d, findById key i l = Some d /\ d' = f d.
Proof.
  intros Hkey. unfold findById.
  induction l as [| e l IH]; simpl; [discriminate |].
  destruct (Nat.eqb (key e) i) eqn:E; simpl.
  - rewrite Hkey, E. intros [= <-]. eauto.
  - rewrite E. exact IH.
Qed.
End UpdateTwice.

Lemma User_set_bookmarks_same (u : User.t) :
  User.set_bookmarks (User.bookmarks u) u = u.
Proof. destruct u; reflexivity. Qed.

Lemma Note_set_bookmarkedBy_same (n : Note.t) :
  Note.set_bookmarkedBy (Note.bookmarkedBy n) n = n.
Proof. destruct n; reflexivity. Qed.

(** The world after a successful [addBookmark]. *)
Lemma addBookmark_new (env : Env) (caller : Caller) (noteId : ObjectId)
    (w : World) (note : Note.t) :
  findById Note._id noteId (notes w) = Some note ->
  findOne Bookmark.user Bookmark.note (caller_id caller) noteId (bookmarks w) = None ->
  addBookmark env caller noteId w
  = (Resolved (mkResponse 201 true (Some (Literal "Bookmark added successfully"))
                 (Some (Bookmark.mk (newId env) (caller_id caller) noteId (now env)))),
     mkWorld
       (updateById User._id (caller_id caller)
          (fun u => User.set_bookmarks (push noteId (User.bookmarks u)) u) (users w))
       (updateById Note._id noteId
          (fun n => Note.set_bookmarkedBy (push (caller_id caller) (Note.bookmarkedBy n)) n)
          (notes w))
       (jobs w) (applications w)
       (bookmarks w ++ [Bookmark.mk (newId env) (caller_id caller) noteId (now env)])
       (media w)).
Proof.
  intros Hnote Hnew. unfold addBookmark, Bookmark_create. run_io.
  rewrite Hnote, Hnew. run_io. rewrite Hnew. reflexivity.
Qed.

(** An existing bookmark makes [addBookmark] fail and change nothing. *)
Lemma addBookmark_duplicate (env : Env) (caller : Caller) (noteId : ObjectId)
    (w : World) (note : Note.t) (b : Bookmark.t) :
  findById Note._id noteId (notes w) = Some note ->
  findOne Bookmark.user Bookmark.note (caller_id caller) noteId (bookmarks w) = Some b ->
  addBookmark env caller noteId w
  = (Resolved (failure 400 "Note already bookmarked"), w).
Proof.
  intros Hnote Hdup. unfold addBookmark. run_io. rewrite Hnote, Hdup. reflexivity.
Qed.

(** The world after a successful [removeBookmark]. *)
Lemma removeBookmark_existing (caller : Caller) (noteId : ObjectId) (w : World)
    (b : Bookmark.t) :
  findOne Bookmark.user Bookmark.note (caller_id caller) noteId (bookmarks w) = Some b ->
  removeBookmark caller noteId w
  = (Resolved (mkResponse 200 true (Some (Literal "Bookmark removed successfully")) None),
     mkWorld
       (updateById User._id (caller_id caller)
          (fun u => User.set_bookmarks (pull noteId (User.bookmarks u)) u) (users w))
       (updateById Note._id noteId
          (fun n => Note.set_bookmarkedBy (pull (caller_id caller) (Note.bookmarkedBy n)) n)
          (notes w))
       (jobs w) (applications w)
       (deleteOne Bookmark.user Bookmark.note (caller_id caller) noteId (bookmarks w))
       (media w)).
Proof.
  intros Hb. unfold removeBookmark, Bookmark_findOneAndDelete. run_io.
  rewrite Hb. reflexivity.
Qed.

Lemma checkBookmark_run (caller : Caller) (noteId : ObjectId) (w : World) :
  checkBookmark caller noteId w
  = (Resolved (mkResponse 200 true None
                 (Some (match findOne Bookmark.user Bookmark.note (caller_id caller)
                                noteId (bookmarks w) with
                        | Some _ => true
                        | None => false
                        end))), w).
Proof. unfold checkBookmark. run_io. reflexivity. Qed.

(** C6: for a note that exists and a caller who has not bookmarked it, the
    first [addBookmark] succeeds and a second one, with no remove in
    between, answers 400 "already bookmarked" and changes nothing; after
    the add and one [removeBookmark], [checkBookmark] answers false, the
    Bookmark collection is what it was, and the note is neither in the
    caller's [bookmarks] nor the caller in the note's [bookmarkedBy]; if
    they were not there before the add either, the whole world is what it
    was. *)
Theorem bookmark_duplicate_and_round_trip
    (env env' : Env) (caller : Caller) (noteId : ObjectId) (w : World)
    (note : Note.t) :
  findById Note._id noteId (notes w) = Some note ->
  findOne Bookmark.user Bookmark.note (caller_id caller) noteId (bookmarks w) = None ->
  exists b w1 w2,
    addBookmark env caller noteId w
      = (Resolved (mkResponse 201 true (Some (Literal "Bookmark added successfully"))
                     (Some b)), w1) /\
    addBookmark env' caller noteId w1
      = (Resolved (failure 400 "Note already bookmarked"), w1) /\
    removeBookmark caller noteId w1
      = (Resolved (mkResponse 200 true (Some (Literal "Bookmark removed successfully"))
                     None), w2) /\
    checkBookmark caller noteId w2
      = (Resolved (mkResponse 200 true None (Some false)), w2) /\
    bookmarks w2 = bookmarks w /\
    (forall u, findById User._id (caller_id caller) (users w2) = Some u ->
               ~ In noteId (User.bookmarks u)) /\
    (forall n, findById Note._id noteId (notes w2) = Some n ->
               ~ In (caller_id caller) (Note.bookmarkedBy n)) /\
    ((forall u, findById User._id (caller_id caller) (users w) = Some u ->
                ~ In noteId (User.bookmarks u)) ->
     ~ In (caller_id caller) (Note.bookmarkedBy note) ->
     w2 = w).
Proof.
  intros Hnote Hnew.
  set (b := Bookmark.mk (newId env) (caller_id caller) noteId (now env)).
  pose proof (addBookmark_new env caller noteId w note Hnote Hnew) as Hadd.
  fold b in Hadd.
  match type of Hadd with _ = (_, ?x) => set (w1 := x) in * end.
  assert (Hb1 : findOne Bookmark.user Bookmark.note (caller_id caller) noteId
                  (bookmarks w1) = Some b).
  { apply findOne_app_new; auto. }
  assert (Hnote1 : findById Note._id noteId (notes w1)
                   = Some (Note.set_bookmarkedBy
                             (push (caller_id caller) (Note.bookmarkedBy note)) note)).
  { exact (findById_updateById Note._id noteId
             (fun n => Note.set_bookmarkedBy
                         (push (caller_id caller) (Note.bookmarkedBy n)) n)
             (notes w) note Hnote
             (proj2 (findById_In _ _ _ _ Hnote))). }
  pose proof (removeBookmark_existing caller noteId w1 b Hb1) as Hrem.
  match type of Hrem with _ = (_, ?x) => set (w2 := x) in * end.
  assert (Hbm : bookmarks w2 = bookmarks w).
  { apply deleteOne_app_new; auto. }
  assert (Husers : users w2
                   = updateById User._id (caller_id caller)
                       (fun u => User.set_bookmarks
                                   (pull noteId (push noteId (User.bookmarks u))) u)
                       (users w)).
  { unfold w2, w1. simpl. rewrite updateById_compose; [| reflexivity].
    reflexivity. }
  assert (Hnotes : notes w2
                   = updateById Note._id noteId
                       (fun n => Note.set_bookmarkedBy
                                   (pull (caller_id caller)
                                      (push (caller_id caller) (Note.bookmarkedBy n))) n)
                       (notes w)).
  { unfold w2, w1. simpl. rewrite updateById_compose; [| reflexivity].
    reflexivity. }
  exists b, w1, w2.
  split; [exact Hadd |].
  split; [eapply addBookmark_duplicate; eauto |].
  split; [exact Hrem |].
  split; [rewrite checkBookmark_run, Hbm, Hnew; reflexivity |].
  split; [exact Hbm |].
  split.
  { intros u Hu. rewrite Husers in Hu.
    apply findById_updateById_inv in Hu as (u0 & _ & ->); [| reflexivity].
    simpl. apply pull_not_In. }
  split.
  { intros n Hn. rewrite Hnotes in Hn.
    apply findById_updateById_inv in Hn as (n0 & _ & ->); [| reflexivity].
    simpl. apply pull_not_In. }
  intros Hu0 Hn0.
  assert (Eu : users w2 = users w).
  { rewrite Husers. apply updateById_fixed. intros u Hu.
    rewrite pull_push by (apply Hu0, Hu). apply User_set_bookmarks_same. }
  assert (En : notes w2 = notes w).
  { rewrite Hnotes. apply updateById_fixed. intros n Hn.
    rewrite Hnote in Hn. injection Hn as <-.
    rewrite pull_push by exact Hn0. apply Note_set_bookmarkedBy_same. }
  destruct w as [us ns js aps bs md]. simpl in *.
  unfold w2 in *. simpl in *. rewrite Eu, En, Hbm. reflexivity.
Qed.

Lemma bookmark_duplicate_and_round_trip_witness :
  findById Note._id 10 (notes Fixture.world) = Some Fixture.dbms /\
  findOne Bookmark.user Bookmark.note (caller_id Fixture.as_bob) 10
    (bookmarks Fixture.world) = None /\
  exists b w1 w2,
    addBookmark Fixture.env Fixture.as_bob 10 Fixture.world
      = (Resolved (mkResponse 201 true (Some (Literal "Bookmark added successfully"))
                     (Some b)), w1) /\
    addBookmark Fixture.env Fixture.as_bob 10 w1
      = (Resolved (failure 400 "Note already bookmarked"), w1) /\
    removeBookmark Fixture.as_bob 10 w1
      = (Resolved (mkResponse 200 true (Some (Literal "Bookmark removed successfully"))
                     None), w2) /\
    checkBookmark Fixture.as_bob 10 w2
      = (Resolved (mkResponse 200 true None (Some false)), w2) /\
    w2 = Fixture.world.
Proof.
  assert (H1 : findById Note._id 10 (notes Fixture.world) = Some Fixture.dbms)
    by reflexivity.
  assert (H2 : findOne Bookmark.user Bookmark.note (caller_id Fixture.as_bob) 10
                 (bookmarks Fixture.world) = None) by reflexivity.
  repeat (split; [assumption |]).
  destruct (bookmark_duplicate_and_round_trip Fixture.env Fixture.env
              Fixture.as_bob 10 Fixture.world Fixture.dbms H1 H2)
    as (b & w1 & w2 & Hadd & Hdup & Hrem & Hchk & _ & _ & _ & Hsame).
  exists b, w1, w2. repeat (split; [assumption |]).
  apply Hsame.
  - intros u [= <-]. simpl. tauto.
  - simpl. tauto.
Defined.

(** ** Deleting a bookmarked note *)

Section DeleteFacts.
Context {A : Type} (key : A -> ObjectId).

Lemma deleteById_no_key (i : ObjectId) (l : list A) (d : A) :
  NoDup (key <$> l) -> In d (deleteById key i l) -> key d <> i.
Proof.
  induction l as [| e l IH]; simpl; [tauto |].
  intros Hnd. apply NoDup_cons in Hnd as [Hnotin Hnd].
  destruct (Nat.eqb_spec (key e) i) as [E | E]; simpl.
  - intros Hin Hd. apply Hnotin. rewrite E, <- Hd.
    apply list_elem_of_In, in_map, Hin.
  - intros [<- | Hin]; auto.
Qed.

Lemma map_updateById {B} (g : A -> B) (i : ObjectId) (f : A -> A) (l : list A) :
  (forall d, g (f d) = g d) -> g <$> updateById key i f l = g <$> l.
Proof.
  intros Hg. induction l as [| e l IH]; simpl; [reflexivity |].
  destruct (Nat.eqb (key e) i); simpl.
  - rewrite Hg. reflexivity.
  - f_equal. exact IH.
Qed.
End DeleteFacts.

(** The world after a successful [deleteNote]. *)
Lemma deleteNote_done (env : Env) (caller : Caller) (id : ObjectId) (w : World)
    (note : Note.t) :
  findById Note._id id (notes w) = Some note ->
  Note.uploadedBy note = caller_id caller \/ caller_role caller = admin ->
  destroy_error env (Note.cloudinaryPublicId note) = None ->
  deleteNote env caller id w
  = (Resolved (mkResponse 200 true (Some (Literal "Note deleted successfully")) None),
     mkWorld
       (updateById User._id (Note.uploadedBy note)
          (fun u => User.set_uploadedNotes (pull (Note._id note) (User.uploadedNotes u)) u)
          (users w))
       (deleteById Note._id id (notes w))
       (jobs w) (applications w) (bookmarks w)
       (List.filter
          (fun f => negb (same_file (Note.cloudinaryPublicId note)
                            (resource_type_of (Note.fileType note)) f))
          (media w))).
Proof.
  intros Hfind Hauth Hok. apply not_owner_nor_admin_false in Hauth.
  unfold deleteNote, cloudinary_destroy. run_io.
  rewrite Hfind, Hauth, Hok. reflexivity.
Qed.

(** C9: a successful [deleteNote] removes the Note row and the reference
    in the owner's [uploadedNotes], and leaves the Bookmark collection and
    every user's [bookmarks] as they were; so [checkBookmark] still
    answers true for a user who had bookmarked the note, while
    [getMyBookmarks] lists no note with the deleted identifier. *)
Theorem deleteNote_leaves_bookmarks
    (dbsort : forall D : Type, (D -> json) -> bool -> list D -> list D)
    (env : Env) (caller : Caller) (id : ObjectId) (w : World) (note : Note.t) :
  NoDup (Note._id <$> notes w) ->
  findById Note._id id (notes w) = Some note ->
  Note.uploadedBy note = caller_id caller \/ caller_role caller = admin ->
  destroy_error env (Note.cloudinaryPublicId note) = None ->
  exists w',
    deleteNote env caller id w
      = (Resolved (mkResponse 200 true (Some (Literal "Note deleted successfully"))
                     None), w') /\
    findById Note._id id (notes w') = None /\
    (forall u, findById User._id (Note.uploadedBy note) (users w') = Some u ->
               ~ In id (User.uploadedNotes u)) /\
    bookmarks w' = bookmarks w /\
    User.bookmarks <$> users w' = User.bookmarks <$> users w /\
    (forall (reader : Caller) (b : Bookmark.t),
       findOne Bookmark.user Bookmark.note (caller_id reader) id (bookmarks w) = Some b ->
       checkBookmark reader id w'
         = (Resolved (mkResponse 200 true None (Some true)), w')) /\
    (forall (reader : Caller),
       exists listed,
         getMyBookmarks dbsort reader w'
           = (Resolved (mkResponse 200 true None (Some listed)), w') /\
         forall p, In p listed -> Note._id (doc p) <> id).
Proof.
  intros Hnd Hfind Hauth Hok.
  pose proof (deleteNote_done env caller id w note Hfind Hauth Hok) as Hrun.
  match type of Hrun with _ = (_, ?x) => set (w' := x) in * end.
  destruct (findById_In _ _ _ _ Hfind) as [_ Hid].
  exists w'. split; [exact Hrun |].
  split; [apply findById_deleteById, Hnd |].
  split.
  { intros u Hu. unfold w' in Hu. simpl in Hu.
    apply findById_updateById_inv in Hu as (u0 & _ & ->); [| reflexivity].
    simpl. rewrite <- Hid. apply pull_not_In. }
  split; [reflexivity |].
  split; [apply map_updateById; reflexivity |].
  split.
  { intros reader b Hb. rewrite checkBookmark_run. simpl. rewrite Hb. reflexivity. }
  intros reader. eexists. split.
  { unfold getMyBookmarks. run_io. reflexivity. }
  intros p Hp. apply list_elem_of_In, list_elem_of_omap in Hp as (o & Ho & Ho').
  unfold Datatypes.id in Ho'. subst o.
  apply list_elem_of_fmap in Ho as (b & Hpop & _).
  destruct (findById Note._id (Bookmark.note b) (notes w')) as [n |] eqn:Hn;
    [| discriminate].
  injection Hpop as ->. simpl.
  apply findById_In in Hn as [Hin _].
  eapply deleteById_no_key; [exact Hnd | exact Hin].
Qed.

Lemma deleteNote_leaves_bookmarks_witness :
  NoDup (Note._id <$> notes Fixture.bookmarked) /\
  findById Note._id 10 (notes Fixture.bookmarked)
    = Some (Note.set_bookmarkedBy [2] Fixture.dbms) /\
  (Note.uploadedBy (Note.set_bookmarkedBy [2] Fixture.dbms)
     = caller_id Fixture.as_alice \/ caller_role Fixture.as_alice = admin) /\
  destroy_error Fixture.env
    (Note.cloudinaryPublicId (Note.set_bookmarkedBy [2] Fixture.dbms)) = None /\
  exists w',
    deleteNote Fixture.env Fixture.as_alice 10 Fixture.bookmarked
      = (Resolved (mkResponse 200 true (Some (Literal "Note deleted successfully"))
                     None), w') /\
    findById Note._id 10 (notes w') = None /\
    checkBookmark Fixture.as_bob 10 w'
      = (Resolved (mkResponse 200 true None (Some true)), w') /\
    getMyBookmarks Engine.dbsort Fixture.as_bob w'
      = (Resolved (mkResponse 200 true None (Some [])), w').
Proof.
  assert (H1 : NoDup (Note._id <$> notes Fixture.bookmarked)).
  { apply (bool_decide_unpack _). vm_compute. exact I. }
  assert (H2 : findById Note._id 10 (notes Fixture.bookmarked)
               = Some (Note.set_bookmarkedBy [2] Fixture.dbms)) by reflexivity.
  assert (H3 : Note.uploadedBy (Note.set_bookmarkedBy [2] Fixture.dbms)
               = caller_id Fixture.as_alice \/ caller_role Fixture.as_alice = admin)
    by (left; reflexivity).
  assert (H4 : destroy_error Fixture.env
                 (Note.cloudinaryPublicId (Note.set_bookmarkedBy [2] Fixture.dbms))
               = None) by reflexivity.
  repeat (split; [assumption |]).
  destruct (deleteNote_leaves_bookmarks Engine.dbsort Fixture.env Fixture.as_alice
              10 Fixture.bookmarked _ H1 H2 H3 H4)
    as (w' & Hrun & Hgone & _ & _ & _ & Hchk & _).
  exists w'. split; [exact Hrun |]. split; [exact Hgone |].
  split; [apply (Hchk Fixture.as_bob (Bookmark.mk 100 2 10 500%Z)); reflexivity |].
  vm_compute in Hrun. injection Hrun as <-. reflexivity.
Defined.

(** ** The reference engine meets the contracts of the listings *)

Lemma Engine_insert_perm {D} (path : D -> json) (desc : bool) (d : D) (l : list D) :
  Permutation (Engine.insert path desc d l) (d :: l).
Proof.
  induction l as [| e l IH]; simpl; [reflexivity |].
  destruct (Engine.before path desc d e); [reflexivity |].
  rewrite IH. apply perm_swap.
Qed.

Lemma Engine_dbsort_perm (D : Type) (path : D -> json) (desc : bool) (l : list D) :
  Permutation (Engine.dbsort D path desc l) l.
Proof.
  unfold Engine.dbsort, Engine.sort.
  induction l as [| d l IH]; simpl; [reflexivity |].
  rewrite Engine_insert_perm, IH. reflexivity.
Qed.

Lemma Engine_parse_literal (p : list ascii) :
  forallb (fun c => negb (is_syntax_char c)) p = true ->
  Engine.parse p = Some (Engine.Lit <$> p).
Proof.
  induction p as [| c p IH]; simpl; [reflexivity |].
  intros H. apply andb_true_iff in H as [Hc Hp].
  apply negb_true_iff in Hc.
  destruct (Ascii.eqb_spec c "."%char) as [-> | _]; [discriminate Hc |].
  rewrite Hc, (IH Hp). reflexivity.
Qed.

Lemma Engine_match_here_literal (p s : list ascii) :
  Engine.match_here (Engine.Lit <$> p) s = ci_prefix p s.
Proof.
  revert s. induction p as [| a p IH]; intros [| c s]; simpl; auto.
  rewrite IH. reflexivity.
Qed.

Lemma Engine_search_literal (p s : list ascii) :
  Engine.search (Engine.Lit <$> p) s = ci_infix p s.
Proof.
  induction s as [| c s IH]; simpl.
  - rewrite Engine_match_here_literal. reflexivity.
  - rewrite Engine_match_here_literal, IH. reflexivity.
Qed.

(** On a pattern without syntax characters the reference engine tests for
    a case-insensitive substring. *)
Lemma Engine_RegExp_i_literal (p : string) :
  no_syntax_char p = true ->
  exists re, Engine.RegExp_i p = Some re /\ forall s, re s = ci_substring p s.
Proof.
  intros H. unfold Engine.RegExp_i.
  rewrite (Engine_parse_literal _ H). simpl. eexists. split; [reflexivity |].
  intros s. apply Engine_search_literal.
Qed.

(** ** Listings: what a handler returns *)

Section ListingFacts.
Variable RegExp_i : string -> option (string -> bool).
Variable castNumber : string -> option Z.
Variable dbsort : forall D : Type, (D -> json) -> bool -> list D -> list D.
Hypothesis dbsort_perm :
  forall (D : Type) (path : D -> json) (desc : bool) (l : list D),
    Permutation (dbsort D path desc l) l.

Lemma regexp_when_truthy_run (o : option string) (w : World) :
  regexp_when_truthy RegExp_i o w
  = match when_truthy o with
    | Some s =>
        match RegExp_i s with
        | Some re => (Resolved (Some re), w)
        | None => (Rejected (SyntaxError s), w)
        end
    | None => (Resolved None, w)
    end.
Proof.
  unfold regexp_when_truthy, new_RegExp.
  destruct (when_truthy o) as [s |]; [| reflexivity].
  destruct (RegExp_i s); reflexivity.
Qed.

Lemma In_window {D} (path : D -> json) (desc : bool) (l s : nat)
    (matching : list D) (d : D) :
  In d (window dbsort path desc l s matching) -> In d matching.
Proof.
  unfold window. intros H.
  apply list_elem_of_In in H.
  apply subseteq_take, subseteq_drop in H.
  apply list_elem_of_In in H.
  eapply Permutation_in; [apply dbsort_perm | exact H].
Qed.

Lemma window_length {D} (path : D -> json) (desc : bool) (l s : nat)
    (matching : list D) :
  length (window dbsort path desc l s matching) <= l.
Proof. unfold window. rewrite length_take. lia. Qed.

(** The first page holds every matching document when there are no
    more of them than the limit. *)
Lemma window_all {D} (path : D -> json) (desc : bool) (l : nat)
    (matching : list D) (d : D) :
  length matching <= l -> In d matching ->
  In d (window dbsort path desc l 0 matching).
Proof.
  unfold window. intros Hlen Hin. rewrite drop_0, take_ge.
  - eapply Permutation_in; [symmetry; apply dbsort_perm | exact Hin].
  - rewrite (Permutation_length (dbsort_perm D path desc matching)). exact Hlen.
Qed.

(** [getJobs] answers without writing: either a 500 for a pattern the
    regular-expression constructor refuses, or the page of the jobs
    matching the query it builds. *)
Lemma getJobs_run (env : Env) (q : JobsQuery) (w : World) :
  (exists s,
     (when_truthy (jq_location q) = Some s \/ when_truthy (jq_search q) = Some s) /\
     RegExp_i s = None /\
     getJobs RegExp_i dbsort env q w
     = (Resolved (mkResponse 500 false (Some (ErrorMessage (SyntaxError s))) None), w))
  \/
  (exists location search,
     let query := mkJobFilter (default "active" (jq_status q))
                    (when_truthy (jq_type q)) location
                    (when_truthy (jq_locationType q)) search (now env) in
     let limit := Pos.to_nat (default 12%positive (jq_limit q)) in
     let page := Pos.to_nat (default 1%positive (jq_page q)) in
     let matching := List.filter (Job_matches query) (jobs w) in
     (jq_location q = None -> location = None) /\
     (jq_search q = None -> search = None) /\
     getJobs RegExp_i dbsort env q w
     = (Resolved
          (mkResponse 200 true None
             (Some (mkPage
                      (populate_user Job.postedBy ["name"; "email"] (users w) <$>
                         window dbsort
                           (fun j => assoc (default "createdAt" (jq_sortBy q))
                                       (Job_toObject j))
                           (descending (default "desc" (jq_order q)))
                           limit ((page - 1) * limit) matching)
                      (mkPagination (length matching) page
                         (ceil_div (length matching) limit) limit)))), w)).
Proof.
  remember (getJobs RegExp_i dbsort env q w) as res eqn:Hrun.
  unfold getJobs, Job_find, Job_countDocuments, try_catch in Hrun.
  unfold bind at 1 in Hrun. rewrite regexp_when_truthy_run in Hrun.
  destruct (when_truthy (jq_location q)) as [l |] eqn:Hl.
  - destruct (RegExp_i l) as [lre |] eqn:Hlre; [| left; exists l; auto].
    unfold bind at 1 in Hrun. rewrite regexp_when_truthy_run in Hrun.
    destruct (when_truthy (jq_search q)) as [s |] eqn:Hs.
    + destruct (RegExp_i s) as [sre |] eqn:Hsre; [| left; exists s; auto].
      right. exists (Some lre), (Some sre). cbv zeta.
      split; [intros E; rewrite E in Hl; discriminate |].
      split; [intros E; rewrite E in Hs; discriminate |]. exact Hrun.
    + right. exists (Some lre), None. cbv zeta.
      split; [intros E; rewrite E in Hl; discriminate |].
      split; [reflexivity |]. exact Hrun.
  - unfold bind at 1 in Hrun. rewrite regexp_when_truthy_run in Hrun.
    destruct (when_truthy (jq_search q)) as [s |] eqn:Hs.
    + destruct (RegExp_i s) as [sre |] eqn:Hsre; [| left; exists s; auto].
      right. exists None, (Some sre). cbv zeta.
      split; [reflexivity |].
      split; [intros E; rewrite E in Hs; discriminate |]. exact Hrun.
    + right. exists None, None. cbv zeta. auto.
Qed.

Lemma Job_matches_true (f : JobFilter) (j : Job.t) :
  Job_matches f j = true ->
  JobStatus_str (Job.status j) = jf_status f /\
  (jf_deadline_gte f <= Job.applicationDeadline j)%Z.
Proof.
  unfold Job_matches. rewrite !andb_true_iff.
  intros [[[[[Hs _] _] _] _] Hd].
  apply String.eqb_eq in Hs. apply Z.leb_le in Hd. auto.
Qed.

Lemma JobStatus_str_active (s : JobStatus) :
  JobStatus_str s = "active" -> s = active.
Proof. destruct s; simpl; intros H; [reflexivity | discriminate | discriminate]. Qed.

(** C2: [getJobs] always answers and writes nothing.  Every job it lists
    is a stored job whose deadline is not before now and whose status is
    the requested one, [active] when the request names none; so no job
    with a past deadline is ever listed.  A request without filters is
    answered with 200 and a total that counts exactly the active jobs
    whose deadline has not passed. *)
Theorem getJobs_active_and_open (env : Env) (q : JobsQuery) (w : World) :
  exists r,
    getJobs RegExp_i dbsort env q w = (Resolved r, w) /\
    (forall pg p,
       data r = Some pg -> In p (items pg) ->
       In (doc p) (jobs w) /\
       (now env <= Job.applicationDeadline (doc p))%Z /\
       JobStatus_str (Job.status (doc p)) = default "active" (jq_status q) /\
       (jq_status q = None -> Job.status (doc p) = active)) /\
    (jq_status q = None -> jq_type q = None -> jq_location q = None ->
     jq_locationType q = None -> jq_search q = None ->
     exists pg,
       r = mkResponse 200 true None (Some pg) /\
       total (pagination pg)
       = length (List.filter
                   (fun j => match Job.status j with
                             | active => Z.leb (now env) (Job.applicationDeadline j)
                             | _ => false
                             end)
                   (jobs w)) /\
       length (items pg) <= limit (pagination pg)).
Proof.
  destruct (getJobs_run env q w)
    as [(s & Hs & Hre & Hrun) | (location & search & Hloc & Hsearch & Hrun)].
  - eexists. split; [exact Hrun |]. split.
    + intros pg p Hdata. discriminate Hdata.
    + intros _ _ Hl _ Hse. rewrite Hl, Hse in Hs. simpl in Hs.
      destruct Hs; discriminate.
  - cbv zeta in *. eexists. split; [exact Hrun |]. split.
    + intros pg p Hdata Hp. simpl in Hdata. injection Hdata as <-.
      simpl in Hp. apply list_elem_of_In, list_elem_of_fmap in Hp as (j & -> & Hj).
      apply list_elem_of_In, In_window, List.filter_In in Hj as [Hin Hm].
      apply Job_matches_true in Hm as [Hst Hdl]. simpl in *.
      repeat split; auto.
      intros Hnone. rewrite Hnone in Hst. apply JobStatus_str_active, Hst.
    + intros Hst Hty Hl Hlt Hse. eexists. split; [reflexivity |]. simpl.
      rewrite (Hloc Hl), (Hsearch Hse), Hst, Hty, Hlt. simpl.
      split.
      * f_equal. apply List.filter_ext. intros j.
        unfold Job_matches. simpl.
        destruct (Job.status j); simpl; rewrite ?andb_true_r; reflexivity.
      * rewrite length_fmap. apply window_length.
Qed.
Lemma cast_condition_run (o : option string) (w : World) :
  cast_condition castNumber o w
  = match o with
    | Some s =>
        match castNumber s with
        | Some z => (Resolved (Some z), w)
        | None => (Rejected (CastError s), w)
        end
    | None => (Resolved None, w)
    end.
Proof.
  unfold cast_condition. destruct o as [s |]; [| reflexivity].
  destruct (castNumber s); reflexivity.
Qed.

(** [getNotes] answers without writing: either a 500 for a pattern the
    regular-expression constructor refuses or a semester the cast
    refuses, or the page of the notes matching the query it builds. *)
Lemma getNotes_run (q : NotesQuery) (w : World) :
  (exists e,
     getNotes RegExp_i castNumber dbsort q w
     = (Resolved (mkResponse 500 false (Some (ErrorMessage e)) None), w) /\
     ((exists s, (when_truthy (nq_subject q) = Some s
                  \/ when_truthy (nq_search q) = Some s) /\ RegExp_i s = None)
      \/ (exists s, when_truthy (nq_semester q) = Some s /\ castNumber s = None)))
  \/
  (exists subject search semester,
     let query := mkNoteFilter "approved" (when_truthy (nq_semester q))
                    (when_truthy (nq_branch q)) subject search in
     let limit := Pos.to_nat (default 12%positive (nq_limit q)) in
     let page := Pos.to_nat (default 1%positive (nq_page q)) in
     let matching := List.filter (Note_matches query semester) (notes w) in
     subject = when_truthy (nq_subject q) ≫= RegExp_i /\
     (forall s, when_truthy (nq_subject q) = Some s -> is_Some subject) /\
     search = when_truthy (nq_search q) ≫= RegExp_i /\
     semester = when_truthy (nq_semester q) ≫= castNumber /\
     getNotes RegExp_i castNumber dbsort q w
     = (Resolved
          (mkResponse 200 true None
             (Some (mkPage
                      (populate_user Note.uploadedBy ["name"; "email"; "branch"]
                         (users w) <$>
                         window dbsort
                           (fun n => assoc (default "createdAt" (nq_sortBy q))
                                       (Note_toObject n))
                           (descending (default "desc" (nq_order q)))
                           limit ((page - 1) * limit) matching)
                      (mkPagination (length matching) page
                         (ceil_div (length matching) limit) limit)))), w)).
Proof.
  remember (getNotes RegExp_i castNumber dbsort q w) as res eqn:Hrun.
  unfold getNotes, Note_find, Note_countDocuments, try_catch in Hrun.
  cbv beta zeta iota delta [bind nf_semester] in Hrun.
  rewrite regexp_when_truthy_run in Hrun.
  destruct (when_truthy (nq_subject q)) as [s1 |] eqn:H1;
    [destruct (RegExp_i s1) as [re1 |] eqn:R1;
       [| left; eexists; split; [exact Hrun | left; exists s1; auto]] |];
    cbv beta iota in Hrun;
    rewrite regexp_when_truthy_run in Hrun;
    (destruct (when_truthy (nq_search q)) as [s2 |] eqn:H2;
       [destruct (RegExp_i s2) as [re2 |] eqn:R2;
          [| left; eexists; split; [exact Hrun | left; exists s2; auto]] |]);
    cbv beta iota in Hrun;
    rewrite cast_condition_run in Hrun;
    (destruct (when_truthy (nq_semester q)) as [s3 |] eqn:H3;
       [destruct (castNumber s3) as [z |] eqn:C3;
          [| left; eexists; split; [exact Hrun | right; exists s3; auto]] |]);
    cbv beta iota delta [gets] in Hrun;
    rewrite cast_condition_run in Hrun; rewrite ?C3 in Hrun;
    cbv beta iota delta [ret] in Hrun;
    right; do 3 eexists; cbv zeta;
    (split; [| split; [| split; [| split; [| exact Hrun]]]]);
    simpl; rewrite ?R1, ?R2, ?C3; eauto; try discriminate.
Qed.

Lemma Note_matches_true (f : NoteFilter) (semester : option Z) (n : Note.t) :
  Note_matches f semester n = true ->
  NoteStatus_str (Note.status n) = nf_status f /\
  holds (nf_subject f) (fun re => re (Note.subject n)) = true.
Proof.
  unfold Note_matches. rewrite !andb_true_iff.
  intros [[[[Hs _] _] Hsub] _].
  apply String.eqb_eq in Hs. auto.
Qed.

Lemma NoteStatus_str_approved (s : NoteStatus) :
  NoteStatus_str s = "approved" -> s = approved.
Proof. destruct s; simpl; intros H; [discriminate | reflexivity | discriminate]. Qed.

Lemma ceil_div_bounds (t l : nat) :
  0 < l -> t <= ceil_div t l * l /\ ceil_div t l * l < t + l.
Proof.
  intros Hl. unfold ceil_div.
  pose proof (Nat.div_mod_eq (t + (l - 1)) l) as Hdm.
  pose proof (Nat.mod_upper_bound (t + (l - 1)) l ltac:(lia)) as Hmod.
  split; nia.
Qed.

Lemma ci_infix_nil (s : list ascii) : ci_infix [] s = true.
Proof. destruct s; reflexivity. Qed.

Lemma when_truthy_Some (o : option string) (s : string) :
  when_truthy o = Some s -> o = Some s.
Proof.
  destruct o as [[| c t] |]; simpl; intros H; try discriminate.
  injection H as <-. reflexivity.
Qed.

Hypothesis RegExp_i_literal :
  forall p, no_syntax_char p = true ->
    exists re, RegExp_i p = Some re /\ forall s, re s = ci_substring p s.

(** The subject condition of the query, for a plain-text subject. *)
Lemma subject_condition_literal (o : option string) (x : string) :
  (forall s, o = Some s -> no_syntax_char s = true) ->
  holds (when_truthy o ≫= RegExp_i) (fun re => re x)
  = match o with Some s => ci_substring s x | None => true end.
Proof.
  intros Hlit. destruct o as [[| c t] |]; simpl; [| | reflexivity].
  - unfold ci_substring. simpl. rewrite ci_infix_nil. reflexivity.
  - destruct (RegExp_i_literal (String c t) (Hlit _ eq_refl)) as (re & -> & Hre).
    simpl. apply Hre.
Qed.


End ListingFacts.

Lemma getJobs_active_and_open_witness :
  (forall (D : Type) (path : D -> json) (desc : bool) (l : list D),
     Permutation (Engine.dbsort D path desc l) l) /\
  exists r pg,
    getJobs Engine.RegExp_i Engine.dbsort Fixture.env Fixture.all_jobs Fixture.world
      = (Resolved r, Fixture.world) /\
    r = mkResponse 200 true None (Some pg) /\
    total (pagination pg) = 1 /\
    (forall p, In p (items pg) ->
               (now Fixture.env <= Job.applicationDeadline (doc p))%Z /\
               Job.status (doc p) = active) /\
    doc <$> items pg = [Fixture.open_job].
Proof.
  split; [exact Engine_dbsort_perm |].
  destruct (getJobs_active_and_open Engine.RegExp_i Engine.dbsort
              Engine_dbsort_perm Fixture.env Fixture.all_jobs Fixture.world)
    as (r & Hrun & Hlisted & Hdefault).
  destruct (Hdefault eq_refl eq_refl eq_refl eq_refl eq_refl)
    as (pg & Hr & Htotal & _).
  exists r, pg. split; [exact Hrun |]. split; [exact Hr |].
  split; [exact Htotal |].
  subst r. split.
  - intros p Hp.
    destruct (Hlisted pg p eq_refl Hp) as (_ & Hopen & _ & Hactive).
    split; [exact Hopen | exact (Hactive eq_refl)].
  - vm_compute in Hrun. injection Hrun as <-. reflexivity.
Defined.



(** ** Dashboard statistics *)

Lemma students_and_admins (us : list User.t) :
  length (List.filter (fun u => String.eqb (Role_str (User.role u)) "student") us)
  + length (List.filter (fun u => String.eqb (Role_str (User.role u)) "admin") us)
  = length us.
Proof.
  induction us as [| u us IH]; simpl; [reflexivity |].
  destruct (User.role u); simpl; lia.
Qed.

Lemma notes_by_status (ns : list Note.t) :
  length (List.filter (fun n => bool_decide (Note.status n = pending)) ns)
  + length (List.filter (fun n => bool_decide (Note.status n = approved)) ns)
  + length (List.filter (fun n => bool_decide (Note.status n = rejected)) ns)
  = length ns.
Proof.
  induction ns as [| n ns IH]; simpl; [reflexivity |].
  destruct (Note.status n); simpl; lia.
Qed.

(** C10: the dashboard's [totalUsers] counts the users whose role is
    [student], so that together with the admin accounts it makes up the
    users collection, and [totalNotes] counts every note: the pending, the
    approved and the rejected ones. *)
Theorem getDashboardStats_counts
    (dbsort : forall D : Type, (D -> json) -> bool -> list D -> list D)
    (w : World) :
  exists stats,
    getDashboardStats dbsort w
      = (Resolved (mkResponse 200 true None (Some stats)), w) /\
    totalUsers (overview stats)
      = length (List.filter (fun u => bool_decide (User.role u = student)) (users w)) /\
    totalUsers (overview stats)
      + length (List.filter (fun u => bool_decide (User.role u = admin)) (users w))
      = length (users w) /\
    totalNotes (overview stats) = length (notes w) /\
    totalNotes (overview stats)
      = length (List.filter (fun n => bool_decide (Note.status n = pending)) (notes w))
        + length (List.filter (fun n => bool_decide (Note.status n = approved)) (notes w))
        + length (List.filter (fun n => bool_decide (Note.status n = rejected)) (notes w)).
Proof.
  eexists. split; [unfold getDashboardStats; run_io; reflexivity |]. simpl.
  assert (Es : forall us,
             List.filter (fun u => String.eqb (Role_str (User.role u)) "student") us
             = List.filter (fun u => bool_decide (User.role u = student)) us).
  { intros us. apply List.filter_ext. intros u. destruct (User.role u); reflexivity. }
  assert (Ea : forall us,
             List.filter (fun u => String.eqb (Role_str (User.role u)) "admin") us
             = List.filter (fun u => bool_decide (User.role u = admin)) us).
  { intros us. apply List.filter_ext. intros u. destruct (User.role u); reflexivity. }
  split; [apply f_equal, Es |].
  split; [rewrite <- Ea; apply students_and_admins |].
  split; [reflexivity |].
  symmetry. apply notes_by_status.
Qed.

(** ** The password never leaves the server *)

Lemma lookup_foldr_delete (m : gmap string json) (ks : list string) (k : string) :
  foldr delete m ks !! k = if bool_decide (k ∈ ks) then None else m !! k.
Proof.
  induction ks as [| k' ks IH]; simpl; [reflexivity |].
  rewrite lookup_delete. destruct (decide (k' = k)) as [-> | E].
  - rewrite bool_decide_eq_true_2; [reflexivity | left].
  - rewrite IH. destruct (bool_decide (k ∈ ks)) eqn:B.
    + apply bool_decide_eq_true in B.
      rewrite bool_decide_eq_true_2; [reflexivity | right; exact B].
    + apply bool_decide_eq_false in B.
      rewrite bool_decide_eq_false_2; [reflexivity |].
      intros H. apply elem_of_cons in H as [H | H]; [congruence | contradiction].
Qed.

Lemma stored_password (u : User.t) :
  UserDoc.stored u !! "password" = Some (JStr (User.password u)).
Proof.
  unfold UserDoc.stored. cbn [app]. rewrite !list_to_map_cons.
  rewrite !lookup_insert_ne by discriminate. apply lookup_insert_eq.
Qed.

Lemma toJSON_no_password (o : gmap string json) :
  UserDoc.toJSON o !! "password" = None.
Proof. apply lookup_delete_eq. Qed.

Lemma populate_user_no_password {D} (ref : D -> ObjectId) (select : list string)
    (us : list User.t) (d : D) (o : gmap string json) :
  populated (populate_user ref select us d) = Some o -> o !! "password" = None.
Proof.
  unfold populate_user. simpl.
  destruct (findById User._id (ref d) us) as [u |]; simpl; [| discriminate].
  intros [= <-]. apply toJSON_no_password.
Qed.

Lemma In_populated_no_password {D} (ref : D -> ObjectId) (select : list string)
    (us : list User.t) (l : list D) (p : Populated D) (o : gmap string json) :
  In p (populate_user ref select us <$> l) ->
  populated p = Some o -> o !! "password" = None.
Proof.
  intros Hp Ho. apply list_elem_of_In, list_elem_of_fmap in Hp as (d & -> & _).
  eapply populate_user_no_password, Ho.
Qed.

(** [getAllUsers] answers with a 500 or with serialised users. *)
Lemma getAllUsers_run
    (RegExp_i : string -> option (string -> bool))
    (dbsort : forall D : Type, (D -> json) -> bool -> list D -> list D)
    (q : UsersQuery) (w : World) :
  (exists e,
     getAllUsers RegExp_i dbsort q w
     = (Resolved (mkResponse 500 false (Some (ErrorMessage e)) None), w))
  \/
  (exists (listed : list User.t) (pag : AdminPagination),
     getAllUsers RegExp_i dbsort q w
     = (Resolved
          (mkResponse 200 true None
             (Some (mkAdminPage
                      ((fun u => UserDoc.toJSON (UserDoc.load (Exclusive ["password"]) u))
                         <$> listed) pag))), w)).
Proof.
  remember (getAllUsers RegExp_i dbsort q w) as res eqn:Hrun.
  unfold getAllUsers, try_catch in Hrun.
  unfold bind at 1 in Hrun. rewrite regexp_when_truthy_run in Hrun.
  destruct (when_truthy (uq_search q)) as [s |];
    [destruct (RegExp_i s) as [re |]; [| left; eexists; exact Hrun] |];
    right; do 2 eexists; exact Hrun.
Qed.



(** * Further properties of the controllers *)

Ltac run_handlers :=
  cbv beta iota zeta delta
    [try_catch bind gets modify ret throw internal_error
     Note_findById Note_findByIdAndUpdate Note_findByIdAndDelete
     Note_find_uploadedBy User_findById User_findByIdAndUpdate
     User_findByIdAndDelete Job_findById Job_findByIdAndUpdate
     Job_findByIdAndDelete Application_findOne Application_deleteMany
     Bookmark_findOne] in *.

(** ** View and download counters *)

Lemma invalid_paths_set_views (v : Z) (n : Note.t) :
  Note.invalid_paths (Note.set_views v n) = Note.invalid_paths n.
Proof. reflexivity. Qed.

Lemma invalid_paths_set_downloads (v : Z) (n : Note.t) :
  Note.invalid_paths (Note.set_downloads v n) = Note.invalid_paths n.
Proof. reflexivity. Qed.

(** [save] of a valid document replaces the stored one; of an invalid one
    it rejects and writes nothing. *)
Lemma Note_save_run (n : Note.t) (w : World) :
  Note_save n w
  = match Note.invalid_paths n with
    | [] => (Resolved n,
             set_notes (updateById Note._id (Note._id n) (fun _ => n) (notes w)) w)
    | p :: ps => (Rejected (ValidationError "Note" (p :: ps)), w)
    end.
Proof.
  unfold Note_save. destruct (Note.invalid_paths n); reflexivity.
Qed.

Section ReplaceFacts.
Context {A : Type} (key : A -> ObjectId).

Lemma updateById_replace_twice (i : ObjectId) (c : A) (g : A -> A) (l : list A) :
  key c = i ->
  updateById key i g (updateById key i (fun _ => c) l)
  = updateById key i (fun _ => g c) l.
Proof.
  intros Hc. induction l as [| e l IH]; simpl; [reflexivity |].
  destruct (Nat.eqb (key e) i) eqn:E; simpl.
  - rewrite Hc, Nat.eqb_refl. reflexivity.
  - rewrite E, IH. reflexivity.
Qed.

Lemma updateById_restore (i : ObjectId) (d : A) (l : list A) :
  findById key i l = Some d -> updateById key i (fun _ => d) l = l.
Proof.
  unfold findById. induction l as [| e l IH]; simpl; [reflexivity |].
  destruct (Nat.eqb (key e) i).
  - intros [= ->]. reflexivity.
  - intros H. rewrite IH; auto.
Qed.
End ReplaceFacts.





(** The world after a view, and after a download, of a valid note. *)
Lemma getNoteById_world (id : ObjectId) (w : World) (note : Note.t) :
  findById Note._id id (notes w) = Some note ->
  Note.invalid_paths note = [] ->
  snd (getNoteById id w)
  = set_notes (updateById Note._id id
                 (fun _ => Note.set_views (Note.views note + 1)%Z note) (notes w)) w.
Proof.
  intros Hfind Hvalid. destruct (findById_In _ _ _ _ Hfind) as [_ Hid]. subst id.
  unfold getNoteById, Note_incrementViews.
  cbv beta iota zeta delta [try_catch bind gets ret].
  rewrite Hfind. simpl. rewrite Note_save_run, invalid_paths_set_views, Hvalid.
  reflexivity.
Qed.

Lemma downloadNote_world (id : ObjectId) (w : World) (note : Note.t) :
  findById Note._id id (notes w) = Some note ->
  Note.invalid_paths note = [] ->
  snd (downloadNote id w)
  = set_notes (updateById Note._id id
                 (fun _ => Note.set_downloads (Note.downloads note + 1)%Z note)
                 (notes w)) w.
Proof.
  intros Hfind Hvalid. destruct (findById_In _ _ _ _ Hfind) as [_ Hid]. subst id.
  unfold downloadNote, Note_incrementDownloads.
  cbv beta iota zeta delta [try_catch bind gets ret Note_findById].
  rewrite Hfind. rewrite Note_save_run, invalid_paths_set_downloads, Hvalid.
  reflexivity.
Qed.



(** ** Uploading a note *)

Lemma Note_create_run (n : Note.t) (w : World) :
  Note_create n w
  = match Note.invalid_paths n with
    | [] => (Resolved n, set_notes (notes w ++ [n]) w)
    | p :: ps => (Rejected (ValidationError "Note" (p :: ps)), w)
    end.
Proof. unfold Note_create. destruct (Note.invalid_paths n); reflexivity. Qed.

Section AppendFacts.
Context {A : Type} (key : A -> ObjectId).

Lemma findById_app_new (i : ObjectId) (l : list A) (d : A) :
  key d = i -> findById key i l = None -> findById key i (l ++ [d]) = Some d.
Proof.
  unfold findById. intros Hd. induction l as [| e l IH]; simpl.
  - intros _. rewrite Hd, Nat.eqb_refl. reflexivity.
  - destruct (Nat.eqb (key e) i); [discriminate | exact IH].
Qed.

Lemma findById_app_old (i : ObjectId) (l : list A) (d : A) :
  key d <> i -> findById key i (l ++ [d]) = findById key i l.
Proof.
  unfold findById. intros Hd. induction l as [| e l IH]; simpl.
  - destruct (Nat.eqb_spec (key d) i); [contradiction | reflexivity].
  - destruct (Nat.eqb (key e) i); [reflexivity | exact IH].
Qed.

Lemma deleteById_app_new (i : ObjectId) (l : list A) (d : A) :
  key d = i -> findById key i l = None -> deleteById key i (l ++ [d]) = l.
Proof.
  unfold findById. intros Hd. induction l as [| e l IH]; simpl.
  - intros _. rewrite Hd, Nat.eqb_refl. reflexivity.
  - destruct (Nat.eqb (key e) i); [discriminate |].
    intros H. rewrite IH; auto.
Qed.
End AppendFacts.



(** The world after a successful [uploadNote]. *)
Lemma uploadNote_done (env : Env) (caller : Caller) (file : File)
    (body : NotePatch) (url publicId : string) (w : World) :
  Note.invalid_paths (new_note env caller body file url publicId) = [] ->
  findById Note._id (newId env) (notes w) = None ->
  uploadNote env (Uploaded url publicId) caller (Some file) body w
  = (Resolved
       (mkResponse 201 true (Some (Literal "Note uploaded successfully"))
          (Some (Some (populate_user Note.uploadedBy ["name"; "email"; "branch"]
                         (updateById User._id (caller_id caller)
                            (fun u => User.set_uploadedNotes
                                        (push (newId env) (User.uploadedNotes u)) u)
                            (users w))
                         (new_note env caller body file url publicId))))),
     mkWorld
       (updateById User._id (caller_id caller)
          (fun u => User.set_uploadedNotes (push (newId env) (User.uploadedNotes u)) u)
          (users w))
       (notes w ++ [new_note env caller body file url publicId])
       (jobs w) (applications w) (bookmarks w)
       (media w ++ [(publicId, resource_type_of (mimetype file))])).
Proof.
  intros Hvalid Hfresh.
  unfold uploadNote, uploadToCloudinary.
  cbv beta iota zeta delta
    [try_catch bind modify gets ret internal_error fst snd User_findByIdAndUpdate].
  rewrite Note_create_run, Hvalid.
  cbn [set_media set_notes set_users notes users jobs applications bookmarks media
       new_note Note._id].
  rewrite (findById_app_new Note._id (newId env) (notes w)
             (new_note env caller body file url publicId) eq_refl Hfresh).
  reflexivity.
Qed.



(** ** Upload and delete *)

Lemma same_file_eq (p : string) (r : ResourceType) (f : string * ResourceType) :
  same_file p r f = true -> f = (p, r).
Proof.
  destruct f as [q s]. unfold same_file. simpl.
  rewrite andb_true_iff. intros [Hq Hs]. apply String.eqb_eq in Hq. subst q.
  destruct s, r; try discriminate; reflexivity.
Qed.

Lemma same_file_refl (p : string) (r : ResourceType) : same_file p r (p, r) = true.
Proof. unfold same_file. simpl. rewrite String.eqb_refl. destruct r; reflexivity. Qed.

Lemma destroy_after_upload (p : string) (r : ResourceType)
    (m : list (string * ResourceType)) :
  ~ In (p, r) m ->
  List.filter (fun f => negb (same_file p r f)) (m ++ [(p, r)]) = m.
Proof.
  intros Hnew. rewrite List.filter_app. simpl. rewrite same_file_refl. simpl.
  rewrite app_nil_r. induction m as [| f m IH]; simpl; [reflexivity |].
  destruct (same_file p r f) eqn:E; simpl.
  - apply same_file_eq in E. subst f. exfalso. apply Hnew. left. reflexivity.
  - rewrite IH; [reflexivity |]. intros H. apply Hnew. right. exact H.
Qed.

Lemma User_set_uploadedNotes_same (u : User.t) :
  User.set_uploadedNotes (User.uploadedNotes u) u = u.
Proof. destruct u; reflexivity. Qed.



(** ** Own notes and the public listing after an upload *)

Section MoreListingFacts.
Variable RegExp_i : string -> option (string -> bool).
Variable castNumber : string -> option Z.
Variable dbsort : forall D : Type, (D -> json) -> bool -> list D -> list D.
Hypothesis dbsort_perm :
  forall (D : Type) (path : D -> json) (desc : bool) (l : list D),
    Permutation (dbsort D path desc l) l.

(** X7: [getMyNotes] always answers 200 and writes nothing; it lists
    exactly the stored notes whose uploader is the caller, whatever their
    status, each once. *)
Theorem getMyNotes_lists_own_notes (caller : Caller) (w : World) :
  exists listed,
    getMyNotes dbsort caller w
    = (Resolved (mkResponse 200 true None (Some listed)), w) /\
    Permutation (doc <$> listed)
      (List.filter (fun n => Nat.eqb (Note.uploadedBy n) (caller_id caller)) (notes w)) /\
    (forall n, In n (doc <$> listed) <->
               In n (notes w) /\ Note.uploadedBy n = caller_id caller).
Proof.
  eexists. split; [unfold getMyNotes; run_handlers; reflexivity |].
  assert (Hperm : Permutation
            (doc <$> (populate_user Note.uploadedBy ["name"; "email"] (users w) <$>
                        dbsort Note.t (fun n => JNum (Note.createdAt n)) true
                          (List.filter
                             (fun n => Nat.eqb (Note.uploadedBy n) (caller_id caller))
                             (notes w))))
            (List.filter (fun n => Nat.eqb (Note.uploadedBy n) (caller_id caller))
               (notes w))).
  { rewrite <- list_fmap_compose. simpl.
    rewrite (list_fmap_ext _ Datatypes.id) by reflexivity.
    rewrite list_fmap_id. apply dbsort_perm. }
  assert (Hiff : forall n,
            In n (doc <$> (populate_user Note.uploadedBy ["name"; "email"] (users w) <$>
                             dbsort Note.t (fun n => JNum (Note.createdAt n)) true
                               (List.filter
                                  (fun n => Nat.eqb (Note.uploadedBy n) (caller_id caller))
                                  (notes w))))
            <-> In n (notes w) /\ Note.uploadedBy n = caller_id caller).
  { intros n. split.
    - intros H. apply (Permutation_in _ Hperm), List.filter_In in H as [Hin Ho].
      apply Nat.eqb_eq in Ho. auto.
    - intros [Hin Ho]. apply (Permutation_in _ (Permutation_sym Hperm)).
      apply List.filter_In. split; [exact Hin | apply Nat.eqb_eq, Ho]. }
  split; [exact Hperm | exact Hiff].
Qed.

(** With no filter, [getNotes] answers 200 with a total that counts the
    approved notes. *)
Lemma getNotes_unfiltered (q : NotesQuery) (w : World) :
  nq_semester q = None -> nq_branch q = None ->
  nq_subject q = None -> nq_search q = None ->
  exists pg,
    getNotes RegExp_i castNumber dbsort q w
    = (Resolved (mkResponse 200 true None (Some pg)), w) /\
    total (pagination pg)
    = length (List.filter (fun n => bool_decide (Note.status n = approved)) (notes w)).
Proof.
  intros Hsem Hbr Hsu Hse.
  destruct (getNotes_run RegExp_i castNumber dbsort q w)
    as [(e & _ & [(s & [H | H] & _) | (s & H & _)])
       | (subject & search & semester & Hsub & _ & Hsearch & Hsemester & Hrun)].
  - rewrite Hsu in H. discriminate.
  - rewrite Hse in H. discriminate.
  - rewrite Hsem in H. discriminate.
  - cbv zeta in Hrun. eexists. split; [exact Hrun |]. simpl.
    f_equal. apply List.filter_ext. intros n.
    unfold Note_matches. simpl.
    rewrite Hsub, Hsearch, Hsemester, Hsu, Hse, Hsem, Hbr. simpl.
    destruct (Note.status n); reflexivity.
Qed.

End MoreListingFacts.

Lemma getMyNotes_lists_own_notes_witness :
  (forall (D : Type) (path : D -> json) (desc : bool) (l : list D),
     Permutation (Engine.dbsort D path desc l) l) /\
  exists listed,
    getMyNotes Engine.dbsort Fixture.as_alice Fixture.world
    = (Resolved (mkResponse 200 true None (Some listed)), Fixture.world) /\
    doc <$> listed = [Fixture.os; Fixture.dbms] /\
    Note.status <$> (doc <$> listed) = [pending; approved].
Proof.
  split; [exact Engine_dbsort_perm |].
  destruct (getMyNotes_lists_own_notes Engine.dbsort Engine_dbsort_perm
              Fixture.as_alice Fixture.world) as (listed & Hrun & _).
  exists listed. split; [exact Hrun |].
  vm_compute in Hrun. injection Hrun as <-. split; reflexivity.
Defined.


(** ** Deleting a job *)

Lemma not_poster_nor_admin_false (job : Job.t) (c : Caller) :
  not_poster_nor_admin job c = false <->
  Job.postedBy job = caller_id c \/ caller_role c = admin.
Proof.
  unfold not_poster_nor_admin, is_admin.
  rewrite andb_false_iff, !negb_false_iff, Nat.eqb_eq.
  destruct (caller_role c); split; intros [? | ?]; auto; congruence.
Qed.

(** The world after a successful [deleteJob]. *)
Lemma deleteJob_done (caller : Caller) (id : ObjectId) (w : World) (job : Job.t) :
  findById Job._id id (jobs w) = Some job ->
  Job.postedBy job = caller_id caller \/ caller_role caller = admin ->
  deleteJob caller id w
  = (Resolved (mkResponse 200 true (Some (Literal "Job deleted successfully")) None),
     mkWorld (users w) (notes w) (deleteById Job._id id (jobs w))
       (List.filter (fun a => negb (Nat.eqb (Application.job a) id)) (applications w))
       (bookmarks w) (media w)).
Proof.
  intros Hfind Hauth. apply not_poster_nor_admin_false in Hauth.
  unfold deleteJob. run_handlers. rewrite Hfind, Hauth. reflexivity.
Qed.

(** X9: a successful [deleteJob] removes the job and every application
    for it, and nothing else: the applications for other jobs stay, in
    their order, and users (their applicants included), notes and
    bookmarks are untouched.  With job identifiers unique the job can no
    longer be found, so a later [applyForJob] or [getJobById] for it
    answers 404. *)
Theorem deleteJob_cascades_to_applications
    (env : Env) (caller applicant : Caller) (id : ObjectId)
    (coverLetter : option string) (w : World) (job : Job.t) :
  NoDup (Job._id <$> jobs w) ->
  findById Job._id id (jobs w) = Some job ->
  Job.postedBy job = caller_id caller \/ caller_role caller = admin ->
  exists w',
    deleteJob caller id w
    = (Resolved (mkResponse 200 true (Some (Literal "Job deleted successfully")) None),
       w') /\
    (forall a, In a (applications w') <->
               In a (applications w) /\ Application.job a <> id) /\
    applications w'
    = List.filter (fun a => negb (Nat.eqb (Application.job a) id)) (applications w) /\
    findById Job._id id (jobs w') = None /\
    (forall j, j <> id -> findById Job._id j (jobs w') = findById Job._id j (jobs w)) /\
    (users w', notes w', bookmarks w', media w')
    = (users w, notes w, bookmarks w, media w) /\
    applyForJob env applicant id coverLetter w'
    = (Resolved (failure 404 "Job not found"), w') /\
    getJobById id w' = (Resolved (failure 404 "Job not found"), w').
Proof.
  intros Hnd Hfind Hauth.
  pose proof (deleteJob_done caller id w job Hfind Hauth) as Hrun.
  match type of Hrun with _ = (_, ?x) => set (w' := x) in * end.
  assert (Hgone : findById Job._id id (jobs w') = None)
    by (apply findById_deleteById, Hnd).
  exists w'. split; [exact Hrun |].
  split.
  { intros a. unfold w'. simpl. rewrite List.filter_In, negb_true_iff, Nat.eqb_neq.
    tauto. }
  split; [reflexivity |]. split; [exact Hgone |].
  split; [intros j Hj; apply findById_deleteById_other; auto |].
  split; [reflexivity |].
  split.
  - unfold applyForJob. run_handlers. rewrite Hgone. reflexivity.
  - unfold getJobById. run_handlers. rewrite Hgone. reflexivity.
Qed.

Lemma deleteJob_cascades_to_applications_witness :
  NoDup (Job._id <$> jobs Fixture2.applied_world) /\
  findById Job._id 20 (jobs Fixture2.applied_world)
  = Some (Job.set_applicants_views [2] 1%Z Fixture.open_job) /\
  length (applications Fixture2.applied_world) = 1 /\
  exists w',
    deleteJob Fixture.as_carol 20 Fixture2.applied_world
    = (Resolved (mkResponse 200 true (Some (Literal "Job deleted successfully")) None),
       w') /\
    applications w' = [] /\
    applyForJob Fixture.env Fixture.as_bob 20 None w'
    = (Resolved (failure 404 "Job not found"), w').
Proof.
  assert (H1 : NoDup (Job._id <$> jobs Fixture2.applied_world)).
  { apply (bool_decide_unpack _). vm_compute. exact I. }
  assert (H2 : findById Job._id 20 (jobs Fixture2.applied_world)
               = Some (Job.set_applicants_views [2] 1%Z Fixture.open_job))
    by reflexivity.
  split; [exact H1 |]. split; [exact H2 |]. split; [reflexivity |].
  destruct (deleteJob_cascades_to_applications Fixture.env Fixture.as_carol
              Fixture.as_bob 20 None Fixture2.applied_world _ H1 H2
              (or_intror eq_refl))
    as (w' & Hrun & _ & Happs & _ & _ & _ & Happly & _).
  exists w'. split; [exact Hrun |]. split; [| exact Happly].
  rewrite Happs. reflexivity.
Defined.

(** ** The admin gate *)

(** X10: behind [isAdmin], posting a job gives a student no right over
    it: on the route a student gets 403 "Access denied" and nothing is
    written, also for a job the student is recorded as the poster of,
    while the handler alone would let the poster delete it.  For an admin
    the route is the handler, whose own 403 is then never the answer. *)
Theorem route_deleteJob_admin_only (caller : Caller) (id : ObjectId) (w : World) :
  (caller_role caller = student ->
   route_deleteJob caller id w
   = (Resolved (failure 403 "Access denied. Admin privileges required."), w))
  /\
  (forall job,
     caller_role caller = student ->
     findById Job._id id (jobs w) = Some job ->
     Job.postedBy job = caller_id caller ->
     exists w',
       deleteJob caller id w
       = (Resolved (mkResponse 200 true (Some (Literal "Job deleted successfully")) None),
          w'))
  /\
  (caller_role caller = admin ->
   route_deleteJob caller id w = deleteJob caller id w /\
   forall r w', deleteJob caller id w = (Resolved r, w') -> statusCode r <> 403).
Proof.
  split; [| split].
  - intros Hrole. unfold route_deleteJob, isAdmin, is_admin. rewrite Hrole.
    reflexivity.
  - intros job _ Hfind Hposter. eexists.
    apply (deleteJob_done caller id w job Hfind). left. exact Hposter.
  - intros Hrole. split.
    + unfold route_deleteJob, isAdmin, is_admin. rewrite Hrole. reflexivity.
    + intros r w'. unfold deleteJob. run_handlers.
      destruct (findById Job._id id (jobs w)) as [job |].
      * assert (Hauth : not_poster_nor_admin job caller = false)
          by (apply not_poster_nor_admin_false; right; exact Hrole).
        rewrite Hauth. intros [= <- _]. simpl. lia.
      * intros [= <- _]. simpl. lia.
Qed.

Lemma route_deleteJob_admin_only_witness :
  let w := set_jobs [Fixture.job 30 1000%Z active] Fixture.world in
  let w_posted_by_bob :=
    set_jobs [Job.mk 30 "Backend developer" "Acme" "logo.png"
                "Build and run the services of the platform." Job_ "Pune" OnSite
                (Job.Build_Salary None None "INR") (Job.Build_Stipend None "INR" None)
                None [] (Job.Build_Eligibility [] None []) 1000%Z
                "https://acme.example/apply" 2 active [] 0%Z false 20%Z]
      Fixture.world in
  caller_role Fixture.as_bob = student /\
  route_deleteJob Fixture.as_bob 30 w_posted_by_bob
  = (Resolved (failure 403 "Access denied. Admin privileges required."),
     w_posted_by_bob) /\
  (exists w',
     deleteJob Fixture.as_bob 30 w_posted_by_bob
     = (Resolved (mkResponse 200 true (Some (Literal "Job deleted successfully")) None),
        w')) /\
  caller_role Fixture.as_carol = admin /\
  route_deleteJob Fixture.as_carol 30 w = deleteJob Fixture.as_carol 30 w.
Proof.
  intros w wb.
  pose proof (route_deleteJob_admin_only Fixture.as_bob 30 wb) as (Hgate & Hbare & _).
  pose proof (route_deleteJob_admin_only Fixture.as_carol 30 w) as (_ & _ & Hadmin).
  split; [reflexivity |]. split; [exact (Hgate eq_refl) |].
  split; [exact (Hbare _ eq_refl eq_refl eq_refl) |].
  split; [reflexivity |]. exact (proj1 (Hadmin eq_refl)).
Defined.

(** ** Applying twice, and the applications of a caller *)

(** The world after a successful [applyForJob]. *)
Lemma applyForJob_done (env : Env) (caller : Caller) (id : ObjectId)
    (coverLetter : option string) (w : World) (job : Job.t) :
  findById Job._id id (jobs w) = Some job ->
  (now env <= Job.applicationDeadline job)%Z ->
  findOne Application.job Application.applicant id (caller_id caller)
    (applications w) = None ->
  (forall c, coverLetter = Some c -> String.length c <= 1000) ->
  applyForJob env caller id coverLetter w
  = (Resolved
       (mkResponse 201 true (Some (Literal "Application submitted successfully"))
          (Some (Application.mk (newId env) id (caller_id caller) applied
                   (Application.Build_Resume None None) coverLetter (now env) (now env)))),
     mkWorld (users w) (notes w)
       (updateById Job._id id
          (fun j => Job.set_applicants_views (push (caller_id caller) (Job.applicants j))
                      (Job.views j + 1)%Z j) (jobs w))
       (applications w
        ++ [Application.mk (newId env) id (caller_id caller) applied
              (Application.Build_Resume None None) coverLetter (now env) (now env)])
       (bookmarks w) (media w)).
Proof.
  intros Hfind Htime Hnew Hletter. apply Z.ltb_ge in Htime.
  assert (Hvalid : Application.invalid_paths
                     (Application.mk (newId env) id (caller_id caller) applied
                        (Application.Build_Resume None None) coverLetter
                        (now env) (now env)) = []).
  { unfold Application.invalid_paths. simpl.
    destruct coverLetter as [c |]; [| reflexivity].
    specialize (Hletter c eq_refl). apply Nat.leb_le in Hletter.
    rewrite Hletter. reflexivity. }
  unfold applyForJob, Application_create. run_handlers.
  rewrite Hfind, Htime, Hnew, Hvalid. run_handlers. rewrite Hnew. reflexivity.
Qed.

(** X11: applying to the same job twice fails the second time: after a
    successful application, another one by the same caller, whatever its
    cover letter and as long as the deadline has not passed, answers 400
    "already applied" and changes nothing, so the caller is recorded once
    among the applicants. *)
Theorem applyForJob_twice
    (env env' : Env) (caller : Caller) (id : ObjectId)
    (coverLetter coverLetter' : option string) (w : World) (job : Job.t) :
  findById Job._id id (jobs w) = Some job ->
  (now env <= Job.applicationDeadline job)%Z ->
  (now env' <= Job.applicationDeadline job)%Z ->
  findOne Application.job Application.applicant id (caller_id caller)
    (applications w) = None ->
  (forall c, coverLetter = Some c -> String.length c <= 1000) ->
  exists r w1 job1,
    applyForJob env caller id coverLetter w = (Resolved r, w1) /\
    statusCode r = 201 /\
    applyForJob env' caller id coverLetter' w1
    = (Resolved (failure 400 "You have already applied for this job"), w1) /\
    findById Job._id id (jobs w1) = Some job1 /\
    Job.applicants job1 = Job.applicants job ++ [caller_id caller] /\
    length (List.filter (fun a => Nat.eqb (Application.job a) id
                                  && Nat.eqb (Application.applicant a) (caller_id caller))
              (applications w1)) = 1.
Proof.
  intros Hfind Htime Htime' Hnew Hletter.
  pose proof (applyForJob_done env caller id coverLetter w job Hfind Htime Hnew Hletter)
    as Hrun.
  match type of Hrun with _ = (_, ?x) => set (w1 := x) in * end.
  destruct (findById_In _ _ _ _ Hfind) as [_ Hid].
  assert (Hjob1 : findById Job._id id (jobs w1)
                  = Some (Job.set_applicants_views
                            (push (caller_id caller) (Job.applicants job))
                            (Job.views job + 1)%Z job)).
  { exact (findById_updateById Job._id id
             (fun j => Job.set_applicants_views
                         (push (caller_id caller) (Job.applicants j))
                         (Job.views j + 1)%Z j) (jobs w) job Hfind Hid). }
  do 3 eexists. split; [exact Hrun |]. split; [reflexivity |].
  split.
  { unfold applyForJob. run_handlers. rewrite Hjob1. simpl.
    apply Z.ltb_ge in Htime'. rewrite Htime'.
    unfold w1. cbn [applications].
    erewrite findOne_app_new; [reflexivity | reflexivity | reflexivity | exact Hnew]. }
  split; [exact Hjob1 |]. split; [reflexivity |].
  unfold w1. simpl. rewrite List.filter_app, length_app. simpl.
  rewrite !Nat.eqb_refl. simpl.
  assert (Hnone : List.filter
                    (fun a => Nat.eqb (Application.job a) id
                              && Nat.eqb (Application.applicant a) (caller_id caller))
                    (applications w) = []).
  { clear -Hnew. unfold findOne in Hnew.
    induction (applications w) as [| a l IH]; simpl in *; [reflexivity |].
    unfold refs_match in Hnew at 1.
    destruct (Nat.eqb (Application.job a) id
              && Nat.eqb (Application.applicant a) (caller_id caller));
      [discriminate | auto]. }
  rewrite Hnone. reflexivity.
Qed.

Lemma applyForJob_twice_witness :
  findById Job._id 20 (jobs Fixture.world) = Some Fixture.open_job /\
  (now Fixture.env <= Job.applicationDeadline Fixture.open_job)%Z /\
  findOne Application.job Application.applicant 20 (caller_id Fixture.as_bob)
    (applications Fixture.world) = None /\
  exists r w1,
    applyForJob Fixture.env Fixture.as_bob 20 (Some "Dear Acme") Fixture.world
    = (Resolved r, w1) /\
    statusCode r = 201 /\
    applyForJob Fixture.env Fixture.as_bob 20 (Some "Dear Acme, again") w1
    = (Resolved (failure 400 "You have already applied for this job"), w1).
Proof.
  assert (H1 : findById Job._id 20 (jobs Fixture.world) = Some Fixture.open_job)
    by reflexivity.
  assert (H2 : (now Fixture.env <= Job.applicationDeadline Fixture.open_job)%Z)
    by (simpl; lia).
  assert (H3 : findOne Application.job Application.applicant 20
                 (caller_id Fixture.as_bob) (applications Fixture.world) = None)
    by reflexivity.
  assert (H4 : forall c, Some "Dear Acme" = Some c -> String.length c <= 1000)
    by (intros c [= <-]; simpl; lia).
  repeat (split; [assumption |]).
  destruct (applyForJob_twice Fixture.env Fixture.env Fixture.as_bob 20
              (Some "Dear Acme") (Some "Dear Acme, again") Fixture.world
              Fixture.open_job H1 H2 H2 H3 H4)
    as (r & w1 & job1 & Hrun & Hcode & Htwice & _).
  exists r, w1. auto.
Defined.

(** ** Toggling a user's status *)

Lemma User_save_run (u : User.t) (w : World) :
  User_save u w
  = match User_invalid_paths u with
    | [] => (Resolved u,
             set_users (updateById User._id (User._id u) (fun _ => u) (users w)) w)
    | p :: ps => (Rejected (ValidationError "User" (p :: ps)), w)
    end.
Proof. unfold User_save. destruct (User_invalid_paths u); reflexivity. Qed.

Lemma stored_isActive (u : User.t) :
  UserDoc.stored u !! "isActive" = Some (JBool (User.isActive u)).
Proof.
  unfold UserDoc.stored.
  destruct (User.branch u), (User.semester u); cbn [app opt_field];
    rewrite !list_to_map_cons;
    rewrite !lookup_insert_ne by discriminate; apply lookup_insert_eq.
Qed.

Lemma serialised_isActive (u : User.t) :
  UserDoc.toJSON (UserDoc.load SchemaDefault u) !! "isActive"
  = Some (JBool (User.isActive u)).
Proof.
  unfold UserDoc.toJSON, UserDoc.toObject, UserDoc.load, UserDoc.project.
  rewrite lookup_delete_ne by discriminate.
  rewrite lookup_foldr_delete. simpl. apply stored_isActive.
Qed.

Lemma set_isActive_twice (u : User.t) :
  User.set_isActive (negb (User.isActive (User.set_isActive (negb (User.isActive u)) u)))
    (User.set_isActive (negb (User.isActive u)) u) = u.
Proof. destruct u as [? ? ? ? ? ? ? ? b ? ? ?]. simpl. rewrite negb_involutive. reflexivity. Qed.



(** ** Deleting a user *)

Section UniqueKeys.
Context {A : Type} (key : A -> ObjectId).

Lemma NoDup_keys_filter (P : A -> bool) (l : list A) :
  NoDup (key <$> l) -> NoDup (key <$> List.filter P l).
Proof.
  induction l as [| e l IH]; simpl; [auto |].
  intros Hnd. apply NoDup_cons in Hnd as [Hnotin Hnd].
  destruct (P e); simpl; [| auto].
  apply NoDup_cons. split; [| auto].
  intros H. apply Hnotin.
  apply list_elem_of_fmap in H as (d & Hk & Hd).
  apply list_elem_of_In, List.filter_In in Hd as [Hd _].
  rewrite Hk. apply list_elem_of_fmap. exists d. split; [reflexivity |].
  apply list_elem_of_In, Hd.
Qed.

Lemma deleteById_filter (i : ObjectId) (l : list A) :
  NoDup (key <$> l) ->
  deleteById key i l = List.filter (fun d => negb (Nat.eqb (key d) i)) l.
Proof.
  induction l as [| e l IH]; simpl; [reflexivity |].
  intros Hnd. apply NoDup_cons in Hnd as [Hnotin Hnd].
  destruct (Nat.eqb_spec (key e) i) as [E | E]; simpl.
  - symmetry. apply forallb_filter_id. apply forallb_forall. intros d Hd.
    apply negb_true_iff, Nat.eqb_neq. intros Hk. apply Hnotin.
    rewrite E, <- Hk. apply list_elem_of_In, in_map, Hd.
  - rewrite IH; auto.
Qed.

Lemma same_key_same_doc (l : list A) (a b : A) :
  NoDup (key <$> l) -> In a l -> In b l -> key a = key b -> a = b.
Proof.
  induction l as [| e l IH]; simpl; [tauto |].
  intros Hnd. apply NoDup_cons in Hnd as [Hnotin Hnd].
  intros [-> | Ha] [-> | Hb] Hk; auto.
  - exfalso. apply Hnotin. rewrite Hk. apply list_elem_of_In, in_map, Hb.
  - exfalso. apply Hnotin. rewrite <- Hk. apply list_elem_of_In, in_map, Ha.
Qed.
End UniqueKeys.

Lemma filter_twice {A} (f g : A -> bool) (l : list A) :
  List.filter f (List.filter g l) = List.filter (fun x => g x && f x) l.
Proof.
  induction l as [| x l IH]; simpl; [reflexivity |].
  destruct (g x); simpl; [destruct (f x); rewrite IH; reflexivity | exact IH].
Qed.

(** The loop of [deleteUser] when the media store accepts every deletion:
    the notes it goes through are gone, with their files. *)
Lemma deleteUser_loop_done (env : Env) (l : list Note.t) :
  Forall (fun n => destroy_error env (Note.cloudinaryPublicId n) = None) l ->
  forall w,
    NoDup (Note._id <$> notes w) ->
    exists w',
      for_of l (delete_note_and_file env) w = (Resolved tt, w') /\
      notes w'
      = List.filter (fun m => negb (existsb (fun n => Nat.eqb (Note._id m) (Note._id n)) l))
          (notes w) /\
      media w'
      = List.filter
          (fun f => negb (existsb (fun n => same_file (Note.cloudinaryPublicId n)
                                              (resource_type_of (Note.fileType n)) f) l))
          (media w) /\
      (users w', jobs w', applications w', bookmarks w')
      = (users w, jobs w, applications w, bookmarks w).
Proof.
  intros Hok. induction Hok as [| d l Hd Hok IH]; intros w Hnd.
  - exists w. simpl. split; [reflexivity |].
    split; [symmetry; apply forallb_filter_id, forallb_forall; reflexivity |].
    split; [symmetry; apply forallb_filter_id, forallb_forall; reflexivity |].
    reflexivity.
  - simpl. unfold delete_note_and_file at 1, cloudinary_destroy.
    rewrite Hd. run_handlers.
    match goal with |- context [for_of _ _ ?x] => set (w1 := x) end.
    assert (Hnotes1 : notes w1
                      = List.filter (fun m => negb (Nat.eqb (Note._id m) (Note._id d)))
                          (notes w))
      by (apply deleteById_filter, Hnd).
    destruct (IH w1) as (w' & Hrun & Hnotes & Hmedia & Hrest).
    { rewrite Hnotes1. apply NoDup_keys_filter, Hnd. }
    exists w'. rewrite Hrun. split; [reflexivity |].
    split.
    { rewrite Hnotes, Hnotes1. rewrite filter_twice. apply List.filter_ext.
      intros m. simpl. rewrite negb_orb. reflexivity. }
    split.
    { rewrite Hmedia. unfold w1. simpl. rewrite filter_twice.
      apply List.filter_ext. intros f. rewrite negb_orb. reflexivity. }
    exact Hrest.
Qed.

(** X13: [deleteUser] of a student whose files the media store lets go
    answers 200 and removes the user's row, every note the user uploaded
    and the files of these notes, and nothing else: the notes of other
    users, the jobs, and all bookmarks and applications stay, those of
    the deleted user and those on the deleted notes included.  An admin
    account is never deleted: the answer is 400 and nothing is
    written. *)
Theorem deleteUser_removes_user_and_notes (env : Env) (id : ObjectId) (w : World) :
  (forall user,
     findById User._id id (users w) = Some user ->
     User.role user = admin ->
     deleteUser env id w = (Resolved (failure 400 "Cannot delete admin users"), w))
  /\
  (forall user,
     NoDup (Note._id <$> notes w) ->
     findById User._id id (users w) = Some user ->
     User.role user = student ->
     (forall n, In n (notes w) -> Note.uploadedBy n = id ->
                destroy_error env (Note.cloudinaryPublicId n) = None) ->
     exists w',
       deleteUser env id w
       = (Resolved (mkResponse 200 true
                      (Some (Literal "User and associated notes deleted successfully"))
                      None), w') /\
       users w' = deleteById User._id id (users w) /\
       notes w' = List.filter (fun n => negb (Nat.eqb (Note.uploadedBy n) id)) (notes w) /\
       (forall n, In n (notes w) -> Note.uploadedBy n = id ->
                  ~ In (Note.cloudinaryPublicId n, resource_type_of (Note.fileType n))
                      (media w')) /\
       (forall f, In f (media w') -> In f (media w)) /\
       (jobs w', applications w', bookmarks w')
       = (jobs w, applications w, bookmarks w)).
Proof.
  split.
  - intros user Hfind Hrole. unfold deleteUser. run_handlers.
    rewrite Hfind, Hrole. reflexivity.
  - intros user Hnd Hfind Hrole Hok.
    destruct (findById_In _ _ _ _ Hfind) as [_ Hid].
    set (owned := List.filter (fun n => Nat.eqb (Note.uploadedBy n) (User._id user))
                    (notes w)).
    assert (Hall : Forall (fun n => destroy_error env (Note.cloudinaryPublicId n) = None)
                     owned).
    { apply List.Forall_forall. intros n Hn.
      apply List.filter_In in Hn as [Hin Ho]. apply Nat.eqb_eq in Ho.
      apply Hok; [exact Hin | congruence]. }
    destruct (deleteUser_loop_done env owned Hall w Hnd)
      as (w1 & Hrun & Hnotes & Hmedia & Hrest).
    injection Hrest as Hu Hj Ha Hb.
    eexists. split.
    { unfold deleteUser. run_handlers. rewrite Hfind, Hrole. fold owned.
      rewrite Hrun. reflexivity. }
    simpl. split; [rewrite Hu; reflexivity |].
    split.
    { rewrite Hnotes. apply filter_ext_in. intros m Hm. f_equal.
      destruct (Nat.eqb_spec (Note.uploadedBy m) id) as [E | E].
      - apply existsb_exists. exists m. split; [| apply Nat.eqb_refl].
        apply List.filter_In. split; [exact Hm | apply Nat.eqb_eq; congruence].
      - apply not_true_is_false. intros H. apply existsb_exists in H as (n & Hn & Hk).
        apply List.filter_In in Hn as [Hn Ho]. apply Nat.eqb_eq in Ho, Hk.
        assert (m = n) by (eapply (same_key_same_doc Note._id); eauto).
        subst n. congruence. }
    split.
    { intros n Hn Ho. rewrite Hmedia. intros Hf.
      apply List.filter_In in Hf as [_ Hf]. apply negb_true_iff in Hf.
      apply not_true_iff_false in Hf. apply Hf. apply existsb_exists.
      exists n. split; [| apply same_file_refl].
      apply List.filter_In. split; [exact Hn | apply Nat.eqb_eq; congruence]. }
    split.
    { intros f Hf. rewrite Hmedia in Hf. apply List.filter_In in Hf as [Hf _].
      exact Hf. }
    rewrite Hj, Ha, Hb. reflexivity.
Qed.

Lemma deleteUser_removes_user_and_notes_witness :
  NoDup (Note._id <$> notes Fixture.bookmarked) /\
  findById User._id 1 (users Fixture.bookmarked) = Some Fixture.alice /\
  User.role Fixture.alice = student /\
  length (bookmarks Fixture.bookmarked) = 1 /\
  exists w',
    deleteUser Fixture.env 1 Fixture.bookmarked
    = (Resolved (mkResponse 200 true
                   (Some (Literal "User and associated notes deleted successfully"))
                   None), w') /\
    User._id <$> users w' = [2; 3] /\
    notes w' = [] /\
    media w' = [] /\
    bookmarks w' = bookmarks Fixture.bookmarked.
Proof.
  assert (H1 : NoDup (Note._id <$> notes Fixture.bookmarked)).
  { apply (bool_decide_unpack _). vm_compute. exact I. }
  assert (H2 : findById User._id 1 (users Fixture.bookmarked) = Some Fixture.alice)
    by reflexivity.
  split; [exact H1 |]. split; [exact H2 |]. split; [reflexivity |].
  split; [reflexivity |].
  destruct (proj2 (deleteUser_removes_user_and_notes Fixture.env 1 Fixture.bookmarked)
              Fixture.alice H1 H2 eq_refl (fun _ _ _ => eq_refl))
    as (w' & Hrun & Hu & Hn & _ & _ & Hrest).
  exists w'. split; [exact Hrun |].
  split; [rewrite Hu; reflexivity |].
  split; [rewrite Hn; reflexivity |].
  split.
  - vm_compute in Hrun. injection Hrun as <-. reflexivity.
  - injection Hrest as _ _ Hb. exact Hb.
Defined.

(** ** Dashboard aggregates *)

Lemma sum_list_fmap {A} (f : A -> nat) (l : list A) :
  sum_list (f <$> l) = sum_list_with f l.
Proof.
  induction l as [| x l IH]; simpl; [reflexivity |].
  unfold Datatypes.id at 1. f_equal. exact IH.
Qed.

Lemma sum_list_with_add {A} (f g : A -> nat) (l : list A) :
  sum_list_with (fun x => f x + g x) l = sum_list_with f l + sum_list_with g l.
Proof. induction l as [| x l IH]; simpl; [reflexivity | rewrite IH; lia]. Qed.

Lemma sum_list_with_pointwise {A} (f g : A -> nat) (l : list A) :
  (forall x, f x = g x) -> sum_list_with f l = sum_list_with g l.
Proof.
  intros H. induction l as [| x l IH]; simpl; [reflexivity |].
  rewrite H, IH. reflexivity.
Qed.

Lemma sum_list_with_indicator {K} `{EqDecision K} (k : K) (ks : list K) :
  NoDup ks -> k ∈ ks ->
  sum_list_with (fun k' => if bool_decide (k = k') then 1 else 0) ks = 1.
Proof.
  induction ks as [| k' ks IH]; intros Hnd Hin.
  - apply elem_of_nil in Hin. contradiction.
  - apply NoDup_cons in Hnd as [Hnotin Hnd]. simpl.
    destruct (bool_decide_reflect (k = k')) as [<- | Hne].
    + assert (Hzero : forall l, k ∉ l ->
                sum_list_with (fun k' => if bool_decide (k = k') then 1 else 0) l = 0).
      { clear. induction l as [| x l IHl]; intros Hx; simpl; [reflexivity |].
        apply not_elem_of_cons in Hx as [Hx Hl].
        rewrite bool_decide_eq_false_2 by exact Hx. rewrite IHl; auto. }
      rewrite Hzero by exact Hnotin. reflexivity.
    + apply elem_of_cons in Hin as [Hin | Hin]; [contradiction |].
      rewrite IH; auto.
Qed.

(** The groups of a [$group] partition the collection. *)
Lemma group_count_partition {D K} `{EqDecision K} (key : D -> K) (l : list D)
    (ks : list K) :
  NoDup ks -> (forall d, In d l -> key d ∈ ks) ->
  sum_list_with (fun k => length (List.filter (fun d => bool_decide (key d = k)) l)) ks
  = length l.
Proof.
  intros Hnd. induction l as [| d l IH]; intros Hks.
  - simpl. clear. induction ks as [| k ks IHk]; simpl; [reflexivity | exact IHk].
  - rewrite (sum_list_with_pointwise _
               (fun k => (if bool_decide (key d = k) then 1 else 0)
                         + length (List.filter (fun d0 => bool_decide (key d0 = k)) l))).
    + rewrite sum_list_with_add, IH by (intros d' Hd'; apply Hks; right; exact Hd').
      rewrite sum_list_with_indicator; [reflexivity | exact Hnd |].
      apply Hks. left. reflexivity.
    + intros k. simpl. destruct (bool_decide (key d = k)); reflexivity.
Qed.

Lemma group_count_total {D K} `{EqDecision K} (key : D -> K) (l : list D) :
  sum_list (snd <$> group_count key l) = length l.
Proof.
  unfold group_count. rewrite <- list_fmap_compose, sum_list_fmap. simpl.
  apply group_count_partition.
  - apply NoDup_remove_dups.
  - intros d Hd. apply elem_of_remove_dups, list_elem_of_fmap.
    exists d. split; [reflexivity | apply list_elem_of_In, Hd].
Qed.

Lemma group_sum_total {D} (f : D -> Z) (l : list D) :
  js_or (head (group_sum f l)) 0%Z = foldr (fun d acc => (f d + acc)%Z) 0%Z l.
Proof.
  destruct l as [| d l]; [reflexivity |].
  unfold group_sum, js_or. cbn [head].
  unfold truthy, truthy_Z.
  destruct (Z.eqb_spec (foldr (fun d0 acc => (f d0 + acc)%Z) 0%Z (d :: l)) 0) as [E | E];
    simpl; [symmetry; exact E | reflexivity].
Qed.

(** X14: in the dashboard statistics the counts by branch add up to
    [totalNotes], and so do the counts by semester; no branch and no
    semester is reported twice; [totalDownloads] and [totalViews] are the
    sums of the notes' counters (0 for an empty collection); at most five
    contributors and five recent notes are reported, each contributor
    being a stored user with the number of stored notes uploaded by that
    user, and each recent note a stored note. *)
Theorem getDashboardStats_aggregates
    (dbsort : forall D : Type, (D -> json) -> bool -> list D -> list D)
    (dbsort_perm : forall (D : Type) (path : D -> json) (desc : bool) (l : list D),
        Permutation (dbsort D path desc l) l)
    (w : World) :
  exists stats,
    getDashboardStats dbsort w
    = (Resolved (mkResponse 200 true None (Some stats)), w) /\
    sum_list (snd <$> notesByBranch stats) = totalNotes (overview stats) /\
    sum_list (snd <$> notesBySemester stats) = totalNotes (overview stats) /\
    NoDup (fst <$> notesByBranch stats) /\
    NoDup (fst <$> notesBySemester stats) /\
    totalDownloads (overview stats)
    = foldr (fun n acc => (Note.downloads n + acc)%Z) 0%Z (notes w) /\
    totalViews (overview stats)
    = foldr (fun n acc => (Note.views n + acc)%Z) 0%Z (notes w) /\
    length (topContributors stats) <= 5 /\
    (forall c, In c (topContributors stats) ->
       exists u, In u (users w) /\ c_id c = User._id u /\ c_name c = User.name u /\
                 notesCount c
                 = length (List.filter
                             (fun n => Nat.eqb (Note.uploadedBy n) (User._id u))
                             (notes w))) /\
    length (recentNotes stats) <= 5 /\
    (forall p, In p (recentNotes stats) -> In (doc p) (notes w)).
Proof.
  eexists. split; [unfold getDashboardStats; run_handlers; reflexivity |].
  cbn [notesByBranch notesBySemester overview totalNotes totalDownloads totalViews
       topContributors recentNotes].
  split; [rewrite dbsort_perm; apply group_count_total |].
  split; [rewrite dbsort_perm; apply group_count_total |].
  split.
  { rewrite dbsort_perm. unfold group_count. rewrite <- list_fmap_compose. simpl.
    rewrite (list_fmap_ext _ Datatypes.id) by reflexivity.
    rewrite list_fmap_id. apply NoDup_remove_dups. }
  split.
  { rewrite dbsort_perm. unfold group_count. rewrite <- list_fmap_compose. simpl.
    rewrite (list_fmap_ext _ Datatypes.id) by reflexivity.
    rewrite list_fmap_id. apply NoDup_remove_dups. }
  split; [apply group_sum_total |].
  split; [apply group_sum_total |].
  split; [rewrite length_take; lia |].
  split.
  { intros c Hc. apply list_elem_of_In, subseteq_take, list_elem_of_In in Hc.
    apply (Permutation_in _ (dbsort_perm _ _ _ _)) in Hc.
    apply list_elem_of_In, list_elem_of_fmap in Hc as (u & -> & Hu).
    exists u. split; [apply list_elem_of_In, Hu |]. auto. }
  split; [rewrite length_fmap, length_take; lia |].
  intros p Hp. apply list_elem_of_In, list_elem_of_fmap in Hp as (n & -> & Hn).
  apply subseteq_take, list_elem_of_In in Hn.
  apply (Permutation_in _ (dbsort_perm _ _ _ _)) in Hn. exact Hn.
Qed.

Lemma getDashboardStats_aggregates_witness :
  (forall (D : Type) (path : D -> json) (desc : bool) (l : list D),
     Permutation (Engine.dbsort D path desc l) l) /\
  exists stats,
    getDashboardStats Engine.dbsort Fixture.world
    = (Resolved (mkResponse 200 true None (Some stats)), Fixture.world) /\
    notesByBranch stats = [("CSE", 2)] /\
    notesBySemester stats = [(3%Z, 1); (4%Z, 1)] /\
    totalNotes (overview stats) = 2 /\
    notesCount <$> topContributors stats = [2; 0; 0].
Proof.
  split; [exact Engine_dbsort_perm |].
  destruct (getDashboardStats_aggregates Engine.dbsort Engine_dbsort_perm Fixture.world)
    as (stats & Hrun & _).
  exists stats. split; [exact Hrun |].
  vm_compute in Hrun. injection Hrun as <-. repeat split.
Defined.

(** ** The admin listing of notes *)

Section AdminListingFacts.
Variable castNumber : string -> option Z.
Variable dbsort : forall D : Type, (D -> json) -> bool -> list D -> list D.
Hypothesis dbsort_perm :
  forall (D : Type) (path : D -> json) (desc : bool) (l : list D),
    Permutation (dbsort D path desc l) l.

(** [getAllNotes] answers without writing: a 500 for a semester the cast
    refuses, or the page of the notes matching the query it builds. *)
Lemma getAllNotes_run (q : AdminNotesQuery) (w : World) :
  (exists s,
     when_truthy (an_semester q) = Some s /\ castNumber s = None /\
     getAllNotes castNumber dbsort q w
     = (Resolved (mkResponse 500 false (Some (ErrorMessage (CastError s))) None), w))
  \/
  (exists semester,
     let query := mkAdminNoteFilter (when_truthy (an_status q))
                    (when_truthy (an_branch q)) (when_truthy (an_semester q)) in
     let limit := Pos.to_nat (default 20%positive (an_limit q)) in
     let page := Pos.to_nat (default 1%positive (an_page q)) in
     let matching := List.filter (AdminNote_matches query semester) (notes w) in
     semester = when_truthy (an_semester q) ≫= castNumber /\
     getAllNotes castNumber dbsort q w
     = (Resolved
          (mkResponse 200 true None
             (Some (mkAdminPage
                      (populate_user Note.uploadedBy ["name"; "email"; "branch"]
                         (users w) <$>
                         window dbsort (fun n => JNum (Note.createdAt n)) true
                           limit ((page - 1) * limit) matching)
                      (mkAdminPagination (length matching) page
                         (ceil_div (length matching) limit))))), w)).
Proof.
  remember (getAllNotes castNumber dbsort q w) as res eqn:Hrun.
  unfold getAllNotes, try_catch in Hrun.
  cbv beta zeta iota delta [bind af_semester] in Hrun.
  rewrite (cast_condition_run castNumber) in Hrun.
  destruct (when_truthy (an_semester q)) as [s |] eqn:Hs;
    [destruct (castNumber s) as [z |] eqn:Hc; [| left; exists s; auto] |];
    cbv beta iota delta [gets] in Hrun;
    rewrite (cast_condition_run castNumber) in Hrun; rewrite ?Hc in Hrun;
    cbv beta iota delta [ret] in Hrun;
    right; eexists; cbv zeta; (split; [| exact Hrun]);
    simpl; rewrite ?Hc; reflexivity.
Qed.

(** X15: [getAllNotes] always answers and writes nothing; what it lists
    are stored notes, of the requested status if the request names one;
    without filters its total is the number of all stored notes, while
    the public listing's total for the same world counts the approved
    ones only. *)
Theorem getAllNotes_lists_every_status
    (RegExp_i : string -> option (string -> bool))
    (q : AdminNotesQuery) (w : World) :
  exists r,
    getAllNotes castNumber dbsort q w = (Resolved r, w) /\
    (forall pg p,
       data r = Some pg -> In p (a_items pg) ->
       In (doc p) (notes w) /\
       (forall s, when_truthy (an_status q) = Some s ->
                  NoteStatus_str (Note.status (doc p)) = s)) /\
    (an_status q = None -> an_branch q = None -> an_semester q = None ->
     exists pg pub,
       r = mkResponse 200 true None (Some pg) /\
       a_total (a_pagination pg) = length (notes w) /\
       getNotes RegExp_i castNumber dbsort (mkNotesQuery None None None None None None None None) w
       = (Resolved (mkResponse 200 true None (Some pub)), w) /\
       a_total (a_pagination pg)
       = total (pagination pub)
         + length (List.filter (fun n => bool_decide (Note.status n <> approved))
                     (notes w))).
Proof.
  destruct (getAllNotes_run q w)
    as [(s & Hs & Hc & Hrun) | (semester & Hsem & Hrun)].
  - eexists. split; [exact Hrun |].
    split; [intros pg p Hdata; discriminate Hdata |].
    intros _ _ Hq. rewrite Hq in Hs. discriminate.
  - cbv zeta in *. eexists. split; [exact Hrun |]. split.
    + intros pg p Hdata Hp. simpl in Hdata. injection Hdata as <-. simpl in Hp.
      apply list_elem_of_In, list_elem_of_fmap in Hp as (n & -> & Hn).
      apply list_elem_of_In, (In_window dbsort dbsort_perm), List.filter_In in Hn
        as [Hin Hm].
      split; [exact Hin |]. intros s Hs. simpl.
      unfold AdminNote_matches in Hm. simpl in Hm. rewrite Hs in Hm. simpl in Hm.
      rewrite !andb_true_iff in Hm. destruct Hm as [[Hst _] _].
      apply String.eqb_eq in Hst. exact Hst.
    + intros Hst Hbr Hse.
      destruct (getNotes_unfiltered RegExp_i castNumber dbsort (mkNotesQuery None None None None None None None None) w
                  eq_refl eq_refl eq_refl eq_refl) as (pub & Hpub & Htotal).
      eexists _, pub. split; [reflexivity |]. simpl.
      assert (Hall : List.filter
                       (AdminNote_matches
                          (mkAdminNoteFilter (when_truthy (an_status q))
                             (when_truthy (an_branch q)) (when_truthy (an_semester q)))
                          semester) (notes w) = notes w).
      { apply forallb_filter_id, forallb_forall. intros n _.
        unfold AdminNote_matches. simpl. rewrite Hsem, Hst, Hbr, Hse. reflexivity. }
      rewrite Hall. split; [reflexivity |]. split; [exact Hpub |].
      rewrite Htotal. clear.
      induction (notes w) as [| n l IH]; simpl; [reflexivity |].
      destruct (Note.status n); simpl; lia.
Qed.
End AdminListingFacts.

Lemma getAllNotes_lists_every_status_witness :
  (forall (D : Type) (path : D -> json) (desc : bool) (l : list D),
     Permutation (Engine.dbsort D path desc l) l) /\
  exists pg pub,
    getAllNotes Engine.castNumber Engine.dbsort
      (mkAdminNotesQuery None None None None None) Fixture.world
    = (Resolved (mkResponse 200 true None (Some pg)), Fixture.world) /\
    a_total (a_pagination pg) = 2 /\
    getNotes Engine.RegExp_i Engine.castNumber Engine.dbsort Fixture.all_notes
      Fixture.world
    = (Resolved (mkResponse 200 true None (Some pub)), Fixture.world) /\
    total (pagination pub) = 1.
Proof.
  split; [exact Engine_dbsort_perm |].
  destruct (getAllNotes_lists_every_status Engine.castNumber Engine.dbsort
              Engine_dbsort_perm Engine.RegExp_i
              (mkAdminNotesQuery None None None None None) Fixture.world)
    as (r & Hrun & _ & Hall).
  destruct (Hall eq_refl eq_refl eq_refl) as (pg & pub & -> & Htotal & Hpub & Hsum).
  exists pg, pub. split; [exact Hrun |]. split; [exact Htotal |].
  split; [exact Hpub |].
  rewrite Htotal in Hsum. simpl in Hsum. lia.
Defined.

(** ** Bookmarks on a note that is gone *)

Section UniquePairs.
Context {A : Type} (fst_ref snd_ref : A -> ObjectId).

Lemma findOne_deleteOne_unique (x y : ObjectId) (l : list A) :
  NoDup ((fun d => (fst_ref d, snd_ref d)) <$> l) ->
  findOne fst_ref snd_ref x y (deleteOne fst_ref snd_ref x y l) = None.
Proof.
  unfold findOne. induction l as [| e l IH]; simpl; [reflexivity |].
  intros Hnd. apply NoDup_cons in Hnd as [Hnotin Hnd].
  destruct (refs_match fst_ref snd_ref x y e) eqn:E.
  - destruct (List.find (refs_match fst_ref snd_ref x y) l) as [d |] eqn:F;
      [| reflexivity].
    apply List.find_some in F as [Hin Hd]. exfalso. apply Hnotin.
    unfold refs_match in E, Hd. apply andb_true_iff in E as [E1 E2], Hd as [D1 D2].
    apply Nat.eqb_eq in E1, E2, D1, D2.
    apply list_elem_of_fmap. exists d. split; [congruence | apply list_elem_of_In, Hin].
  - simpl. rewrite E. auto.
Qed.

Lemma deleteOne_length (x y : ObjectId) (l : list A) (d : A) :
  findOne fst_ref snd_ref x y l = Some d ->
  S (length (deleteOne fst_ref snd_ref x y l)) = length l.
Proof.
  unfold findOne. induction l as [| e l IH]; simpl; [discriminate |].
  destruct (refs_match fst_ref snd_ref x y e); [reflexivity |].
  intros H. simpl. rewrite IH; auto.
Qed.
End UniquePairs.

(** X16: a bookmark whose note no longer exists can be removed but not
    made again: [addBookmark] answers 404, while [removeBookmark] answers
    200, deletes the bookmark row, takes the note out of the caller's
    [bookmarks] and leaves the notes as they are; with one row per (user,
    note) pair, [checkBookmark] then answers false. *)
Theorem dangling_bookmark_removal
    (env : Env) (caller : Caller) (noteId : ObjectId) (w : World) (b : Bookmark.t) :
  NoDup ((fun b => (Bookmark.user b, Bookmark.note b)) <$> bookmarks w) ->
  findById Note._id noteId (notes w) = None ->
  findOne Bookmark.user Bookmark.note (caller_id caller) noteId (bookmarks w) = Some b ->
  addBookmark env caller noteId w = (Resolved (failure 404 "Note not found"), w) /\
  checkBookmark caller noteId w = (Resolved (mkResponse 200 true None (Some true)), w) /\
  exists w',
    removeBookmark caller noteId w
    = (Resolved (mkResponse 200 true (Some (Literal "Bookmark removed successfully"))
                   None), w') /\
    S (length (bookmarks w')) = length (bookmarks w) /\
    notes w' = notes w /\
    (forall u, findById User._id (caller_id caller) (users w') = Some u ->
               ~ In noteId (User.bookmarks u)) /\
    checkBookmark caller noteId w'
    = (Resolved (mkResponse 200 true None (Some false)), w') /\
    addBookmark env caller noteId w' = (Resolved (failure 404 "Note not found"), w').
Proof.
  intros Hnd Hgone Hb.
  split; [unfold addBookmark; run_handlers; rewrite Hgone; reflexivity |].
  split; [rewrite checkBookmark_run, Hb; reflexivity |].
  pose proof (removeBookmark_existing caller noteId w b Hb) as Hrun.
  match type of Hrun with _ = (_, ?x) => set (w' := x) in * end.
  assert (Hnotes : notes w' = notes w).
  { unfold w'. simpl. apply updateById_absent, Hgone. }
  exists w'. split; [exact Hrun |].
  split; [unfold w'; simpl; eapply deleteOne_length; exact Hb |].
  split; [exact Hnotes |].
  split.
  { intros u Hu. unfold w' in Hu. simpl in Hu.
    apply findById_updateById_inv in Hu as (u0 & _ & ->); [| reflexivity].
    simpl. apply pull_not_In. }
  split.
  { rewrite checkBookmark_run. unfold w'. simpl.
    rewrite findOne_deleteOne_unique by exact Hnd. reflexivity. }
  unfold addBookmark. run_handlers. rewrite Hnotes, Hgone. reflexivity.
Qed.

Lemma dangling_bookmark_removal_witness :
  let w := snd (deleteNote Fixture.env Fixture.as_alice 10 Fixture.bookmarked) in
  NoDup ((fun b => (Bookmark.user b, Bookmark.note b)) <$> bookmarks w) /\
  findById Note._id 10 (notes w) = None /\
  findOne Bookmark.user Bookmark.note (caller_id Fixture.as_bob) 10 (bookmarks w)
  = Some (Bookmark.mk 100 2 10 500%Z) /\
  addBookmark Fixture.env Fixture.as_bob 10 w
  = (Resolved (failure 404 "Note not found"), w) /\
  exists w',
    removeBookmark Fixture.as_bob 10 w
    = (Resolved (mkResponse 200 true (Some (Literal "Bookmark removed successfully"))
                   None), w') /\
    bookmarks w' = [] /\
    checkBookmark Fixture.as_bob 10 w'
    = (Resolved (mkResponse 200 true None (Some false)), w').
Proof.
  intros w.
  assert (H1 : NoDup ((fun b => (Bookmark.user b, Bookmark.note b)) <$> bookmarks w)).
  { apply (bool_decide_unpack _). vm_compute. exact I. }
  assert (H2 : findById Note._id 10 (notes w) = None) by reflexivity.
  assert (H3 : findOne Bookmark.user Bookmark.note (caller_id Fixture.as_bob) 10
                 (bookmarks w) = Some (Bookmark.mk 100 2 10 500%Z)) by reflexivity.
  repeat (split; [assumption |]).
  destruct (dangling_bookmark_removal Fixture.env Fixture.as_bob 10 w _ H1 H2 H3)
    as (Hadd & _ & w' & Hrun & Hlen & _ & _ & Hchk & _).
  split; [exact Hadd |].
  exists w'. split; [exact Hrun |]. split; [| exact Hchk].
  destruct (bookmarks w') as [| x l]; [reflexivity |].
  simpl in Hlen. vm_compute in Hlen. discriminate Hlen.
Defined.

(** ** Listing applications *)

Section ApplicationListingFacts.
Variable dbsort : forall D : Type, (D -> json) -> bool -> list D -> list D.
Hypothesis dbsort_perm :
  forall (D : Type) (path : D -> json) (desc : bool) (l : list D),
    Permutation (dbsort D path desc l) l.

Lemma fmap_projection_perm {D E} (f : D -> E) (g : E -> D) (l l' : list D) :
  (forall d, g (f d) = d) -> Permutation l l' -> Permutation (g <$> (f <$> l)) l'.
Proof.
  intros Hgf Hperm.
  assert (Hid : g <$> (f <$> l) = l).
  { clear Hperm. induction l as [| d l IH]; simpl; [reflexivity |].
    rewrite Hgf. f_equal. exact IH. }
  rewrite Hid. exact Hperm.
Qed.

(** X17: [getMyApplications] always answers 200 with exactly the caller's
    applications, each once, the job of each being the stored job or null
    when the job is gone; [getJobApplications] always answers 200 with
    exactly the applications for the job, each once and each applicant
    without password, without checking that the job exists: for a job
    nobody applied to, stored or not, the list is empty. *)
Theorem applications_listings (caller : Caller) (id : ObjectId) (w : World) :
  exists mine theirs,
    getMyApplications dbsort caller w
    = (Resolved (mkResponse 200 true None (Some mine)), w) /\
    Permutation (application <$> mine)
      (List.filter (fun a => Nat.eqb (Application.applicant a) (caller_id caller))
         (applications w)) /\
    (forall x, In x mine ->
               doc <$> applied_job x
               = findById Job._id (Application.job (application x)) (jobs w)) /\
    getJobApplications dbsort id w
    = (Resolved (mkResponse 200 true None (Some theirs)), w) /\
    Permutation (doc <$> theirs)
      (List.filter (fun a => Nat.eqb (Application.job a) id) (applications w)) /\
    (forall p o, In p theirs -> populated p = Some o -> o !! "password" = None) /\
    ((forall a, In a (applications w) -> Application.job a <> id) -> theirs = []).
Proof.
  do 2 eexists.
  split; [unfold getMyApplications; run_handlers; reflexivity |].
  split; [apply fmap_projection_perm; [reflexivity | apply dbsort_perm] |].
  split.
  { intros x Hx. apply list_elem_of_In, list_elem_of_fmap in Hx as (a & -> & _).
    simpl. destruct (findById Job._id (Application.job a) (jobs w)); reflexivity. }
  split; [unfold getJobApplications; run_handlers; reflexivity |].
  split; [apply fmap_projection_perm; [reflexivity | apply dbsort_perm] |].
  split; [intros p o Hp Ho; eapply In_populated_no_password; eauto |].
  intros Hnone.
  assert (Hempty : List.filter (fun a => Nat.eqb (Application.job a) id)
                     (applications w) = []).
  { clear -Hnone. induction (applications w) as [| a l IH]; simpl; [reflexivity |].
    destruct (Nat.eqb_spec (Application.job a) id) as [E | _].
    - exfalso. apply (Hnone a); [left; reflexivity | exact E].
    - apply IH. intros a' Ha'. apply Hnone. right. exact Ha'. }
  rewrite Hempty.
  rewrite (Permutation_nil (Permutation_sym (dbsort_perm _ _ _ []))). reflexivity.
Qed.

(** X18: an application is visible to both sides at once: after a
    successful [applyForJob] the applicant's [getMyApplications] lists it
    with the job populated, the applicant being among the job's
    applicants, and [getJobApplications] for the job lists it too. *)
Theorem application_is_listed_at_once
    (env : Env) (caller : Caller) (id : ObjectId) (coverLetter : option string)
    (w : World) (job : Job.t) :
  findById Job._id id (jobs w) = Some job ->
  (now env <= Job.applicationDeadline job)%Z ->
  findOne Application.job Application.applicant id (caller_id caller)
    (applications w) = None ->
  (forall c, coverLetter = Some c -> String.length c <= 1000) ->
  exists a w1 mine theirs,
    applyForJob env caller id coverLetter w
    = (Resolved (mkResponse 201 true
                   (Some (Literal "Application submitted successfully")) (Some a)), w1) /\
    getMyApplications dbsort caller w1
    = (Resolved (mkResponse 200 true None (Some mine)), w1) /\
    (exists x pj, In x mine /\ application x = a /\ applied_job x = Some pj /\
                  Job._id (doc pj) = id /\
                  In (caller_id caller) (Job.applicants (doc pj))) /\
    getJobApplications dbsort id w1
    = (Resolved (mkResponse 200 true None (Some theirs)), w1) /\
    In a (doc <$> theirs).
Proof.
  intros Hfind Htime Hnew Hletter.
  pose proof (applyForJob_done env caller id coverLetter w job Hfind Htime Hnew Hletter)
    as Hrun.
  match type of Hrun with _ = (Resolved (mkResponse _ _ _ (Some ?y)), ?x) =>
    set (a := y) in *; set (w1 := x) in * end.
  destruct (findById_In _ _ _ _ Hfind) as [_ Hid].
  assert (Hjob1 : findById Job._id id (jobs w1)
                  = Some (Job.set_applicants_views
                            (push (caller_id caller) (Job.applicants job))
                            (Job.views job + 1)%Z job)).
  { exact (findById_updateById Job._id id
             (fun j => Job.set_applicants_views
                         (push (caller_id caller) (Job.applicants j))
                         (Job.views j + 1)%Z j) (jobs w) job Hfind Hid). }
  assert (Hin : In a (applications w1)).
  { unfold w1. simpl. apply in_or_app. right. left. reflexivity. }
  exists a, w1. do 2 eexists.
  split; [exact Hrun |].
  split; [unfold getMyApplications; run_handlers; reflexivity |].
  split.
  { eexists (mkApplicationWithJob a _), _.
    split.
    { apply list_elem_of_In, list_elem_of_fmap. exists a. split; [reflexivity |].
      apply list_elem_of_In.
      apply (Permutation_in _ (Permutation_sym (dbsort_perm _ _ _ _))).
      apply List.filter_In. split; [exact Hin | apply Nat.eqb_refl]. }
    split; [reflexivity |].
    cbn [applied_job Application.job a]. rewrite Hjob1.
    split; [reflexivity |]. simpl.
    split; [exact Hid |]. apply in_or_app. right. left. reflexivity. }
  split; [unfold getJobApplications; run_handlers; reflexivity |].
  rewrite <- list_fmap_compose.
  apply list_elem_of_In, list_elem_of_fmap. exists a. split; [reflexivity |].
  apply list_elem_of_In.
  apply (Permutation_in _ (Permutation_sym (dbsort_perm _ _ _ _))).
  apply List.filter_In. split; [exact Hin | apply Nat.eqb_refl].
Qed.
End ApplicationListingFacts.

Lemma applications_listings_witness :
  (forall (D : Type) (path : D -> json) (desc : bool) (l : list D),
     Permutation (Engine.dbsort D path desc l) l) /\
  exists mine theirs,
    getMyApplications Engine.dbsort Fixture.as_bob Fixture2.applied_world
    = (Resolved (mkResponse 200 true None (Some mine)), Fixture2.applied_world) /\
    length mine = 1 /\
    getJobApplications Engine.dbsort 21 Fixture2.applied_world
    = (Resolved (mkResponse 200 true None (Some theirs)), Fixture2.applied_world) /\
    theirs = [].
Proof.
  split; [exact Engine_dbsort_perm |].
  destruct (applications_listings Engine.dbsort Engine_dbsort_perm Fixture.as_bob 21
              Fixture2.applied_world)
    as (mine & theirs & Hmine & Hperm & _ & Htheirs & _ & _ & Hempty).
  exists mine, theirs. split; [exact Hmine |].
  split.
  - apply Permutation_length in Hperm. rewrite length_fmap in Hperm.
    rewrite Hperm. reflexivity.
  - split; [exact Htheirs |]. apply Hempty.
    intros a [<- | []]. simpl. discriminate.
Defined.

Lemma application_is_listed_at_once_witness :
  (forall (D : Type) (path : D -> json) (desc : bool) (l : list D),
     Permutation (Engine.dbsort D path desc l) l) /\
  findById Job._id 20 (jobs Fixture.world) = Some Fixture.open_job /\
  (now Fixture.env <= Job.applicationDeadline Fixture.open_job)%Z /\
  findOne Application.job Application.applicant 20 (caller_id Fixture.as_bob)
    (applications Fixture.world) = None /\
  exists a w1 mine theirs,
    applyForJob Fixture.env Fixture.as_bob 20 (Some "Dear Acme") Fixture.world
    = (Resolved (mkResponse 201 true
                   (Some (Literal "Application submitted successfully")) (Some a)), w1) /\
    getMyApplications Engine.dbsort Fixture.as_bob w1
    = (Resolved (mkResponse 200 true None (Some mine)), w1) /\
    application <$> mine = [a] /\
    getJobApplications Engine.dbsort 20 w1
    = (Resolved (mkResponse 200 true None (Some theirs)), w1) /\
    doc <$> theirs = [a].
Proof.
  assert (H1 : findById Job._id 20 (jobs Fixture.world) = Some Fixture.open_job)
    by reflexivity.
  assert (H2 : (now Fixture.env <= Job.applicationDeadline Fixture.open_job)%Z)
    by (simpl; lia).
  assert (H3 : findOne Application.job Application.applicant 20
                 (caller_id Fixture.as_bob) (applications Fixture.world) = None)
    by reflexivity.
  assert (H4 : forall c, Some "Dear Acme" = Some c -> String.length c <= 1000)
    by (intros c [= <-]; simpl; lia).
  split; [exact Engine_dbsort_perm |].
  repeat (split; [assumption |]).
  destruct (application_is_listed_at_once Engine.dbsort Engine_dbsort_perm
              Fixture.env Fixture.as_bob 20 (Some "Dear Acme") Fixture.world
              Fixture.open_job H1 H2 H3 H4)
    as (a & w1 & mine & theirs & Hrun & Hmine & _ & Htheirs & _).
  exists a, w1, mine, theirs. split; [exact Hrun |]. split; [exact Hmine |].
  vm_compute in Hrun. injection Hrun as <- <-.
  vm_compute in Hmine. injection Hmine as <-.
  split; [reflexivity |]. split; [exact Htheirs |].
  vm_compute in Htheirs. injection Htheirs as <-. reflexivity.
Defined.

(** ** The e-mail validator *)

Lemma dot_then_more_spec (t : list ascii) :
  dot_then_more t = true <->
  exists b c, t = b ++ "."%char :: c /\ c <> [].
Proof.
  induction t as [| x t IH]; simpl.
  - split; [discriminate |]. intros (b & c & H & _). destruct b; discriminate.
  - destruct t as [| y t'].
    + split; [discriminate |]. intros (b & c & H & Hc). exfalso.
      destruct b as [| x' b]; simpl in H.
      * injection H as _ H. apply Hc. symmetry. exact H.
      * injection H as _ H. destruct b; discriminate H.
    + rewrite orb_true_iff, IH. split.
      * intros [Hx | (b & c & Ht & Hc)].
        -- apply Ascii.eqb_eq in Hx. subst x. exists [], (y :: t'). split; [reflexivity |].
           discriminate.
        -- exists (x :: b), c. rewrite Ht. split; [reflexivity | exact Hc].
      * intros (b & c & H & Hc). destruct b as [| x' b]; simpl in H; injection H as -> H.
        -- left. apply Ascii.eqb_refl.
        -- right. exists b, c. auto.
Qed.

Lemma dot_inside_spec (t : list ascii) :
  dot_inside t = true <->
  exists b c, t = b ++ "."%char :: c /\ b <> [] /\ c <> [].
Proof.
  destruct t as [| x t]; simpl.
  - split; [discriminate |]. intros (b & c & H & _). destruct b; discriminate.
  - rewrite dot_then_more_spec. split.
    + intros (b & c & -> & Hc). exists (x :: b), c.
      split; [reflexivity | split; [discriminate | exact Hc]].
    + intros (b & c & H & Hb & Hc). destruct b as [| x' b]; [contradiction |].
      simpl in H. injection H as -> ->. exists b, c. auto.
Qed.

Lemma at_then_domain_spec (s : list ascii) :
  at_then_domain s = true <->
  exists a b c, s = a ++ "@"%char :: b ++ "."%char :: c /\ b <> [] /\ c <> [].
Proof.
  induction s as [| x s IH]; simpl.
  - split; [discriminate |]. intros (a & b & c & H & _). destruct a; discriminate.
  - rewrite orb_true_iff, andb_true_iff, IH, dot_inside_spec. split.
    + intros [[Hx (b & c & -> & Hb & Hc)] | (a & b & c & -> & Hb & Hc)].
      * apply Ascii.eqb_eq in Hx. subst x. exists [], b, c. auto.
      * exists (x :: a), b, c. auto.
    + intros (a & b & c & H & Hb & Hc). destruct a as [| x' a]; simpl in H;
        injection H as -> ->.
      * left. split; [apply Ascii.eqb_refl |]. exists b, c. auto.
      * right. exists a, b, c. auto.
Qed.

